(** * Mulberry: budburst phenology and frost damage

    A shallow embedding of [src/phen.py], [src/frost_damage.py] and the
    script [src/climate.py].

    Conventions of the embedding.
    - Python floats are read as exact real numbers ([R]): rounding, NaN and
      the infinities are outside the model.  Division by a zero [F_mature]
      is therefore outside its faithful range; no statement below depends
      on the value of a quotient by zero.  The same holds for the tangent
      at exactly 90 degrees of latitude, where numpy returns a large finite
      number: the concrete latitudes used below are 0 and 89.
    - A [pd.Timestamp] is the triple (year, day of year, hour), compared
      lexicographically; [tm_yday] is the day of year the photoperiod uses.
    - The daily frame of [predict_budburst] is a list of labelled rows
      (index label, date, temperature).  The hourly frame of
      [compute_cumulative_frost_damage] is a [DatetimeIndex] together with
      named float columns, kept in insertion order.
    - pandas and numpy primitives are modelled by their documented
      behaviour on well-formed frames: [sort_values] is a sort by the key
      column, label slicing [df.loc[a:b]] on a monotonic increasing index
      keeps the rows with [a <= t <= b], [apply(axis=1)] yields one value
      per row, [sum] of an empty column is 0.
    - A missing column is the only exception a frame operation can raise
      ([KeyError]); fallible functions return [option].
    - Frames are heap objects.  The value-level functions give the result
      of a call; the store-level procedures at the end of the definitions
      thread a heap of frames, so that aliasing and mutation are visible. *)

From Stdlib Require Import Reals Lra Lia List ZArith Bool String.
From Stdlib Require Import Sorting.Sorted Sorting.Permutation.
From stdpp Require Import gmap.
Import ListNotations.
Local Open Scope R_scope.

(* ===================================================================== *)
(** * Numbers and comparisons *)
(* ===================================================================== *)

(** Python's [x <= y] and [x < y] on floats, as booleans. *)
Definition Rleb (x y : R) : bool := if Rle_dec x y then true else false.
Definition Rltb (x y : R) : bool := if Rlt_dec x y then true else false.

(** [sum()] of a float column. *)
Definition Rsum (l : list R) : R := fold_right Rplus 0 l.

(** [np.radians]. *)
Definition radians (deg : R) : R := deg * PI / 180.

(** [np.clip(x, lo, hi)] is [minimum(maximum(x, lo), hi)]. *)
Definition clip (x lo hi : R) : R := Rmin (Rmax x lo) hi.

(** [np.maximum(0, col - T_base)], element-wise. *)
Definition maximum0_minus (col : list R) (T_base : R) : list R :=
  map (fun T => Rmax 0 (T - T_base)) col.

(** [Series.cumsum]: running sums, carried left to right. *)
Fixpoint cumsum_from (acc : R) (l : list R) : list R :=
  match l with
  | [] => []
  | x :: xs => (acc + x) :: cumsum_from (acc + x) xs
  end.

Definition cumsum (l : list R) : list R := cumsum_from 0 l.

(* ===================================================================== *)
(** * Timestamps *)
(* ===================================================================== *)

Record Timestamp : Type := mkTimestamp {
  year : Z;
  tm_yday : Z;   (* day of year, 1..366 *)
  hour : Z       (* hour of day, 0..23 *)
}.

Definition ts_compare (a b : Timestamp) : comparison :=
  match (year a ?= year b)%Z with
  | Eq => match (tm_yday a ?= tm_yday b)%Z with
          | Eq => (hour a ?= hour b)%Z
          | c => c
          end
  | c => c
  end.

Definition ts_leb (a b : Timestamp) : bool :=
  match ts_compare a b with Gt => false | _ => true end.

Definition ts_ltb (a b : Timestamp) : bool :=
  match ts_compare a b with Lt => true | _ => false end.

Definition ts_le (a b : Timestamp) : Prop := ts_leb a b = true.

(** A calendar date: midnight of day [d] of year [y]. *)
Definition calendar_day (y d : Z) : Timestamp := mkTimestamp y d 0.

(* ===================================================================== *)
(** * phen.py *)
(* ===================================================================== *)

(** [calculate_photoperiod(date, latitude)]. *)
Definition calculate_photoperiod (date : Timestamp) (latitude : R) : R :=
  let lat_rad := radians latitude in
  let day_of_year := IZR (tm_yday date) in
  let decl := radians (2344 / 100) * sin (2 * PI * (day_of_year - 81) / 365) in
  let cos_omega := (- tan lat_rad) * tan decl in
  let cos_omega := clip cos_omega (-1) 1 in
  let omega := acos cos_omega in
  let day_length := (24 / PI) * omega in
  day_length.

(** [chilling_unit(T)]: [1 if 0 <= T <= 7 else 0]. *)
Definition chilling_unit (T : R) : R :=
  if Rleb 0 T && Rleb T 7 then 1 else 0.

(** [forcing_unit(T, photoperiod, T_base, alpha)]. *)
Definition forcing_unit (T photoperiod T_base alpha : R) : R :=
  if Rltb T_base T then
    let factor := 1 + alpha * (photoperiod - 12) in
    (T - T_base) * factor
  else 0.

(** One record of the daily frame: the columns "date" and "temperature". *)
Record Row : Type := mkRow {
  date : Timestamp;
  temperature : R
}.

(** The daily frame: rows with their index labels, in frame order. *)
Definition DataFrame : Type := list (Z * Row).

(** [df.sort_values('date')]: rows reordered by date, each keeping its
    index label.  Rows with equal dates keep their relative order (pandas
    leaves the order of ties to the sorting kind). *)
Fixpoint insert_by_date (x : Z * Row) (l : DataFrame) : DataFrame :=
  match l with
  | [] => [x]
  | y :: ys =>
      if ts_leb (date (snd x)) (date (snd y)) then x :: y :: ys
      else y :: insert_by_date x ys
  end.

Fixpoint sort_values (df : DataFrame) : DataFrame :=
  match df with
  | [] => []
  | x :: xs => insert_by_date x (sort_values xs)
  end.

(** [df.reset_index(drop=True)]: the labels become 0, 1, 2, ... *)
Definition reset_index (df : DataFrame) : DataFrame :=
  combine (map Z.of_nat (seq 0 (length df))) (map snd df).

(** Rows in date order, oldest first. *)
Definition date_le (x y : Z * Row) : Prop := ts_le (date (snd x)) (date (snd y)).

(** The local variables of [predict_budburst]. *)
Record locals : Type := mkLocals {
  chilling_sum : R;
  forcing_sum : R;
  budburst_date : option Timestamp;   (* [None] until budburst *)
  chilling_phase : bool
}.

(** How an iteration of the [for] loop ends. *)
Inductive flow : Type := Next | Break.

Section PredictBudburst.

Variables latitude chilling_threshold forcing_threshold T_base alpha : R.

(** The body of [for idx, row in df.iterrows()]. *)
Definition loop_body (st : locals) (item : Z * Row) : flow * locals :=
  let row := snd item in
  let current_date := date row in
  let T := temperature row in
  let photoperiod := calculate_photoperiod current_date latitude in
  if chilling_phase st then
    let chilling_sum' := chilling_sum st + chilling_unit T in
    if Rleb chilling_threshold chilling_sum' then
      (Next, mkLocals chilling_sum' 0 (budburst_date st) false)
    else
      (Next, mkLocals chilling_sum' (forcing_sum st) (budburst_date st) true)
  else
    let forcing_sum' := forcing_sum st + forcing_unit T photoperiod T_base alpha in
    if Rleb forcing_threshold forcing_sum' then
      (Break, mkLocals (chilling_sum st) forcing_sum' (Some current_date) false)
    else
      (Next, mkLocals (chilling_sum st) forcing_sum' (budburst_date st) false).

Fixpoint iterrows_loop (st : locals) (rows : DataFrame) : locals :=
  match rows with
  | [] => st
  | item :: rest =>
      match loop_body st item with
      | (Break, st') => st'
      | (Next, st') => iterrows_loop st' rest
      end
  end.

End PredictBudburst.

(** The values of the locals before the loop. *)
Definition initial_locals : locals := mkLocals 0 0 None true.

(** [predict_budburst(df, latitude, chilling_threshold, forcing_threshold,
    T_base, alpha)]; the result [None] is Python's [None]. *)
Definition predict_budburst (df : DataFrame)
    (latitude chilling_threshold forcing_threshold T_base alpha : R)
  : option Timestamp :=
  let df := reset_index (sort_values df) in
  budburst_date
    (iterrows_loop latitude chilling_threshold forcing_threshold T_base alpha
                   initial_locals df).

(** ** The two-phase machine, as the specification words it

    Phases CHILLING and FORCING; a run over the remaining records ends in
    BUDBURST at a date or EXHAUSTED in the phase it was still in.  The
    relation carries the two accumulators of the specification. *)

Inductive Phase : Type := CHILLING | FORCING.

Inductive Outcome : Type :=
  | BUDBURST (d : Timestamp)
  | EXHAUSTED (p : Phase).

Definition outcome_date (o : Outcome) : option Timestamp :=
  match o with
  | BUDBURST d => Some d
  | EXHAUSTED _ => None
  end.

(** The phase and the outcome a state of the locals stands for. *)
Definition phase_of (st : locals) : Phase :=
  if chilling_phase st then CHILLING else FORCING.

Definition outcome_of (st : locals) : Outcome :=
  match budburst_date st with
  | Some d => BUDBURST d
  | None => EXHAUSTED (phase_of st)
  end.

Section Machine.

Variables latitude chilling_threshold forcing_threshold T_base alpha : R.

(** The forcing contribution of one record. *)
Definition forcing_of (r : Row) : R :=
  forcing_unit (temperature r) (calculate_photoperiod (date r) latitude)
               T_base alpha.

Inductive machine : Phase -> R -> R -> list Row -> Outcome -> Prop :=
| machine_exhausted : forall p c f,
    machine p c f [] (EXHAUSTED p)
| machine_chilling_stay : forall c f r rs o,
    c + chilling_unit (temperature r) < chilling_threshold ->
    machine CHILLING (c + chilling_unit (temperature r)) f rs o ->
    machine CHILLING c f (r :: rs) o
| machine_chilling_to_forcing : forall c f r rs o,
    chilling_threshold <= c + chilling_unit (temperature r) ->
    machine FORCING (c + chilling_unit (temperature r)) 0 rs o ->
    machine CHILLING c f (r :: rs) o
| machine_forcing_stay : forall c f r rs o,
    f + forcing_of r < forcing_threshold ->
    machine FORCING c (f + forcing_of r) rs o ->
    machine FORCING c f (r :: rs) o
| machine_forcing_to_budburst : forall c f r rs,
    forcing_threshold <= f + forcing_of r ->
    machine FORCING c f (r :: rs) (BUDBURST (date r)).

(** Accumulated units over a run of records. *)
Definition chilling_total (rows : list Row) : R :=
  Rsum (map (fun r => chilling_unit (temperature r)) rows).

Definition forcing_total (rows : list Row) : R :=
  Rsum (map forcing_of rows).

(** No non-empty prefix of [rows] reaches the threshold. *)
Definition chilling_unmet (rows : list Row) : Prop :=
  forall k, (1 <= k <= length rows)%nat ->
    chilling_total (firstn k rows) < chilling_threshold.

Definition forcing_unmet (rows : list Row) : Prop :=
  forall k, (1 <= k <= length rows)%nat ->
    forcing_total (firstn k rows) < forcing_threshold.

(** The chilling threshold is first reached on record number [k]
    (counted from 1). *)
Definition chilling_met_at (k : nat) (rows : list Row) : Prop :=
  (1 <= k <= length rows)%nat /\
  chilling_unmet (firstn (k - 1) rows) /\
  chilling_threshold <= chilling_total (firstn k rows).

End Machine.

(* ===================================================================== *)
(** * frost_damage.py *)
(* ===================================================================== *)

(** [compute_forcing(hourly_temps, T_base)]. *)
Definition compute_forcing (hourly_temps : list R) (T_base : R) : list R :=
  let forcing_units := maximum0_minus hourly_temps T_base in
  let cumulative_forcing := cumsum forcing_units in
  cumulative_forcing.

(** [compute_phenological_stage(cum_forcing, F_mature)]: the quotient is a
    new series, then [s[s > 1] = 1] caps it in place. *)
Definition compute_phenological_stage (cum_forcing : list R) (F_mature : R)
  : list R :=
  let s := map (fun c => c / F_mature) cum_forcing in
  map (fun x => if Rltb 1 x then 1 else x) s.

(** [sensitivity_function(s)]. *)
Definition sensitivity_function (s : R) : R := 1 - s.

(** [hourly_frost_damage(T_hour, s, T_crit)]. *)
Definition hourly_frost_damage (T_hour s T_crit : R) : R :=
  let deficit := Rmax 0 (T_crit - T_hour) in
  let damage := sensitivity_function s * deficit in
  damage.

(** The hourly frame: a [DatetimeIndex] and named float columns. *)
Record Frame : Type := mkFrame {
  index : list Timestamp;
  columns : list (string * list R)
}.

Fixpoint assoc_get (c : string) (cols : list (string * list R))
  : option (list R) :=
  match cols with
  | [] => None
  | (k, v) :: rest => if String.eqb k c then Some v else assoc_get c rest
  end.

Fixpoint assoc_set (c : string) (v : list R) (cols : list (string * list R))
  : list (string * list R) :=
  match cols with
  | [] => [(c, v)]
  | (k, w) :: rest =>
      if String.eqb k c then (k, v) :: rest else (k, w) :: assoc_set c v rest
  end.

(** [df[c]]; [None] is [KeyError]. *)
Definition getitem (df : Frame) (c : string) : option (list R) :=
  assoc_get c (columns df).

(** [df[c] = v]: replaces the column, or appends a new one. *)
Definition setitem (df : Frame) (c : string) (v : list R) : Frame :=
  mkFrame (index df) (assoc_set c v (columns df)).

(** A frame is well formed when every column is as long as the index. *)
Definition well_formed (df : Frame) : Prop :=
  Forall (fun cv => length (snd cv) = length (index df)) (columns df).

(** [idx.is_monotonic_increasing]. *)
Fixpoint is_monotonic_increasing (idx : list Timestamp) : bool :=
  match idx with
  | [] => true
  | t :: rest =>
      match rest with
      | [] => true
      | u :: _ => ts_leb t u && is_monotonic_increasing rest
      end
  end.

(** Label slicing [df.loc[lo:hi]] on a monotonic increasing index: the rows
    whose label lies in the inclusive range. *)
Definition in_window (lo hi t : Timestamp) : bool :=
  ts_leb lo t && ts_leb t hi.

Definition select {A : Type} (mask : list bool) (l : list A) : list A :=
  map snd (List.filter fst (combine mask l)).

Definition loc_slice (df : Frame) (lo hi : Timestamp) : Frame :=
  let mask := map (in_window lo hi) (index df) in
  mkFrame (select mask (index df))
          (map (fun cv => (fst cv, select mask (snd cv))) (columns df)).

(** [df.copy()]: a frame with the same content.  As a value it is the
    frame itself; the store-level [copy_m] allocates it as a new object. *)
Definition copy (df : Frame) : Frame := df.

(** [df.apply(lambda row: f(row[c1], row[c2]), axis=1)]. *)
Definition apply_axis1 (df : Frame) (c1 c2 : string) (f : R -> R -> R)
  : option (list R) :=
  x ← getitem df c1;
  y ← getitem df c2;
  Some (map (fun p => f (fst p) (snd p)) (combine x y)).

(** [compute_cumulative_frost_damage(df, budburst_time, end_time, T_crit,
    T_base, F_mature)]: the pair [(total_damage, df_period)]. *)
Definition compute_cumulative_frost_damage
    (df : Frame) (budburst_time end_time : Timestamp)
    (T_crit T_base F_mature : R) : option (R * Frame) :=
  let df_period := copy (loc_slice df budburst_time end_time) in
  temp ← getitem df_period "temperature";
  let df_period := setitem df_period "forcing" (maximum0_minus temp T_base) in
  forcing ← getitem df_period "forcing";
  let df_period := setitem df_period "cum_forcing" (cumsum forcing) in
  cum_forcing ← getitem df_period "cum_forcing";
  let df_period :=
    setitem df_period "s" (compute_phenological_stage cum_forcing F_mature) in
  damage ← apply_axis1 df_period "temperature" "s"
             (fun T s => hourly_frost_damage T s T_crit);
  let df_period := setitem df_period "hourly_damage" damage in
  hourly_damage ← getitem df_period "hourly_damage";
  let total_damage := Rsum hourly_damage in
  Some (total_damage, df_period).

(** ** The stage series, as the specification words it

    [s[t] = min(1, cum_forcing[t] / F_mature)] with [cum_forcing[t]] the sum
    of [max(0, T[j] - T_base)] over the hours [j <= t] of the window. *)
Definition spec_cum_forcing (temps : list R) (T_base : R) (t : nat) : R :=
  Rsum (map (fun T => Rmax 0 (T - T_base)) (firstn (S t) temps)).

Definition spec_stage (temps : list R) (T_base F_mature : R) (t : nat) : R :=
  Rmin 1 (spec_cum_forcing temps T_base t / F_mature).

Definition spec_damage (temps : list R) (T_crit T_base F_mature : R)
    (t : nat) (T_hour : R) : R :=
  (1 - spec_stage temps T_base F_mature t) * Rmax 0 (T_crit - T_hour).

(* ===================================================================== *)
(** * Frames as heap objects *)
(* ===================================================================== *)

(** A heap maps references to frames.  A computation takes a heap to a
    result, or [None] when an exception was raised, and the heap after. *)
Abbreviation ref := positive.

Section Store.

Context {A : Type}.

Definition M (X : Type) : Type := gmap ref A -> option X * gmap ref A.

Definition ret {X : Type} (x : X) : M X := fun h => (Some x, h).

Definition bind {X Y : Type} (m : M X) (k : X -> M Y) : M Y :=
  fun h =>
    match m h with
    | (Some x, h') => k x h'
    | (None, h') => (None, h')
    end.

(** Lift a fallible value-level operation. *)
Definition lift {X : Type} (o : option X) : M X := fun h => (o, h).

(** Allocate a new object. *)
Definition new (a : A) : M ref :=
  fun h => let l := fresh (dom h) in (Some l, <[l := a]> h).

(** Read the object behind a reference. *)
Definition deref (l : ref) : M A := fun h => (h !! l, h).

(** Overwrite the object behind a reference. *)
Definition assign (l : ref) (a : A) : M unit :=
  fun h => (Some tt, <[l := a]> h).

End Store.

#[global] Instance store_ret {A : Type} : MRet (@M A) := fun X x => ret x.
#[global] Instance store_bind {A : Type} : MBind (@M A) :=
  fun X Y k m => bind m k.

(** ** phen.py on the heap *)

Definition sort_values_m (df : ref) : @M DataFrame ref :=
  f ← deref df; new (sort_values f).

Definition reset_index_m (df : ref) : @M DataFrame ref :=
  f ← deref df; new (reset_index f).

(** [df = df.sort_values('date').reset_index(drop=True)] rebinds the local
    name [df] to a new object; the loop then reads that object. *)
Definition predict_budburst_m (df : ref)
    (latitude chilling_threshold forcing_threshold T_base alpha : R)
  : @M DataFrame (option Timestamp) :=
  sorted ← sort_values_m df;
  df ← reset_index_m sorted;
  rows ← deref df;
  mret (budburst_date
          (iterrows_loop latitude chilling_threshold forcing_threshold
                         T_base alpha initial_locals rows)).

(** ** frost_damage.py on the heap *)

Definition loc_slice_m (df : ref) (lo hi : Timestamp) : @M Frame ref :=
  f ← deref df; new (loc_slice f lo hi).

Definition copy_m (df : ref) : @M Frame ref :=
  f ← deref df; new (copy f).

Definition getitem_m (df : ref) (c : string) : @M Frame (list R) :=
  f ← deref df; lift (getitem f c).

(** [df[c] = v] mutates the object behind [df]. *)
Definition setitem_m (df : ref) (c : string) (v : list R) : @M Frame unit :=
  f ← deref df; assign df (setitem f c v).

Definition apply_axis1_m (df : ref) (c1 c2 : string) (fn : R -> R -> R)
  : @M Frame (list R) :=
  f ← deref df; lift (apply_axis1 f c1 c2 fn).

Definition compute_cumulative_frost_damage_m
    (df : ref) (budburst_time end_time : Timestamp)
    (T_crit T_base F_mature : R) : @M Frame (R * ref) :=
  window ← loc_slice_m df budburst_time end_time;
  df_period ← copy_m window;
  temp ← getitem_m df_period "temperature";
  setitem_m df_period "forcing" (maximum0_minus temp T_base);;
  forcing ← getitem_m df_period "forcing";
  setitem_m df_period "cum_forcing" (cumsum forcing);;
  cum_forcing ← getitem_m df_period "cum_forcing";
  setitem_m df_period "s"
    (compute_phenological_stage cum_forcing F_mature);;
  damage ← apply_axis1_m df_period "temperature" "s"
              (fun T s => hourly_frost_damage T s T_crit);
  setitem_m df_period "hourly_damage" damage;;
  hourly_damage ← getitem_m df_period "hourly_damage";
  mret (Rsum hourly_damage, df_period).

(** Every object of [h] is still there, unchanged, in [h']. *)
Definition unchanged {A : Type} (h h' : gmap ref A) : Prop :=
  forall l o, h !! l = Some o -> h' !! l = Some o.

(* ===================================================================== *)
(** * climate.py *)
(* ===================================================================== *)

(** The script reads two tables, an hourly reference series ([era5]) and
    a daily series ([cmip6]), and writes an hourly table.  The tables as
    loaded are lists of (timestamp, temperature) rows in file order; the
    table written is a frame with a "temperature" column.  Printing and
    file access are left out; [None] is the exception that ends the
    script. *)
Definition Table : Type := list (Timestamp * R).

(** [Series.mean()]. *)
Definition mean (l : list R) : R := Rsum l / INR (length l).

(** Two timestamps fall in the same bin of [resample('D')]. *)
Definition same_day (a b : Timestamp) : bool :=
  (year a =? year b)%Z && (tm_yday a =? tm_yday b)%Z.

(** [era5.resample('D')['temperature'].transform('mean')], at the row with
    timestamp [t]: the mean temperature of the rows of its day. *)
Definition daily_mean (era5 : Table) (t : Timestamp) : R :=
  mean (map snd (List.filter (fun r => same_day (fst r) t) era5)).

(** [era5['hourly_deviation'] = era5['temperature'] - era5['daily_mean']]. *)
Definition hourly_deviation (era5 : Table) : Table :=
  map (fun r => (fst r, snd r - daily_mean era5 (fst r))) era5.

(** The deviations of the rows whose [index.hour] is [h]. *)
Definition deviations_at (era5 : Table) (h : Z) : list R :=
  map snd (List.filter (fun r => (hour (fst r) =? h)%Z) (hourly_deviation era5)).

(** [diurnal_pattern.loc[h]], where [diurnal_pattern =
    era5.groupby('hour')['hourly_deviation'].mean()]: a [KeyError] when no
    row has that hour. *)
Definition diurnal_pattern (era5 : Table) (h : Z) : option R :=
  match deviations_at era5 h with
  | [] => None
  | devs => Some (mean devs)
  end.

(** [range(24)]. *)
Definition range24 : list Z := map Z.of_nat (seq 0 24).

(** Calendar arithmetic for [pd.Timestamp(d) + pd.Timedelta(hours=h)] with
    [0 <= h < 24]: the hour moves on, into the next day or year when it
    passes midnight. *)
Definition is_leap (y : Z) : bool :=
  (y mod 4 =? 0)%Z && (negb (y mod 100 =? 0)%Z || (y mod 400 =? 0)%Z).

Definition days_in_year (y : Z) : Z := if is_leap y then 366%Z else 365%Z.

Definition add_hours (t : Timestamp) (h : Z) : Timestamp :=
  let hh := (hour t + h)%Z in
  if (hh <? 24)%Z then mkTimestamp (year t) (tm_yday t) hh
  else if (tm_yday t <? days_in_year (year t))%Z
       then mkTimestamp (year t) (tm_yday t + 1) (hh - 24)
       else mkTimestamp (year t + 1) 1 (hh - 24).

(** The inner loop [for hour in range(24)] for one daily row. *)
Fixpoint hours_loop (era5 : Table) (current_date : Timestamp)
    (daily_temp : R) (hours : list Z) : option Table :=
  match hours with
  | [] => Some []
  | h :: rest =>
      p ← diurnal_pattern era5 h;
      let hourly_temp := daily_temp + p in
      let timestamp := add_hours current_date h in
      records ← hours_loop era5 current_date daily_temp rest;
      Some ((timestamp, hourly_temp) :: records)
  end.

(** The outer loop [for current_date, row in cmip6.iterrows()]: the list
    [hourly_records]. *)
Fixpoint hourly_records (era5 cmip6 : Table) : option Table :=
  match cmip6 with
  | [] => Some []
  | (current_date, daily_temp) :: rest =>
      day ← hours_loop era5 current_date daily_temp range24;
      records ← hourly_records era5 rest;
      Some (day ++ records)
  end.

(** [sort_index]: rows reordered by timestamp, ties in their order. *)
Fixpoint insert_by_index (x : Timestamp * R) (l : Table) : Table :=
  match l with
  | [] => [x]
  | y :: ys =>
      if ts_leb (fst x) (fst y) then x :: y :: ys
      else y :: insert_by_index x ys
  end.

Fixpoint sort_index (l : Table) : Table :=
  match l with
  | [] => []
  | x :: xs => insert_by_index x (sort_index xs)
  end.

(** [pd.DataFrame(hourly_records)] followed by [set_index('datetime')] and
    [sort_index]: a frame built from an empty list has no columns, and
    [set_index] then raises [KeyError]. *)
Definition hourly_frame (records : Table) : option Frame :=
  match records with
  | [] => None
  | _ =>
      let sorted := sort_index records in
      Some (mkFrame (map fst sorted) [ ("temperature"%string, map snd sorted) ])
  end.

(** The script: from the two tables as loaded to the table written. *)
Definition disaggregate (era5 cmip6 : Table) : option Frame :=
  records ← hourly_records era5 cmip6;
  hourly_frame records.

(** A timestamp whose hour is an hour of the day. *)
Definition valid_hour (t : Timestamp) : Prop := (0 <= hour t < 24)%Z.

(* ===================================================================== *)
(** * Derived quantities *)
(* ===================================================================== *)

(** The test of [chilling_unit]: [0 <= T <= 7]. *)
Definition is_chilling_day (T : R) : bool := Rleb 0 T && Rleb T 7.

(** The number of records of a daily frame that count as chilling days. *)
Definition chilling_days (df : DataFrame) : nat :=
  length (List.filter (fun item => is_chilling_day (temperature (snd item))) df).

(** The "date" column of a daily frame. *)
Definition dates (df : DataFrame) : list Timestamp :=
  map (fun item => date (snd item)) df.

(** The part of a column of [df] that lies in the window [lo, hi]. *)
Definition window {A : Type} (df : Frame) (lo hi : Timestamp) (col : list A)
  : list A :=
  select (map (in_window lo hi) (index df)) col.

(** The thermal deficit of an hour, [max(0, T_crit - T_hour)]. *)
Definition deficit_of (T_crit T_hour : R) : R := Rmax 0 (T_crit - T_hour).

(** The hourly damage column computed from the temperatures and the
    stages of a window. *)
Definition damage_column (temps s : list R) (T_crit : R) : list R :=
  map (fun p => hourly_frost_damage (fst p) (snd p) T_crit) (combine temps s).

(* ===================================================================== *)
(** * Sample inputs *)
(* ===================================================================== *)

(** Two records at the equator: a chilling day, then a mild day. *)
Definition two_days : DataFrame :=
  [ (0%Z, mkRow (calendar_day 2024 2) 10);
    (1%Z, mkRow (calendar_day 2024 1) 3) ].

(** Two mild days in the polar night, 89 degrees north. *)
Definition polar_days : DataFrame :=
  [ (0%Z, mkRow (calendar_day 2023 365) 10);
    (1%Z, mkRow (calendar_day 2024 1) 10) ].

(** Three hours of 1 April 2023: a frost, a warm hour, a cool hour. *)
Definition three_hours : Frame :=
  mkFrame [ mkTimestamp 2023 91 0; mkTimestamp 2023 91 1;
            mkTimestamp 2023 91 2 ]
          [ ("temperature"%string, [- 2; 6; 1]) ].

(** One reference day, hour by hour, and two daily values. *)
Definition era5_day : Table :=
  map (fun h => (mkTimestamp 2020 1 h, IZR h)) range24.

Definition cmip6_two : Table :=
  [ (calendar_day 2050 1, 10); (calendar_day 2050 2, 12) ].

(* ===================================================================== *)
(** * Properties *)
(* ===================================================================== *)

(** ** Comparisons *)

Lemma Rleb_true (x y : R) : Rleb x y = true <-> x <= y.
Proof. unfold Rleb. destruct (Rle_dec x y); split; intros; auto; discriminate. Qed.

Lemma Rleb_false (x y : R) : Rleb x y = false <-> y < x.
Proof.
  unfold Rleb. destruct (Rle_dec x y); split; intros; auto; try discriminate; lra.
Qed.

Lemma Rltb_true (x y : R) : Rltb x y = true <-> x < y.
Proof. unfold Rltb. destruct (Rlt_dec x y); split; intros; auto; discriminate. Qed.

Lemma Rltb_false (x y : R) : Rltb x y = false <-> y <= x.
Proof.
  unfold Rltb. destruct (Rlt_dec x y); split; intros; auto; try discriminate; lra.
Qed.

(** Decide a concrete comparison. *)
Ltac Rdecide :=
  repeat match goal with
  | |- context [Rleb ?x ?y] =>
      first [ rewrite (proj2 (Rleb_true x y)) by lra
            | rewrite (proj2 (Rleb_false x y)) by lra ]
  | |- context [Rltb ?x ?y] =>
      first [ rewrite (proj2 (Rltb_true x y)) by lra
            | rewrite (proj2 (Rltb_false x y)) by lra ]
  end.

(** ** The thermal-unit functions *)

Lemma chilling_unit_cases (T : R) :
  (0 <= T <= 7 /\ chilling_unit T = 1) \/
  (~ (0 <= T <= 7) /\ chilling_unit T = 0).
Proof.
  unfold chilling_unit.
  destruct (Rleb 0 T) eqn:E1; destruct (Rleb T 7) eqn:E2; simpl;
    try apply Rleb_true in E1; try apply Rleb_true in E2;
    try apply Rleb_false in E1; try apply Rleb_false in E2;
    [left | right | right | right]; split; auto; lra.
Qed.

Lemma chilling_unit_nonneg (T : R) : 0 <= chilling_unit T.
Proof. destruct (chilling_unit_cases T) as [[_ ->] | [_ ->]]; lra. Qed.

(** C7.  [forcing_unit] is 0 when [T <= T_base] and otherwise exactly
    [(T - T_base) * (1 + alpha * (p - 12))]; the product is not clamped:
    with [alpha > 0] and [p < 12] it can be negative, as it is for
    T = 10, p = 0, T_base = 5 and alpha = 1/10, where it is -1. *)
Theorem forcing_unit_spec (T p T_base alpha : R) :
  (T <= T_base -> forcing_unit T p T_base alpha = 0) /\
  (T_base < T ->
     forcing_unit T p T_base alpha = (T - T_base) * (1 + alpha * (p - 12))) /\
  (exists T' p' T_base' alpha',
     0 < alpha' /\ p' < 12 /\ forcing_unit T' p' T_base' alpha' < 0).
Proof.
  unfold forcing_unit. repeat split.
  - intros H. Rdecide. reflexivity.
  - intros H. Rdecide. reflexivity.
  - exists 10, 0, 5, (1 / 10). repeat split; try lra.
    Rdecide. lra.
Qed.

Lemma forcing_unit_spec_witness :
  forcing_unit 3 12 5 (1 / 10) = 0 /\
  forcing_unit 10 2 5 (1 / 10) = (10 - 5) * (1 + 1 / 10 * (2 - 12)).
Proof.
  split.
  - apply (proj1 (forcing_unit_spec 3 12 5 (1 / 10))). lra.
  - apply (proj1 (proj2 (forcing_unit_spec 10 2 5 (1 / 10)))). lra.
Defined.

(** ** The photoperiod *)

Lemma clip_bounds (x : R) : -1 <= clip x (-1) 1 <= 1.
Proof.
  unfold clip, Rmin, Rmax.
  destruct (Rle_dec x (-1)); destruct (Rle_dec _ 1); lra.
Qed.

Lemma clip_above (x : R) : 1 <= x -> clip x (-1) 1 = 1.
Proof.
  intros H. unfold clip, Rmin, Rmax.
  destruct (Rle_dec x (-1)); destruct (Rle_dec _ 1); lra.
Qed.

Lemma clip_below (x : R) : x <= -1 -> clip x (-1) 1 = -1.
Proof.
  intros H. unfold clip, Rmin, Rmax.
  destruct (Rle_dec x (-1)); destruct (Rle_dec _ 1); lra.
Qed.

Lemma PI_gt_3 : 3 < PI.
Proof. pose proof PI2_3_2. lra. Qed.

(** When the two angles add up to at least a right angle, the product of
    their tangents is at least 1. *)
Lemma tan_mult_ge_1 (x y : R) :
  0 < x < PI / 2 -> 0 < y < PI / 2 -> PI / 2 <= x + y ->
  1 <= tan x * tan y.
Proof.
  intros Hx Hy Hxy.
  assert (Hcx : 0 < cos x) by (apply cos_gt_0; lra).
  assert (Hcy : 0 < cos y) by (apply cos_gt_0; lra).
  assert (Hc : cos (x + y) <= 0) by (apply cos_le_0; lra).
  rewrite cos_plus in Hc.
  unfold tan.
  replace (sin x / cos x * (sin y / cos y))
    with ((sin x * sin y) / (cos x * cos y)) by (field; lra).
  apply Rmult_le_reg_r with (cos x * cos y).
  - apply Rmult_lt_0_compat; assumption.
  - replace (sin x * sin y / (cos x * cos y) * (cos x * cos y))
      with (sin x * sin y) by (field; lra).
    lra.
Qed.

(** The sine of the day-of-year angle on 1 January. *)
Lemma sin_new_year : 1 / 2 <= sin (32 * PI / 73) <= 1.
Proof.
  pose proof PI_gt_3 as HPI.
  split; [ | apply SIN_bound ].
  rewrite <- sin_PI6.
  apply sin_incr_1; lra.
Qed.

(** At 89 degrees north on 1 January the clipped cosine is 1 and the day
    length is exactly 0: the polar night. *)
Lemma photoperiod_polar_night :
  calculate_photoperiod (calendar_day 2024 1) 89 = 0.
Proof.
  pose proof PI_gt_3 as HPI. pose proof PI_4 as HPI4.
  pose proof sin_new_year as Hs.
  unfold calculate_photoperiod, calendar_day, radians; simpl tm_yday.
  replace (2 * PI * (1 - 81) / 365) with (- (32 * PI / 73)) by lra.
  rewrite sin_neg.
  set (s := sin (32 * PI / 73)) in *.
  replace (2344 / 100 * PI / 180 * - s)
    with (- (2344 / 100 * PI / 180 * s)) by lra.
  rewrite tan_neg.
  replace (- tan (89 * PI / 180) * - tan (2344 / 100 * PI / 180 * s))
    with (tan (89 * PI / 180) * tan (2344 / 100 * PI / 180 * s)) by lra.
  rewrite clip_above.
  - rewrite acos_1. lra.
  - assert (Hlo : 2344 / 100 * PI / 180 * (1 / 2) <= 2344 / 100 * PI / 180 * s)
      by (apply Rmult_le_compat_l; lra).
    assert (Hhi : 2344 / 100 * PI / 180 * s <= 2344 / 100 * PI / 180 * 1)
      by (apply Rmult_le_compat_l; lra).
    apply tan_mult_ge_1; lra.
Qed.

(** C9, as the code has it.  For every date and every latitude in
    [-90, 90] the day length lies in the closed interval [0, 24]: the
    clipped cosine keeps the arc cosine within [0, pi]. *)
Theorem calculate_photoperiod_range (d : Timestamp) (latitude : R) :
  -90 <= latitude <= 90 ->
  0 <= calculate_photoperiod d latitude <= 24.
Proof.
  intros _. unfold calculate_photoperiod.
  set (c := clip _ _ _).
  pose proof (acos_bound c) as [H0 H1].
  pose proof PI_RGT_0 as HPI.
  split.
  - apply Rmult_le_pos; [ | exact H0 ].
    apply Rlt_le, Rdiv_lt_0_compat; lra.
  - replace 24 with (24 / PI * PI) at 2 by (field; lra).
    apply Rmult_le_compat_l; [ | exact H1 ].
    apply Rlt_le, Rdiv_lt_0_compat; lra.
Qed.

Lemma calculate_photoperiod_range_witness :
  0 <= calculate_photoperiod (calendar_day 2024 1) 89 <= 24.
Proof. apply (calculate_photoperiod_range (calendar_day 2024 1) 89). lra. Defined.

(** C9, as stated, fails: the day length is not strictly positive at
    89 degrees north on 1 January. *)
Lemma photoperiod_not_strictly_inside :
  -90 <= 89 <= 90 /\
  ~ (0 < calculate_photoperiod (calendar_day 2024 1) 89 < 24).
Proof.
  split; [ lra | ].
  rewrite photoperiod_polar_night. lra.
Qed.

(** At the equator the day length is 12 hours on every date. *)
Lemma photoperiod_equator (d : Timestamp) : calculate_photoperiod d 0 = 12.
Proof.
  pose proof PI_RGT_0 as HPI.
  unfold calculate_photoperiod, radians.
  replace (0 * PI / 180) with 0 by lra.
  rewrite tan_0.
  replace (- 0 * _) with 0 by lra.
  unfold clip, Rmin, Rmax.
  destruct (Rle_dec 0 (-1)); [ lra | ].
  destruct (Rle_dec 0 1); [ | lra ].
  rewrite acos_0. field. lra.
Qed.

(** ** Timestamps are totally ordered *)

Lemma ts_leb_spec (a b : Timestamp) :
  ts_leb a b = true <->
  (year a < year b \/
   (year a = year b /\
    (tm_yday a < tm_yday b \/ (tm_yday a = tm_yday b /\ hour a <= hour b))))%Z.
Proof.
  unfold ts_leb, ts_compare.
  destruct (Z.compare_spec (year a) (year b));
    destruct (Z.compare_spec (tm_yday a) (tm_yday b));
    destruct (Z.compare_spec (hour a) (hour b));
    split; intros; try discriminate; try reflexivity; lia.
Qed.

Lemma ts_leb_total (a b : Timestamp) : ts_leb a b = false -> ts_leb b a = true.
Proof.
  intros H. apply ts_leb_spec.
  destruct (ts_leb a b) eqn:E; [ discriminate | ].
  assert (Hn : ~ ts_leb a b = true) by (rewrite E; discriminate).
  rewrite ts_leb_spec in Hn. lia.
Qed.

Lemma ts_le_trans (a b c : Timestamp) : ts_le a b -> ts_le b c -> ts_le a c.
Proof. unfold ts_le. rewrite !ts_leb_spec. lia. Qed.

Lemma ts_le_refl (a : Timestamp) : ts_le a a.
Proof. unfold ts_le. rewrite ts_leb_spec. lia. Qed.

(** ** [sort_values] and [reset_index] *)

Lemma insert_by_date_perm (x : Z * Row) (l : DataFrame) :
  Permutation (x :: l) (insert_by_date x l).
Proof.
  induction l as [ | y ys IH]; simpl.
  - apply Permutation_refl.
  - destruct (ts_leb (date (snd x)) (date (snd y))).
    + apply Permutation_refl.
    + apply Permutation_trans with (y :: x :: ys).
      * apply perm_swap.
      * apply perm_skip, IH.
Qed.

Lemma sort_values_perm (df : DataFrame) : Permutation df (sort_values df).
Proof.
  induction df as [ | x xs IH]; simpl.
  - apply perm_nil.
  - apply Permutation_trans with (x :: sort_values xs).
    + apply perm_skip, IH.
    + apply insert_by_date_perm.
Qed.

Lemma insert_by_date_sorted (x : Z * Row) (l : DataFrame) :
  Sorted date_le l -> Sorted date_le (insert_by_date x l).
Proof.
  induction l as [ | y ys IH]; simpl; intros Hs.
  - repeat constructor.
  - destruct (ts_leb (date (snd x)) (date (snd y))) eqn:E.
    + constructor; [ exact Hs | constructor; exact E ].
    + inversion Hs as [ | ? ? Hs' Hhd]; subst.
      constructor; [ apply IH, Hs' | ].
      apply ts_leb_total in E.
      destruct ys as [ | z zs]; simpl.
      * constructor; exact E.
      * destruct (ts_leb (date (snd x)) (date (snd z))).
        -- constructor; exact E.
        -- inversion Hhd; subst. constructor; assumption.
Qed.

Lemma sort_values_sorted (df : DataFrame) : Sorted date_le (sort_values df).
Proof.
  induction df as [ | x xs IH]; simpl.
  - constructor.
  - apply insert_by_date_sorted, IH.
Qed.

Lemma sort_values_length (df : DataFrame) :
  length (sort_values df) = length df.
Proof. symmetry. apply Permutation_length, sort_values_perm. Qed.

Lemma map_snd_combine {A B : Type} (l1 : list A) (l2 : list B) :
  length l1 = length l2 -> map snd (combine l1 l2) = l2.
Proof.
  revert l2. induction l1 as [ | a l1 IH]; intros [ | b l2] Hlen; simpl in *;
    try discriminate; try reflexivity.
  f_equal. apply IH. lia.
Qed.

(** [reset_index] changes labels only. *)
Lemma reset_index_rows (df : DataFrame) : map snd (reset_index df) = map snd df.
Proof.
  unfold reset_index. apply map_snd_combine.
  rewrite !length_map, length_seq. reflexivity.
Qed.

(** ** The loop of [predict_budburst] *)

Section LoopFacts.

Variables latitude chilling_threshold forcing_threshold T_base alpha : R.

Local Abbreviation body :=
  (loop_body latitude chilling_threshold forcing_threshold T_base alpha).
Local Abbreviation loop :=
  (iterrows_loop latitude chilling_threshold forcing_threshold T_base alpha).
Local Abbreviation run :=
  (machine latitude chilling_threshold forcing_threshold T_base alpha).
Local Abbreviation fu := (forcing_of latitude T_base alpha).

(** The loop never looks at the index labels. *)
Lemma loop_labels (rows rows' : DataFrame) (st : locals) :
  map snd rows = map snd rows' -> loop st rows = loop st rows'.
Proof.
  revert rows' st.
  induction rows as [ | [i r] rows IH]; intros [ | [i' r'] rows'] st H;
    simpl in H; try discriminate; [ reflexivity | ].
  injection H as -> Hrest. simpl.
  unfold loop_body; simpl.
  destruct (chilling_phase st);
    match goal with |- context [Rleb ?a ?b] => destruct (Rleb a b) end;
    auto.
Qed.

(** The loop follows the transition rule of the machine. *)
Lemma loop_machine (rows : DataFrame) (st : locals) :
  budburst_date st = None ->
  run (phase_of st) (chilling_sum st) (forcing_sum st) (map snd rows)
      (outcome_of (loop st rows)).
Proof.
  revert st.
  induction rows as [ | [i r] rows IH]; intros [c f bd ph] Hbd;
    simpl in Hbd; subst bd.
  - simpl. unfold outcome_of; simpl. constructor.
  - simpl map. simpl loop. unfold loop_body; simpl.
    destruct ph; unfold phase_of at 1; simpl.
    + destruct (Rleb chilling_threshold (c + chilling_unit (temperature r)))
        eqn:E.
      * apply Rleb_true in E.
        apply machine_chilling_to_forcing; [ exact E | ].
        apply (IH (mkLocals _ 0 None false)); reflexivity.
      * apply Rleb_false in E.
        apply machine_chilling_stay; [ exact E | ].
        apply (IH (mkLocals _ f None true)); reflexivity.
    + fold (fu r).
      destruct (Rleb forcing_threshold (f + fu r)) eqn:E.
      * apply Rleb_true in E. unfold outcome_of; simpl.
        apply machine_forcing_to_budburst; exact E.
      * apply Rleb_false in E.
        apply machine_forcing_stay; [ exact E | ].
        apply (IH (mkLocals c _ None false)); reflexivity.
Qed.

(** The machine is deterministic. *)
Lemma machine_functional (p : Phase) (c f : R) (rows : list Row)
    (o o' : Outcome) :
  run p c f rows o -> run p c f rows o' -> o = o'.
Proof.
  intros H. revert o'.
  induction H; intros o' H'; inversion H'; subst;
    try reflexivity; try lra; auto.
Qed.

End LoopFacts.

(** C1.  [predict_budburst] processes the records oldest first (a sorted
    permutation of the input) and follows the two-phase transition rule:
    its result is the date of the one outcome the machine of the
    specification reaches from CHILLING with both sums at 0.  In
    CHILLING each record adds its chilling unit, and reaching the
    threshold switches to FORCING with the forcing sum 0 and no forcing
    for that record; in FORCING each record adds its forcing unit, and the
    first record that reaches the forcing threshold is the budburst date,
    whatever records follow. *)
Theorem predict_budburst_two_phase (df : DataFrame)
    (latitude chilling_threshold forcing_threshold T_base alpha : R) :
  let rows := map snd (sort_values df) in
  Permutation df (sort_values df) /\
  Sorted date_le (sort_values df) /\
  exists o : Outcome,
    machine latitude chilling_threshold forcing_threshold T_base alpha
            CHILLING 0 0 rows o /\
    (forall o', machine latitude chilling_threshold forcing_threshold T_base
                        alpha CHILLING 0 0 rows o' -> o' = o) /\
    predict_budburst df latitude chilling_threshold forcing_threshold
                     T_base alpha = outcome_date o.
Proof.
  intros rows.
  split; [ apply sort_values_perm | ].
  split; [ apply sort_values_sorted | ].
  pose proof (loop_machine latitude chilling_threshold forcing_threshold
                T_base alpha (reset_index (sort_values df)) initial_locals
                eq_refl) as Hm.
  rewrite reset_index_rows in Hm. simpl in Hm. fold rows in Hm.
  eexists. split; [ exact Hm | ]. split.
  - intros o' Ho'. eapply machine_functional; eassumption.
  - unfold predict_budburst, outcome_of.
    destruct (budburst_date _); reflexivity.
Qed.

(** ** Exhausted series *)

Section Exhaustion.

Variables latitude chilling_threshold forcing_threshold T_base alpha : R.

Local Abbreviation loop :=
  (iterrows_loop latitude chilling_threshold forcing_threshold T_base alpha).
Local Abbreviation fu := (forcing_of latitude T_base alpha).
Local Abbreviation ftotal := (forcing_total latitude T_base alpha).

(** While no prefix reaches the chilling threshold the loop only adds
    chilling units. *)
Lemma loop_chilling_unmet (rows : DataFrame) (c f : R)
    (bd : option Timestamp) :
  (forall k, (1 <= k <= length rows)%nat ->
     c + chilling_total (firstn k (map snd rows)) < chilling_threshold) ->
  loop (mkLocals c f bd true) rows
  = mkLocals (c + chilling_total (map snd rows)) f bd true.
Proof.
  revert c.
  induction rows as [ | [i r] rows IH]; intros c H.
  - simpl. unfold chilling_total; simpl. f_equal. lra.
  - simpl loop. unfold loop_body; simpl.
    assert (H1 : c + chilling_unit (temperature r) < chilling_threshold).
    { specialize (H 1%nat). simpl in H. unfold chilling_total in H.
      simpl in H.
      assert (Hk : (1 <= 1 <= S (length rows))%nat) by lia.
      specialize (H Hk). lra. }
    rewrite (proj2 (Rleb_false _ _) H1).
    rewrite IH.
    + unfold chilling_total; simpl. f_equal. lra.
    + intros k Hk. specialize (H (S k)).
      simpl in H. unfold chilling_total in *. simpl in H.
      assert (Hk' : (1 <= S k <= S (length rows))%nat) by lia.
      specialize (H Hk'). lra.
Qed.

(** In the forcing phase, while no prefix reaches the forcing threshold
    the loop only adds forcing units. *)
Lemma loop_forcing_unmet (rows : DataFrame) (c f : R)
    (bd : option Timestamp) :
  (forall k, (1 <= k <= length rows)%nat ->
     f + ftotal (firstn k (map snd rows)) < forcing_threshold) ->
  loop (mkLocals c f bd false) rows
  = mkLocals c (f + ftotal (map snd rows)) bd false.
Proof.
  revert f.
  induction rows as [ | [i r] rows IH]; intros f H.
  - simpl. unfold forcing_total; simpl. f_equal. lra.
  - simpl loop. unfold loop_body; simpl. fold (fu r).
    assert (H1 : f + fu r < forcing_threshold).
    { specialize (H 1%nat). simpl in H. unfold forcing_total in H.
      simpl in H.
      assert (Hk : (1 <= 1 <= S (length rows))%nat) by lia.
      specialize (H Hk). lra. }
    rewrite (proj2 (Rleb_false _ _) H1).
    rewrite IH.
    + unfold forcing_total; simpl. f_equal. lra.
    + intros k Hk. specialize (H (S k)).
      simpl in H. unfold forcing_total in *. simpl in H.
      assert (Hk' : (1 <= S k <= S (length rows))%nat) by lia.
      specialize (H Hk'). lra.
Qed.

(** When record [k] is the first to reach the chilling threshold, the
    loop enters the forcing phase there, with the forcing sum at 0. *)
Lemma loop_chilling_met (k : nat) (rows : DataFrame) (c f : R)
    (bd : option Timestamp) :
  (1 <= k <= length rows)%nat ->
  (forall j, (1 <= j <= k - 1)%nat ->
     c + chilling_total (firstn j (map snd rows)) < chilling_threshold) ->
  chilling_threshold <= c + chilling_total (firstn k (map snd rows)) ->
  loop (mkLocals c f bd true) rows
  = loop (mkLocals (c + chilling_total (firstn k (map snd rows))) 0 bd false)
         (skipn k rows).
Proof.
  revert k c.
  induction rows as [ | [i r] rows IH]; intros k c Hk Hlt Hge.
  - simpl in Hk. lia.
  - destruct k as [ | [ | k]]; [ lia | | ].
    + simpl in *. unfold chilling_total in *. simpl in *. unfold loop_body; simpl.
      rewrite (proj2 (Rleb_true _ _)) by lra.
      f_equal. f_equal. lra.
    + simpl loop. unfold loop_body; simpl.
      assert (H1 : c + chilling_unit (temperature r) < chilling_threshold).
      { specialize (Hlt 1%nat). simpl in Hlt. unfold chilling_total in Hlt.
        simpl in Hlt.
        assert (Hj : (1 <= 1 <= S k - 0)%nat) by lia.
        specialize (Hlt Hj). lra. }
      rewrite (proj2 (Rleb_false _ _) H1).
      rewrite (IH (S k)).
      * simpl. unfold chilling_total; simpl. f_equal. f_equal. lra.
      * simpl in Hk. lia.
      * intros j Hj. specialize (Hlt (S j)).
        simpl in Hlt. unfold chilling_total in *. simpl in Hlt.
        assert (Hj' : (1 <= S j <= S k - 0)%nat) by lia.
        specialize (Hlt Hj'). lra.
      * simpl in Hge. unfold chilling_total in *. simpl in Hge. lra.
Qed.

End Exhaustion.

(** Run the loop on a concrete record. *)
Ltac loop_step :=
  cbn [iterrows_loop loop_body chilling_phase chilling_sum forcing_sum
       budburst_date snd date temperature];
  unfold chilling_unit, forcing_unit; Rdecide; cbn [andb]; Rdecide.

(** C4.  When neither threshold is crossed, [predict_budburst] returns
    [None]: on the empty series, on a series none of whose prefixes
    reaches the chilling threshold (exhausted in CHILLING), on a series
    whose record [k] is the first to reach the chilling threshold while no
    run of the records after it reaches the forcing threshold (exhausted
    in FORCING), and, in the words of the machine, whenever its outcome is
    EXHAUSTED in either phase.  The result is the value [None], not a date
    and not an exception. *)
Theorem predict_budburst_undetermined (df : DataFrame)
    (latitude chilling_threshold forcing_threshold T_base alpha : R) :
  let rows := map snd (sort_values df) in
  df = [] \/
  chilling_unmet chilling_threshold rows \/
  (exists k, chilling_met_at chilling_threshold k rows /\
             forcing_unmet latitude forcing_threshold T_base alpha
                           (skipn k rows)) \/
  (exists p, machine latitude chilling_threshold forcing_threshold T_base
                     alpha CHILLING 0 0 rows (EXHAUSTED p)) ->
  predict_budburst df latitude chilling_threshold forcing_threshold
                   T_base alpha = None.
Proof.
  intros rows H. subst rows. unfold predict_budburst.
  rewrite (loop_labels _ _ _ _ _ (reset_index (sort_values df))
             (sort_values df)) by apply reset_index_rows.
  destruct H as [-> | [Hch | [(k & (Hk & Hun & Hge) & Hfo) | (p & Hm)]]].
  - reflexivity.
  - unfold initial_locals. rewrite loop_chilling_unmet; [ reflexivity | ].
    intros k Hk. specialize (Hch k).
    rewrite length_map in Hch. specialize (Hch Hk). lra.
  - rewrite length_map in Hk.
    unfold initial_locals. rewrite (loop_chilling_met _ _ _ _ _ k).
    + rewrite loop_forcing_unmet; [ reflexivity | ].
      intros j Hj. specialize (Hfo j).
      rewrite skipn_map, length_map in Hfo.
      specialize (Hfo Hj). lra.
    + exact Hk.
    + intros j Hj. specialize (Hun j).
      rewrite firstn_length_le in Hun by (rewrite length_map; lia).
      specialize (Hun Hj).
      rewrite firstn_firstn in Hun.
      replace (Nat.min j (k - 1)) with j in Hun by lia. lra.
    + lra.
  - pose proof (loop_machine latitude chilling_threshold forcing_threshold
                  T_base alpha (sort_values df) initial_locals eq_refl)
      as Hm'.
    simpl in Hm'.
    pose proof (machine_functional _ _ _ _ _ _ _ _ _ _ _ Hm Hm') as E.
    unfold outcome_of in E.
    destruct (budburst_date _); [ discriminate | reflexivity ].
Qed.

Lemma predict_budburst_undetermined_witness :
  predict_budburst two_days 0 1 100 5 (1 / 10) = None.
Proof.
  apply (predict_budburst_undetermined two_days 0 1 100 5 (1 / 10)).
  right; right; left. exists 1%nat.
  change (sort_values two_days)
    with [ (1%Z, mkRow (calendar_day 2024 1) 3);
           (0%Z, mkRow (calendar_day 2024 2) 10) ].
  unfold chilling_met_at, chilling_unmet, forcing_unmet,
         chilling_total, forcing_total, forcing_of.
  cbn [map snd length firstn skipn Nat.sub Rsum fold_right temperature date].
  repeat split.
  - lia.
  - lia.
  - intros k Hk. lia.
  - unfold chilling_unit. Rdecide. cbn [andb]. lra.
  - intros k Hk. assert (k = 1%nat) as -> by lia.
    cbn [firstn map Rsum fold_right temperature date].
    rewrite photoperiod_equator. unfold forcing_unit. Rdecide. lra.
Defined.

(** C5, as the code has it.  With [chilling_threshold <= 0] the first
    record of any non-empty series switches the loop to the forcing phase,
    forcing sum 0.  With [forcing_threshold <= 0] the first record
    evaluated in the forcing phase is the budburst date provided its
    forcing unit is not negative.  End to end: the second record, in date
    order, is then the budburst date. *)
Theorem nonpositive_thresholds
    (latitude chilling_threshold forcing_threshold T_base alpha : R) :
  (forall item rest,
     chilling_threshold <= 0 ->
     iterrows_loop latitude chilling_threshold forcing_threshold T_base alpha
                   initial_locals (item :: rest)
     = iterrows_loop latitude chilling_threshold forcing_threshold T_base
                     alpha
                     (mkLocals (0 + chilling_unit (temperature (snd item)))
                               0 None false)
                     rest) /\
  (forall c item rest,
     forcing_threshold <= 0 ->
     0 <= forcing_of latitude T_base alpha (snd item) ->
     iterrows_loop latitude chilling_threshold forcing_threshold T_base alpha
                   (mkLocals c 0 None false) (item :: rest)
     = mkLocals c (0 + forcing_of latitude T_base alpha (snd item))
                (Some (date (snd item))) false) /\
  (forall df first second rest,
     sort_values df = first :: second :: rest ->
     chilling_threshold <= 0 ->
     forcing_threshold <= 0 ->
     0 <= forcing_of latitude T_base alpha (snd second) ->
     predict_budburst df latitude chilling_threshold forcing_threshold
                      T_base alpha = Some (date (snd second))).
Proof.
  assert (Hc : forall item rest,
     chilling_threshold <= 0 ->
     iterrows_loop latitude chilling_threshold forcing_threshold T_base alpha
                   initial_locals (item :: rest)
     = iterrows_loop latitude chilling_threshold forcing_threshold T_base
                     alpha
                     (mkLocals (0 + chilling_unit (temperature (snd item)))
                               0 None false)
                     rest).
  { intros item rest Hct. simpl. unfold loop_body; simpl.
    pose proof (chilling_unit_nonneg (temperature (snd item))).
    rewrite (proj2 (Rleb_true _ _)) by lra. reflexivity. }
  assert (Hf : forall c item rest,
     forcing_threshold <= 0 ->
     0 <= forcing_of latitude T_base alpha (snd item) ->
     iterrows_loop latitude chilling_threshold forcing_threshold T_base alpha
                   (mkLocals c 0 None false) (item :: rest)
     = mkLocals c (0 + forcing_of latitude T_base alpha (snd item))
                (Some (date (snd item))) false).
  { intros c item rest Hft Hfu. simpl. unfold loop_body; simpl.
    fold (forcing_of latitude T_base alpha (snd item)).
    rewrite (proj2 (Rleb_true _ _)) by lra. reflexivity. }
  split; [ exact Hc | ]. split; [ exact Hf | ].
  intros df first second rest Hsort Hct Hft Hfu.
  unfold predict_budburst.
  rewrite (loop_labels _ _ _ _ _ (reset_index (sort_values df))
             (sort_values df)) by apply reset_index_rows.
  rewrite Hsort, Hc, Hf by assumption. reflexivity.
Qed.

(** At the equator the second record is the budburst date when both
    thresholds are 0. *)
Lemma nonpositive_thresholds_witness :
  predict_budburst two_days 0 0 0 5 (1 / 10) = Some (calendar_day 2024 2).
Proof.
  apply (proj2 (proj2 (nonpositive_thresholds 0 0 0 5 (1 / 10)))
           two_days (1%Z, mkRow (calendar_day 2024 1) 3)
           (0%Z, mkRow (calendar_day 2024 2) 10) []).
  - reflexivity.
  - lra.
  - lra.
  - unfold forcing_of. cbn [snd temperature date].
    rewrite photoperiod_equator. unfold forcing_unit. Rdecide. lra.
Defined.

(** C5, as stated, fails in its forcing half: with both thresholds 0 the
    first record evaluated in the forcing phase has a negative forcing
    unit, the loop goes on, and no budburst is reported. *)
Lemma forcing_threshold_zero_no_budburst :
  0 <= 0 /\
  iterrows_loop 89 0 0 5 (1 / 10) (mkLocals 0 0 None false)
                [ (1%Z, mkRow (calendar_day 2024 1) 10) ]
  = mkLocals 0 (0 + (10 - 5) * (1 + 1 / 10 * (0 - 12))) None false /\
  predict_budburst polar_days 89 0 0 5 (1 / 10) = None.
Proof.
  split; [ lra | ]. split.
  - cbn [iterrows_loop loop_body chilling_phase chilling_sum forcing_sum
         budburst_date snd date temperature].
    rewrite photoperiod_polar_night.
    unfold forcing_unit. Rdecide. reflexivity.
  - unfold predict_budburst.
    change (reset_index (sort_values polar_days)) with polar_days.
    unfold polar_days, initial_locals.
    loop_step.
    cbn [iterrows_loop loop_body chilling_phase chilling_sum forcing_sum
         budburst_date snd date temperature].
    rewrite photoperiod_polar_night.
    unfold forcing_unit. Rdecide. reflexivity.
Qed.

(** ** Cumulative forcing and the stage series *)

Lemma Rsum_nonneg (l : list R) : Forall (fun x => 0 <= x) l -> 0 <= Rsum l.
Proof.
  induction 1 as [ | x l Hx Hl IH]; simpl; lra.
Qed.

Lemma Rsum_firstn_nonneg (l : list R) (u : nat) :
  Forall (fun x => 0 <= x) l -> 0 <= Rsum (firstn u l).
Proof.
  intros Hl. revert u.
  induction Hl as [ | x l Hx Hl IH]; intros [ | u]; simpl; try lra.
  specialize (IH u). lra.
Qed.

Lemma Rsum_firstn_mono (l : list R) (t u : nat) :
  Forall (fun x => 0 <= x) l -> (t <= u)%nat ->
  Rsum (firstn t l) <= Rsum (firstn u l).
Proof.
  intros Hl. revert t u.
  induction Hl as [ | x l Hx Hl IH]; intros t u Htu.
  - rewrite !firstn_nil. lra.
  - destruct t as [ | t]; destruct u as [ | u]; simpl; try lia.
    + lra.
    + pose proof (Rsum_firstn_nonneg l u Hl). lra.
    + specialize (IH t u). assert (t <= u)%nat by lia. intuition lra.
Qed.

Lemma cumsum_from_length (l : list R) (acc : R) :
  length (cumsum_from acc l) = length l.
Proof.
  revert acc. induction l as [ | x l IH]; intros acc; simpl;
    [ reflexivity | rewrite IH; reflexivity ].
Qed.

(** Entry [t] of a running sum is the sum of the first [t + 1] terms. *)
Lemma cumsum_from_nth (l : list R) (acc : R) (t : nat) (x : R) :
  nth_error l t = Some x ->
  exists y, nth_error (cumsum_from acc l) t = Some y /\
            y = acc + Rsum (firstn (S t) l).
Proof.
  revert acc t.
  induction l as [ | a l IH]; intros acc t H.
  - destruct t; discriminate.
  - destruct t as [ | t].
    + simpl. eexists; split; [ reflexivity | lra ].
    + simpl in H. destruct (IH (acc + a) t H) as (y & Hy & Ey).
      exists y. split; [ exact Hy | ].
      rewrite Ey. simpl. lra.
Qed.

Lemma maximum0_minus_nonneg (col : list R) (T_base : R) :
  Forall (fun x => 0 <= x) (maximum0_minus col T_base).
Proof.
  unfold maximum0_minus. apply Forall_map.
  induction col; constructor; auto. apply Rmax_l.
Qed.

Lemma spec_cum_forcing_nonneg (temps : list R) (T_base : R) (t : nat) :
  0 <= spec_cum_forcing temps T_base t.
Proof.
  unfold spec_cum_forcing. apply Rsum_nonneg.
  apply (maximum0_minus_nonneg (firstn (S t) temps) T_base).
Qed.

Lemma spec_cum_forcing_mono (temps : list R) (T_base : R) (t u : nat) :
  (t <= u)%nat ->
  spec_cum_forcing temps T_base t <= spec_cum_forcing temps T_base u.
Proof.
  intros Htu. unfold spec_cum_forcing.
  rewrite <- !firstn_map.
  apply Rsum_firstn_mono; [ apply maximum0_minus_nonneg | lia ].
Qed.

(** The cap [s[s > 1] = 1] is the minimum with 1. *)
Lemma cap_Rmin (x : R) : (if Rltb 1 x then 1 else x) = Rmin 1 x.
Proof.
  unfold Rmin. destruct (Rltb 1 x) eqn:E; destruct (Rle_dec 1 x);
    try reflexivity.
  - apply Rltb_true in E. lra.
  - apply Rltb_false in E. lra.
Qed.

(** The forcing column of the code is the prefix sum of the
    specification. *)
Lemma compute_forcing_nth (temps : list R) (T_base : R) (t : nat) (T : R) :
  nth_error temps t = Some T ->
  exists c, nth_error (compute_forcing temps T_base) t = Some c /\
            c = spec_cum_forcing temps T_base t.
Proof.
  intros H. unfold compute_forcing, cumsum.
  destruct (cumsum_from_nth (maximum0_minus temps T_base) 0 t
              (Rmax 0 (T - T_base))) as (y & Hy & Ey).
  - unfold maximum0_minus.
    apply (map_nth_error (fun T => Rmax 0 (T - T_base))). exact H.
  - exists y. split; [ exact Hy | ].
    rewrite Ey. unfold spec_cum_forcing, maximum0_minus.
    rewrite firstn_map. lra.
Qed.

(** The stage column of the code is the stage of the specification. *)
Lemma stage_nth (temps : list R) (T_base F_mature : R) (t : nat) (T : R) :
  nth_error temps t = Some T ->
  exists s,
    nth_error (compute_phenological_stage (compute_forcing temps T_base)
                                          F_mature) t = Some s /\
    s = spec_stage temps T_base F_mature t.
Proof.
  intros H.
  destruct (compute_forcing_nth temps T_base t T H) as (c & Hc & Ec).
  unfold compute_phenological_stage.
  eexists. split.
  - rewrite map_map. apply map_nth_error. exact Hc.
  - cbv beta. rewrite cap_Rmin, Ec. reflexivity.
Qed.

Lemma stage_length (temps : list R) (T_base F_mature : R) :
  length (compute_phenological_stage (compute_forcing temps T_base) F_mature)
  = length temps.
Proof.
  unfold compute_phenological_stage, compute_forcing, cumsum, maximum0_minus.
  rewrite !length_map, cumsum_from_length, length_map. reflexivity.
Qed.

Lemma stage_nth_inv (temps : list R) (T_base F_mature : R) (t : nat) (s : R) :
  nth_error (compute_phenological_stage (compute_forcing temps T_base)
                                        F_mature) t = Some s ->
  s = spec_stage temps T_base F_mature t.
Proof.
  intros H.
  assert (Hlt : (t < length temps)%nat).
  { rewrite <- (stage_length temps T_base F_mature).
    apply nth_error_Some. rewrite H. discriminate. }
  destruct (nth_error temps t) as [T | ] eqn:ET.
  - destruct (stage_nth temps T_base F_mature t T ET) as (s' & Hs' & Es').
    congruence.
  - apply nth_error_None in ET. lia.
Qed.

Lemma spec_stage_bounds (temps : list R) (T_base F_mature : R) (t : nat) :
  0 < F_mature -> 0 <= spec_stage temps T_base F_mature t <= 1.
Proof.
  intros HF. unfold spec_stage.
  pose proof (spec_cum_forcing_nonneg temps T_base t) as Hc.
  assert (0 <= spec_cum_forcing temps T_base t / F_mature).
  { apply Rmult_le_pos; [ exact Hc | ].
    apply Rlt_le, Rinv_0_lt_compat, HF. }
  unfold Rmin. destruct (Rle_dec 1 _); lra.
Qed.

Lemma spec_stage_mono (temps : list R) (T_base F_mature : R) (t u : nat) :
  0 < F_mature -> (t <= u)%nat ->
  spec_stage temps T_base F_mature t <= spec_stage temps T_base F_mature u.
Proof.
  intros HF Htu. unfold spec_stage.
  pose proof (spec_cum_forcing_mono temps T_base t u Htu) as Hm.
  assert (spec_cum_forcing temps T_base t / F_mature
          <= spec_cum_forcing temps T_base u / F_mature).
  { apply Rmult_le_compat_r; [ | exact Hm ].
    apply Rlt_le, Rinv_0_lt_compat, HF. }
  unfold Rmin. destruct (Rle_dec 1 _); destruct (Rle_dec 1 _); lra.
Qed.

(** C3.  For [F_mature > 0] the stage series computed from the hourly
    temperatures has one value per hour, every value lies in [0, 1], and
    the series never decreases. *)
Theorem stage_bounded_monotone (temps : list R) (T_base F_mature : R) :
  0 < F_mature ->
  let s := compute_phenological_stage (compute_forcing temps T_base)
                                      F_mature in
  length s = length temps /\
  (forall t x, nth_error s t = Some x -> 0 <= x <= 1) /\
  (forall t u x y, (t <= u)%nat ->
     nth_error s t = Some x -> nth_error s u = Some y -> x <= y).
Proof.
  intros HF s. subst s. split; [ apply stage_length | ]. split.
  - intros t x H. apply stage_nth_inv in H. subst x.
    apply spec_stage_bounds, HF.
  - intros t u x y Htu Hx Hy.
    apply stage_nth_inv in Hx. apply stage_nth_inv in Hy. subst x y.
    apply spec_stage_mono; assumption.
Qed.

Lemma stage_bounded_monotone_witness :
  0 < 1000 /\
  length (compute_phenological_stage (compute_forcing [6; 4; 1007] 5) 1000)
  = 3%nat.
Proof.
  assert (HF : 0 < 1000) by lra.
  split; [ exact HF | ].
  exact (proj1 (stage_bounded_monotone [6; 4; 1007] 5 1000 HF)).
Defined.

(** C8, as the code has it.  The stage accumulation does not check
    [F_mature]: for [F_mature < 0] it returns a series, one value per
    hour, whose entry [t] is the cumulative forcing divided by
    [F_mature], a value that is never positive. *)
Theorem stage_negative_F_mature (temps : list R) (T_base F_mature : R) :
  F_mature < 0 ->
  length (compute_phenological_stage (compute_forcing temps T_base) F_mature)
  = length temps /\
  forall t T, nth_error temps t = Some T ->
    nth_error (compute_phenological_stage (compute_forcing temps T_base)
                                          F_mature) t
    = Some (spec_cum_forcing temps T_base t / F_mature) /\
    spec_cum_forcing temps T_base t / F_mature <= 0.
Proof.
  intros HF. split; [ apply stage_length | ].
  intros t T H.
  pose proof (spec_cum_forcing_nonneg temps T_base t) as Hc.
  assert (Hq : spec_cum_forcing temps T_base t / F_mature <= 0).
  { unfold Rdiv.
    assert (/ F_mature < 0) by (apply Rinv_lt_0_compat, HF).
    nra. }
  split; [ | exact Hq ].
  destruct (stage_nth temps T_base F_mature t T H) as (s & Hs & Es).
  rewrite Hs, Es. f_equal. unfold spec_stage.
  apply Rmin_right. lra.
Qed.

Lemma stage_negative_F_mature_witness :
  - 1 < 0 /\
  length (compute_phenological_stage (compute_forcing [6; 7] 5) (- 1))
  = 2%nat.
Proof.
  assert (HF : - 1 < 0) by lra.
  split; [ exact HF | ].
  exact (proj1 (stage_negative_F_mature [6; 7] 5 (- 1) HF)).
Defined.

(** ** Frames: columns and windows *)

Lemma assoc_get_set_eq (c : string) (v : list R) (cols : list (string * list R)) :
  assoc_get c (assoc_set c v cols) = Some v.
Proof.
  induction cols as [ | [k w] cols IH]; simpl.
  - rewrite String.eqb_refl. reflexivity.
  - destruct (String.eqb k c) eqn:E; simpl; rewrite E; auto.
Qed.

Lemma assoc_get_set_ne (c c' : string) (v : list R)
    (cols : list (string * list R)) :
  String.eqb c c' = false ->
  assoc_get c' (assoc_set c v cols) = assoc_get c' cols.
Proof.
  intros Hne.
  induction cols as [ | [k w] cols IH]; simpl.
  - rewrite Hne. reflexivity.
  - destruct (String.eqb k c) eqn:E; simpl.
    + apply String.eqb_eq in E. subst k. rewrite Hne. reflexivity.
    + destruct (String.eqb k c'); auto.
Qed.

Lemma getitem_setitem_eq (df : Frame) (c : string) (v : list R) :
  getitem (setitem df c v) c = Some v.
Proof. apply assoc_get_set_eq. Qed.

Lemma getitem_setitem_ne (df : Frame) (c c' : string) (v : list R) :
  String.eqb c c' = false ->
  getitem (setitem df c v) c' = getitem df c'.
Proof. apply assoc_get_set_ne. Qed.

Lemma select_filter {A : Type} (p : A -> bool) (l : list A) :
  select (map p l) l = List.filter p l.
Proof.
  unfold select. induction l as [ | x l IH]; simpl; [ reflexivity | ].
  destruct (p x); simpl; rewrite IH; reflexivity.
Qed.

(** The rows a mask keeps stay aligned across columns. *)
Lemma select_combine {A B : Type} (p : A -> bool) (l1 : list A) (l2 : list B) :
  combine (select (map p l1) l1) (select (map p l1) l2)
  = List.filter (fun xy => p (fst xy)) (combine l1 l2).
Proof.
  unfold select. revert l2.
  induction l1 as [ | x l1 IH]; intros [ | y l2]; simpl; try reflexivity.
  - apply combine_nil.
  - destruct (p x); simpl; rewrite IH; reflexivity.
Qed.

Lemma select_length {A B : Type} (p : A -> bool) (l1 : list A) (l2 : list B) :
  length l2 = length l1 ->
  length (select (map p l1) l2) = length (select (map p l1) l1).
Proof.
  unfold select. revert l2.
  induction l1 as [ | x l1 IH]; intros [ | y l2] H; simpl in *;
    try discriminate; try reflexivity.
  destruct (p x); simpl; rewrite IH by lia; reflexivity.
Qed.

Lemma select_none {A B : Type} (p : A -> bool) (l1 : list A) (l2 : list B) :
  (forall x, In x l1 -> p x = false) -> select (map p l1) l2 = [].
Proof.
  unfold select. revert l2.
  induction l1 as [ | x l1 IH]; intros [ | y l2] H; simpl; try reflexivity.
  rewrite (H x) by (left; reflexivity). simpl.
  apply IH. intros z Hz. apply H. right. exact Hz.
Qed.

Lemma getitem_loc_slice (df : Frame) (lo hi : Timestamp) (c : string) :
  getitem (loc_slice df lo hi) c
  = option_map (select (map (in_window lo hi) (index df))) (getitem df c).
Proof.
  unfold getitem, loc_slice; simpl.
  induction (columns df) as [ | [k w] cols IH]; simpl; [ reflexivity | ].
  destruct (String.eqb k c); [ reflexivity | exact IH ].
Qed.

Lemma nth_error_combine {A B : Type} (l1 : list A) (l2 : list B) (t : nat)
    (x : A) (y : B) :
  nth_error l1 t = Some x -> nth_error l2 t = Some y ->
  nth_error (combine l1 l2) t = Some (x, y).
Proof.
  revert l2 t.
  induction l1 as [ | a l1 IH]; intros [ | b l2] [ | t] H1 H2; simpl in *;
    try discriminate.
  - congruence.
  - apply IH; assumption.
Qed.

Lemma ts_ltb_spec (a b : Timestamp) :
  ts_ltb a b = true <->
  (year a < year b \/
   (year a = year b /\
    (tm_yday a < tm_yday b \/ (tm_yday a = tm_yday b /\ hour a < hour b))))%Z.
Proof.
  unfold ts_ltb, ts_compare.
  destruct (Z.compare_spec (year a) (year b));
    destruct (Z.compare_spec (tm_yday a) (tm_yday b));
    destruct (Z.compare_spec (hour a) (hour b));
    split; intros; try discriminate; try reflexivity; lia.
Qed.

(** A window whose end lies before its start holds no timestamp. *)
Lemma in_window_reversed (lo hi t : Timestamp) :
  ts_ltb hi lo = true -> in_window lo hi t = false.
Proof.
  intros H. apply ts_ltb_spec in H. unfold in_window.
  destruct (ts_leb lo t) eqn:E1; [ | reflexivity ].
  destruct (ts_leb t hi) eqn:E2; [ | reflexivity ].
  apply ts_leb_spec in E1. apply ts_leb_spec in E2. lia.
Qed.

(** ** The frost-damage integrator *)

(** The result of the integrator in closed form: the window and its four
    derived columns. *)
Lemma compute_cumulative_frost_damage_eq (df : Frame)
    (budburst_time end_time : Timestamp) (T_crit T_base F_mature : R)
    (temps_all : list R) :
  getitem df "temperature" = Some temps_all ->
  let temps :=
    select (map (in_window budburst_time end_time) (index df)) temps_all in
  let forcing := maximum0_minus temps T_base in
  let s := compute_phenological_stage (cumsum forcing) F_mature in
  let damage :=
    map (fun p => hourly_frost_damage (fst p) (snd p) T_crit)
        (combine temps s) in
  compute_cumulative_frost_damage df budburst_time end_time
                                  T_crit T_base F_mature
  = Some (Rsum damage,
          setitem
            (setitem
               (setitem
                  (setitem (loc_slice df budburst_time end_time)
                           "forcing" forcing)
                  "cum_forcing" (cumsum forcing))
               "s" s)
            "hourly_damage" damage).
Proof.
  intros Htemp temps forcing s damage.
  unfold compute_cumulative_frost_damage, copy.
  rewrite getitem_loc_slice, Htemp. cbn [option_map mbind option_bind].
  fold temps. fold forcing.
  rewrite getitem_setitem_eq. cbn [mbind option_bind].
  rewrite getitem_setitem_eq. cbn [mbind option_bind].
  fold s.
  unfold apply_axis1.
  rewrite (getitem_setitem_ne _ "s" "temperature") by reflexivity.
  rewrite (getitem_setitem_ne _ "cum_forcing" "temperature") by reflexivity.
  rewrite (getitem_setitem_ne _ "forcing" "temperature") by reflexivity.
  rewrite getitem_loc_slice, Htemp. cbn [option_map mbind option_bind].
  rewrite getitem_setitem_eq. cbn [mbind option_bind].
  fold temps. fold damage.
  rewrite getitem_setitem_eq. cbn [mbind option_bind].
  reflexivity.
Qed.

(** C8, as stated, fails: called with [F_mature = -1 <= 0] the stage
    accumulation returns the numeric series [-1; -3], and the integrator
    returns a total and a trace. *)
Lemma stage_returns_for_negative_F_mature :
  - 1 <= 0 /\
  compute_phenological_stage (compute_forcing [6; 7] 5) (- 1) = [- 1; - 3] /\
  exists total trace,
    compute_cumulative_frost_damage three_hours (mkTimestamp 2023 91 0)
                                    (mkTimestamp 2023 91 2) 0 5 (- 1)
    = Some (total, trace).
Proof.
  split; [ lra | ]. split.
  - unfold compute_phenological_stage, compute_forcing, cumsum,
           maximum0_minus.
    cbn [map cumsum_from].
    rewrite (Rmax_right 0 (6 - 5)) by lra.
    rewrite (Rmax_right 0 (7 - 5)) by lra.
    replace ((0 + (6 - 5)) / - 1) with (- 1) by lra.
    replace ((0 + (6 - 5) + (7 - 5)) / - 1) with (- 3) by lra.
    Rdecide. reflexivity.
  - rewrite (compute_cumulative_frost_damage_eq three_hours
               (mkTimestamp 2023 91 0) (mkTimestamp 2023 91 2) 0 5 (- 1)
               [- 2; 6; 1] eq_refl).
    eexists _, _. reflexivity.
Qed.

Lemma index_setitem (df : Frame) (c : string) (v : list R) :
  index (setitem df c v) = index df.
Proof. reflexivity. Qed.

Lemma assoc_set_Forall (Q : list R -> Prop) (c : string) (v : list R)
    (cols : list (string * list R)) :
  Q v -> Forall (fun cv => Q (snd cv)) cols ->
  Forall (fun cv => Q (snd cv)) (assoc_set c v cols).
Proof.
  intros Hv Hcols.
  induction Hcols as [ | [k w] cols Hk Hcols IH]; simpl.
  - constructor; [ exact Hv | constructor ].
  - destruct (String.eqb k c); constructor; auto.
Qed.

Lemma well_formed_getitem (df : Frame) (c : string) (v : list R) :
  well_formed df -> getitem df c = Some v -> length v = length (index df).
Proof.
  unfold well_formed, getitem.
  induction 1 as [ | [k w] cols Hk Hcols IH]; simpl; [ discriminate | ].
  destruct (String.eqb k c); [ | exact IH ].
  intros E. injection E as <-. exact Hk.
Qed.

Lemma well_formed_loc_slice (df : Frame) (lo hi : Timestamp) :
  well_formed df -> well_formed (loc_slice df lo hi).
Proof.
  unfold well_formed, loc_slice; cbn [index columns].
  induction 1 as [ | [k w] cols Hk Hcols IH]; simpl; constructor.
  - simpl in *. apply select_length, Hk.
  - exact IH.
Qed.

Lemma well_formed_setitem (df : Frame) (c : string) (v : list R) :
  well_formed df -> length v = length (index df) ->
  well_formed (setitem df c v).
Proof.
  unfold well_formed, setitem; cbn [index columns].
  intros H Hv.
  apply (assoc_set_Forall (fun w => length w = length (index df)));
    assumption.
Qed.

(** C2.  On a well-formed frame with a monotonic increasing index and a
    temperature column, the integrator returns the window of the rows with
    [budburst_time <= t <= end_time], in order and with their
    temperatures; an hourly-damage column with one value per hour of the
    window, the value at hour [t] being [(1 - s[t]) * max(0, T_crit -
    T[t])] for the stage [s[t]] of the specification; and the sum of that
    column as the total damage.  The trace is again well formed. *)
Theorem cumulative_frost_damage_spec (df : Frame)
    (budburst_time end_time : Timestamp) (T_crit T_base F_mature : R)
    (temps_all : list R) :
  is_monotonic_increasing (index df) = true ->
  well_formed df ->
  getitem df "temperature" = Some temps_all ->
  exists total trace temps damage,
    compute_cumulative_frost_damage df budburst_time end_time
                                    T_crit T_base F_mature
    = Some (total, trace) /\
    well_formed trace /\
    index trace = List.filter (in_window budburst_time end_time) (index df) /\
    combine (index trace) temps
    = List.filter (fun p => in_window budburst_time end_time (fst p))
                  (combine (index df) temps_all) /\
    getitem trace "temperature" = Some temps /\
    getitem trace "hourly_damage" = Some damage /\
    length damage = length temps /\
    (forall t T, nth_error temps t = Some T ->
       nth_error damage t
       = Some (spec_damage temps T_crit T_base F_mature t T)) /\
    total = Rsum damage.
Proof.
  intros _ Hwf Htemp.
  pose proof (well_formed_getitem df _ temps_all Hwf Htemp) as Hlen.
  pose proof (compute_cumulative_frost_damage_eq df budburst_time end_time
                T_crit T_base F_mature temps_all Htemp) as Heq.
  cbv zeta in Heq.
  set (mask := map (in_window budburst_time end_time) (index df)) in *.
  set (temps := select mask temps_all) in *.
  set (s := compute_phenological_stage
              (cumsum (maximum0_minus temps T_base)) F_mature) in *.
  set (damage := map (fun p => hourly_frost_damage (fst p) (snd p) T_crit)
                     (combine temps s)) in *.
  assert (Hs : length s = length temps)
    by apply (stage_length temps T_base F_mature).
  assert (Hd : length damage = length temps).
  { unfold damage. rewrite length_map, length_combine, Hs. lia. }
  assert (Ht : length temps
               = length (index (loc_slice df budburst_time end_time))).
  { apply select_length, Hlen. }
  eexists _, _, temps, damage.
  split; [ exact Heq | ].
  split.
  { repeat apply well_formed_setitem; rewrite ?index_setitem.
    - apply well_formed_loc_slice, Hwf.
    - unfold maximum0_minus. rewrite length_map. exact Ht.
    - unfold cumsum, maximum0_minus.
      rewrite cumsum_from_length, length_map. exact Ht.
    - rewrite Hs. exact Ht.
    - rewrite Hd. exact Ht. }
  rewrite !index_setitem.
  split; [ apply select_filter | ].
  split; [ apply select_combine | ].
  split.
  { rewrite !getitem_setitem_ne by reflexivity.
    rewrite getitem_loc_slice, Htemp. reflexivity. }
  split; [ apply getitem_setitem_eq | ].
  split; [ exact Hd | ].
  split; [ | reflexivity ].
  intros t T HT.
  destruct (stage_nth temps T_base F_mature t T HT) as (st & Hst & Est).
  unfold damage.
  rewrite (map_nth_error (fun p => hourly_frost_damage (fst p) (snd p) T_crit)
             t (combine temps s) (nth_error_combine temps s t T st HT Hst)).
  subst st. reflexivity.
Qed.

Lemma three_hours_well_formed : well_formed three_hours.
Proof. repeat constructor. Defined.

Lemma cumulative_frost_damage_spec_witness :
  exists total trace,
    compute_cumulative_frost_damage three_hours (mkTimestamp 2023 91 0)
                                    (mkTimestamp 2023 91 1) 0 5 1000
    = Some (total, trace) /\
    index trace = [ mkTimestamp 2023 91 0; mkTimestamp 2023 91 1 ].
Proof.
  destruct (cumulative_frost_damage_spec three_hours (mkTimestamp 2023 91 0)
              (mkTimestamp 2023 91 1) 0 5 1000 [- 2; 6; 1]
              eq_refl three_hours_well_formed eq_refl)
    as (total & trace & temps & damage & H1 & _ & H2 & _).
  exists total, trace. split; [ exact H1 | exact H2 ].
Defined.

(** C6.  When the window is empty, because [end_time] lies before
    [budburst_time] or because no record falls in the inclusive range,
    the integrator returns a value, not an exception: total damage 0 and
    a trace with no rows, every column of which is empty. *)
Theorem empty_window_no_damage (df : Frame)
    (budburst_time end_time : Timestamp) (T_crit T_base F_mature : R)
    (temps_all : list R) :
  is_monotonic_increasing (index df) = true ->
  well_formed df ->
  getitem df "temperature" = Some temps_all ->
  ts_ltb end_time budburst_time = true \/
  (forall t, In t (index df) -> in_window budburst_time end_time t = false) ->
  exists trace,
    compute_cumulative_frost_damage df budburst_time end_time
                                    T_crit T_base F_mature
    = Some (0, trace) /\
    index trace = [] /\
    Forall (fun cv => snd cv = []) (columns trace) /\
    getitem trace "hourly_damage" = Some [].
Proof.
  intros _ _ Htemp Hwin.
  assert (Hnone : forall t, In t (index df) ->
                    in_window budburst_time end_time t = false).
  { destruct Hwin as [Hrev | Hnone]; [ | exact Hnone ].
    intros t _. apply in_window_reversed, Hrev. }
  pose proof (compute_cumulative_frost_damage_eq df budburst_time end_time
                T_crit T_base F_mature temps_all Htemp) as Heq.
  cbv zeta in Heq.
  rewrite (select_none _ (index df) temps_all Hnone) in Heq.
  simpl in Heq.
  eexists. split; [ exact Heq | ].
  split; [ | split ].
  - simpl. apply (select_none _ (index df) (index df) Hnone).
  - unfold setitem; cbn [columns].
    repeat (apply (assoc_set_Forall (fun v => v = [])); [ reflexivity | ]).
    unfold loc_slice; cbn [columns].
    apply Forall_map, Forall_forall. intros cv _. simpl.
    apply (select_none _ (index df) (snd cv) Hnone).
  - apply getitem_setitem_eq.
Qed.

Lemma empty_window_no_damage_witness :
  exists trace,
    compute_cumulative_frost_damage three_hours (mkTimestamp 2023 91 2)
                                    (mkTimestamp 2023 91 0) 0 5 1000
    = Some (0, trace) /\
    index trace = [].
Proof.
  destruct (empty_window_no_damage three_hours (mkTimestamp 2023 91 2)
              (mkTimestamp 2023 91 0) 0 5 1000 [- 2; 6; 1]
              eq_refl three_hours_well_formed eq_refl (or_introl eq_refl))
    as (trace & H1 & H2 & _).
  exists trace. split; [ exact H1 | exact H2 ].
Defined.

(** ** Calls on the heap *)

Section StoreFacts.

Context {A : Type}.

Lemma bind_run {X Y : Type} (m : @M A X) (k : X -> @M A Y) (h : gmap ref A) :
(m ≫= k) h
= match m h with
  | (Some x, h') => k x h'
  | (None, h') => (None, h')
  end.
Proof. reflexivity. Qed.

Lemma deref_run (l : ref) (h : gmap ref A) (a : A) :
h !! l = Some a -> deref l h = (Some a, h).
Proof. intros H. unfold deref. rewrite H. reflexivity. Qed.

(** A new object gets a reference no object of the heap has. *)
Lemma fresh_unused (h : gmap ref A) : h !! fresh (dom h) = None.
Proof. apply not_elem_of_dom, is_fresh. Qed.

Lemma unchanged_refl (h : gmap ref A) : unchanged h h.
Proof. intros l o H. exact H. Qed.

Lemma unchanged_trans (h1 h2 h3 : gmap ref A) :
unchanged h1 h2 -> unchanged h2 h3 -> unchanged h1 h3.
Proof. intros H12 H23 l o H. apply H23, H12, H. Qed.

(** Allocation leaves every object in place. *)
Lemma unchanged_new (h : gmap ref A) (a : A) :
unchanged h (<[fresh (dom h) := a]> h).
Proof.
intros l o H. rewrite lookup_insert_ne; [ exact H | ].
intros E. subst l. rewrite fresh_unused in H. discriminate.
Qed.

(** Writing to an object that [h] does not have leaves [h] in place. *)
Lemma unchanged_assign (h h' : gmap ref A) (l : ref) (a : A) :
h !! l = None -> unchanged h h' -> unchanged h (<[l := a]> h').
Proof.
intros Hl Hu k o H. rewrite lookup_insert_ne; [ apply Hu, H | ].
intros E. subst k. rewrite Hl in H. discriminate.
Qed.

End StoreFacts.

Lemma getitem_m_run (l : ref) (c : string) (h : gmap ref Frame) (fr : Frame) :
  h !! l = Some fr -> getitem_m l c h = (getitem fr c, h).
Proof.
  intros H. unfold getitem_m. rewrite bind_run, (deref_run l h fr H).
  reflexivity.
Qed.

Lemma setitem_m_run (l : ref) (c : string) (v : list R) (h : gmap ref Frame)
    (fr : Frame) :
  h !! l = Some fr ->
  setitem_m l c v h = (Some tt, <[l := setitem fr c v]> h).
Proof.
  intros H. unfold setitem_m. rewrite bind_run, (deref_run l h fr H).
  reflexivity.
Qed.

Lemma apply_axis1_m_run (l : ref) (c1 c2 : string) (fn : R -> R -> R)
    (h : gmap ref Frame) (fr : Frame) :
  h !! l = Some fr -> apply_axis1_m l c1 c2 fn h = (apply_axis1 fr c1 c2 fn, h).
Proof.
  intros H. unfold apply_axis1_m. rewrite bind_run, (deref_run l h fr H).
  reflexivity.
Qed.

(** The call of [predict_budburst] on a heap: the value-level result, two
    new objects, and every object of the heap left in place. *)
Lemma predict_budburst_m_run (h : gmap ref DataFrame) (df : ref)
    (rows : DataFrame)
    (latitude chilling_threshold forcing_threshold T_base alpha : R) :
  h !! df = Some rows ->
  exists h',
    predict_budburst_m df latitude chilling_threshold forcing_threshold
                       T_base alpha h
    = (Some (predict_budburst rows latitude chilling_threshold
                              forcing_threshold T_base alpha), h') /\
    unchanged h h'.
Proof.
  intros Hdf.
  unfold predict_budburst_m, sort_values_m, reset_index_m.
  rewrite !bind_run, (deref_run df h rows Hdf).
  unfold new at 1. cbv zeta.
  set (l1 := fresh (dom h)).
  set (h1 := <[l1 := sort_values rows]> h).
  rewrite !bind_run.
  rewrite (deref_run l1 h1 (sort_values rows)) by apply lookup_insert_eq.
  unfold new at 1. cbv zeta.
  set (l2 := fresh (dom h1)).
  set (h2 := <[l2 := reset_index (sort_values rows)]> h1).
  rewrite bind_run.
  rewrite (deref_run l2 h2 (reset_index (sort_values rows)))
    by apply lookup_insert_eq.
  exists h2. split; [ reflexivity | ].
  apply unchanged_trans with h1; apply unchanged_new.
Qed.

(** The call of the integrator on a heap: the window and its copy are new
    objects, the derived columns are written to the copy, and every
    object of the heap is left in place.  The call returns what the
    value-level function returns, the trace being the new object. *)
Lemma compute_cumulative_frost_damage_m_run (h : gmap ref Frame) (df : ref)
    (frame : Frame) (budburst_time end_time : Timestamp)
    (T_crit T_base F_mature : R) :
  h !! df = Some frame ->
  exists res h',
    compute_cumulative_frost_damage_m df budburst_time end_time
                                      T_crit T_base F_mature h = (res, h') /\
    unchanged h h' /\
    match compute_cumulative_frost_damage frame budburst_time end_time
                                          T_crit T_base F_mature with
    | Some (total, trace) =>
        exists r, res = Some (total, r) /\ h !! r = None /\
                  h' !! r = Some trace
    | None => res = None
    end.
Proof.
  intros Hdf.
  unfold compute_cumulative_frost_damage_m, loc_slice_m, copy_m.
  rewrite !bind_run, (deref_run df h frame Hdf).
  unfold new at 1. cbv zeta.
  set (w := loc_slice frame budburst_time end_time).
  set (l1 := fresh (dom h)).
  set (h1 := <[l1 := w]> h).
  rewrite !bind_run, (deref_run l1 h1 w) by apply lookup_insert_eq.
  unfold new at 1, copy. cbv zeta.
  set (l2 := fresh (dom h1)).
  set (h2 := <[l2 := w]> h1).
  assert (Hu2 : unchanged h h2)
    by (apply unchanged_trans with h1; apply unchanged_new).
  assert (Hl2 : h !! l2 = None).
  { destruct (h !! l2) as [o | ] eqn:E; [ | reflexivity ].
    apply (unchanged_new h w) in E. fold l1 h1 in E.
    unfold l2 in E. rewrite fresh_unused in E. discriminate. }
  rewrite bind_run, (getitem_m_run l2 _ h2 w) by apply lookup_insert_eq.
  destruct (getitem frame "temperature") as [temps_all | ] eqn:Etemp.
  - rewrite (compute_cumulative_frost_damage_eq frame budburst_time end_time
               T_crit T_base F_mature temps_all Etemp).
    cbv zeta. unfold w. rewrite getitem_loc_slice, Etemp.
    cbn [option_map].
    set (temps := select _ temps_all).
    rewrite bind_run, (setitem_m_run l2 _ _ h2 w) by apply lookup_insert_eq.
    rewrite bind_run, (getitem_m_run l2 _ _ _) by apply lookup_insert_eq.
    rewrite getitem_setitem_eq.
    rewrite bind_run, (setitem_m_run l2 _ _ _ _) by apply lookup_insert_eq.
    rewrite bind_run, (getitem_m_run l2 _ _ _) by apply lookup_insert_eq.
    rewrite getitem_setitem_eq.
    rewrite bind_run, (setitem_m_run l2 _ _ _ _) by apply lookup_insert_eq.
    rewrite bind_run, (apply_axis1_m_run l2 _ _ _ _ _)
      by apply lookup_insert_eq.
    unfold apply_axis1.
    rewrite (getitem_setitem_ne _ "s" "temperature") by reflexivity.
    rewrite (getitem_setitem_ne _ "cum_forcing" "temperature") by reflexivity.
    rewrite (getitem_setitem_ne _ "forcing" "temperature") by reflexivity.
    unfold w. rewrite getitem_loc_slice, Etemp.
    cbn [option_map mbind option_bind]. fold temps.
    rewrite getitem_setitem_eq. cbn [mbind option_bind].
    rewrite bind_run, (setitem_m_run l2 _ _ _ _) by apply lookup_insert_eq.
    rewrite bind_run, (getitem_m_run l2 _ _ _) by apply lookup_insert_eq.
    rewrite getitem_setitem_eq.
    eexists _, _. split; [ reflexivity | ]. split.
    + do 4 (apply unchanged_assign; [ exact Hl2 | ]). exact Hu2.
    + exists l2. split; [ reflexivity | ]. split; [ exact Hl2 | ].
      apply lookup_insert_eq.
  - assert (Enone : compute_cumulative_frost_damage frame budburst_time
                      end_time T_crit T_base F_mature = None).
    { unfold compute_cumulative_frost_damage, copy.
      rewrite getitem_loc_slice, Etemp. reflexivity. }
    rewrite Enone. unfold w. rewrite getitem_loc_slice, Etemp.
    cbn [option_map].
    exists None, h2. split; [ reflexivity | ]. split; [ exact Hu2 | reflexivity ].
Qed.

(** Writing a column through a reference does change the object behind
    it: the heap model sees mutation where there is one. *)
Lemma setitem_m_mutates (h : gmap ref Frame) (l : ref) (fr : Frame)
    (c : string) (v : list R) :
  h !! l = Some fr ->
  snd (setitem_m l c v h) !! l = Some (setitem fr c v).
Proof.
  intros H. rewrite (setitem_m_run l c v h fr H). simpl.
  apply lookup_insert_eq.
Qed.

(** C10.  Neither call mutates its input.  On any heap where [df] is a
    frame, [predict_budburst] returns its value-level result and
    [compute_cumulative_frost_damage] returns its total with a trace that
    is a new object; after either call every object the heap had, the
    input frame among them, is unchanged. *)
Theorem inputs_not_mutated :
  (forall (h : gmap ref DataFrame) (df : ref) (rows : DataFrame)
          (latitude chilling_threshold forcing_threshold T_base alpha : R),
     h !! df = Some rows ->
     let run := predict_budburst_m df latitude chilling_threshold
                                   forcing_threshold T_base alpha h in
     fst run = Some (predict_budburst rows latitude chilling_threshold
                                      forcing_threshold T_base alpha) /\
     unchanged h (snd run) /\
     snd run !! df = Some rows) /\
  (forall (h : gmap ref Frame) (df : ref) (frame : Frame)
          (budburst_time end_time : Timestamp) (T_crit T_base F_mature : R),
     h !! df = Some frame ->
     let run := compute_cumulative_frost_damage_m df budburst_time end_time
                                                  T_crit T_base F_mature h in
     unchanged h (snd run) /\
     snd run !! df = Some frame /\
     (forall total r,
        fst run = Some (total, r) ->
        h !! r = None /\
        exists trace,
          snd run !! r = Some trace /\
          compute_cumulative_frost_damage frame budburst_time end_time
                                          T_crit T_base F_mature
          = Some (total, trace))).
Proof.
  split.
  - intros h df rows latitude chilling_threshold forcing_threshold T_base
           alpha Hdf run.
    destruct (predict_budburst_m_run h df rows latitude chilling_threshold
                forcing_threshold T_base alpha Hdf) as (h' & Hrun & Hu).
    subst run. rewrite Hrun. simpl.
    split; [ reflexivity | ]. split; [ exact Hu | apply Hu, Hdf ].
  - intros h df frame budburst_time end_time T_crit T_base F_mature Hdf run.
    destruct (compute_cumulative_frost_damage_m_run h df frame budburst_time
                end_time T_crit T_base F_mature Hdf)
      as (res & h' & Hrun & Hu & Hres).
    subst run. rewrite Hrun. simpl.
    split; [ exact Hu | ]. split; [ apply Hu, Hdf | ].
    destruct (compute_cumulative_frost_damage frame budburst_time end_time
                T_crit T_base F_mature) as [[total trace] | ].
    + destruct Hres as (r & -> & Hr & Htrace).
      intros total' r' E. injection E as <- <-.
      split; [ exact Hr | ]. exists trace. split; [ exact Htrace | reflexivity ].
    + subst res. intros total r E. discriminate.
Qed.

Lemma inputs_not_mutated_witness :
  snd (predict_budburst_m 1%positive 0 1 100 5 (1 / 10)
         {[ 1%positive := two_days ]}) !! 1%positive = Some two_days /\
  snd (compute_cumulative_frost_damage_m 1%positive (mkTimestamp 2023 91 0)
         (mkTimestamp 2023 91 1) 0 5 1000
         {[ 1%positive := three_hours ]}) !! 1%positive = Some three_hours.
Proof.
  split.
  - apply (proj1 inputs_not_mutated {[ 1%positive := two_days ]} 1%positive
             two_days 0 1 100 5 (1 / 10)).
    apply lookup_singleton_eq.
  - apply (proj2 inputs_not_mutated {[ 1%positive := three_hours ]}
             1%positive three_hours (mkTimestamp 2023 91 0)
             (mkTimestamp 2023 91 1) 0 5 1000).
    apply lookup_singleton_eq.
Defined.

(** ** A run of the integrator on sample data *)

(** Decide a concrete [max]. *)
Ltac Rmax_decide :=
  repeat match goal with
  | |- context [Rmax ?a ?b] =>
      first [ rewrite (Rmax_right a b) by lra
            | rewrite (Rmax_left a b) by lra ]
  end.

(** Over the three sample hours only the frost hour does damage: the
    deficit is 2 and the stage is still 0. *)
Example three_hours_total :
  exists trace,
    compute_cumulative_frost_damage three_hours (mkTimestamp 2023 91 0)
                                    (mkTimestamp 2023 91 2) 0 5 1000
    = Some (2, trace) /\
    getitem trace "s" = Some [0; 1 / 1000; 1 / 1000] /\
    getitem trace "hourly_damage" = Some [2; 0; 0].
Proof.
  rewrite (compute_cumulative_frost_damage_eq three_hours
             (mkTimestamp 2023 91 0) (mkTimestamp 2023 91 2) 0 5 1000
             [- 2; 6; 1] eq_refl).
  cbv zeta.
  change (select _ [- 2; 6; 1]) with [- 2; 6; 1].
  unfold compute_phenological_stage, cumsum, maximum0_minus.
  cbn [map cumsum_from combine fst snd].
  unfold hourly_frost_damage, sensitivity_function.
  Rmax_decide. Rdecide.
  replace ((0 + 0) / 1000) with 0 by lra.
  replace ((0 + 0 + (6 - 5)) / 1000) with (1 / 1000) by lra.
  replace ((0 + 0 + (6 - 5) + 0) / 1000) with (1 / 1000) by lra.
  replace ((1 - 0) * (0 - - 2)) with 2 by lra.
  replace ((1 - 1 / 1000) * 0) with 0 by lra.
  replace (Rsum [2; 0; 0]) with 2 by (simpl; lra).
  eexists. split; [ reflexivity | ]. split.
  - rewrite (getitem_setitem_ne _ "hourly_damage" "s") by reflexivity.
    apply getitem_setitem_eq.
  - apply getitem_setitem_eq.
Qed.

(* ===================================================================== *)
(** * Further properties of phen.py *)
(* ===================================================================== *)

(** ** Day length *)

Lemma photoperiod_bounds (d : Timestamp) (latitude : R) :
  0 <= calculate_photoperiod d latitude <= 24.
Proof.
  unfold calculate_photoperiod.
  set (c := clip _ _ _).
  pose proof (acos_bound c) as [H0 H1].
  pose proof PI_RGT_0 as HPI.
  assert (Hq : 0 < 24 / PI) by (apply Rdiv_lt_0_compat; lra).
  split.
  - apply Rmult_le_pos; lra.
  - replace 24 with (24 / PI * PI) at 2 by (field; lra).
    apply Rmult_le_compat_l; lra.
Qed.

Lemma clip_opp (x : R) : clip (- x) (-1) 1 = - clip x (-1) 1.
Proof.
  unfold clip, Rmin, Rmax.
  destruct (Rle_dec (- x) (-1)); destruct (Rle_dec x (-1));
    repeat match goal with
           | |- context [Rle_dec ?a ?b] => destruct (Rle_dec a b)
           end; lra.
Qed.

(** Where the cosine of the hour angle is not positive, the arc cosine is
    at least a right angle. *)
Lemma acos_nonpos (c : R) : -1 <= c <= 0 -> PI / 2 <= acos c.
Proof.
  intros Hc.
  destruct (Rle_lt_dec (PI / 2) (acos c)) as [H | H]; [ exact H | ].
  pose proof (acos_bound c) as [H0 _].
  assert (Hpos : 0 < cos (acos c)) by (apply cos_gt_0; lra).
  rewrite cos_acos in Hpos by lra. lra.
Qed.

(** X1.  At the equator the day length is exactly 12 hours on every
    date: the tangent of the latitude is 0, so the hour angle is a right
    angle whatever the declination. *)
Theorem equator_twelve_hours (d : Timestamp) :
  calculate_photoperiod d 0 = 12.
Proof.
  pose proof PI_RGT_0 as HPI.
  unfold calculate_photoperiod, radians.
  replace (0 * PI / 180) with 0 by lra.
  rewrite tan_0, Ropp_0, Rmult_0_l.
  unfold clip, Rmin, Rmax.
  destruct (Rle_dec 0 (-1)); [ lra | ].
  destruct (Rle_dec 0 1); [ | lra ].
  rewrite acos_0. field. lra.
Qed.

(** X2.  On any date the day lengths at a latitude and at the opposite
    latitude add up to 24 hours. *)
Theorem opposite_latitudes_sum_to_day (d : Timestamp) (latitude : R) :
  calculate_photoperiod d latitude + calculate_photoperiod d (- latitude)
  = 24.
Proof.
  pose proof PI_RGT_0 as HPI.
  unfold calculate_photoperiod, radians.
  replace (- latitude * PI / 180) with (- (latitude * PI / 180)) by lra.
  rewrite tan_neg.
  set (tl := tan (latitude * PI / 180)).
  set (td := tan _).
  replace (- - tl * td) with (- (- tl * td)) by lra.
  rewrite clip_opp, acos_opp.
  field. lra.
Qed.

(** X3.  On day 81 of the year the declination is 0 and the day length
    is 12 hours at every latitude. *)
Theorem equinox_twelve_hours (d : Timestamp) (latitude : R) :
  tm_yday d = 81%Z ->
  calculate_photoperiod d latitude = 12.
Proof.
  intros Hd. pose proof PI_RGT_0 as HPI.
  unfold calculate_photoperiod. rewrite Hd.
  replace (2 * PI * (81 - 81) / 365) with 0 by lra.
  rewrite sin_0, Rmult_0_r, tan_0, Rmult_0_r.
  unfold clip, Rmin, Rmax.
  destruct (Rle_dec 0 (-1)); [ lra | ].
  destruct (Rle_dec 0 1); [ | lra ].
  rewrite acos_0. field. lra.
Qed.

Lemma equinox_twelve_hours_witness :
  calculate_photoperiod (calendar_day 2024 81) 45 = 12.
Proof. apply (equinox_twelve_hours (calendar_day 2024 81) 45). reflexivity. Defined.

(** X4.  From day 81 to day 263 of the year the declination is not
    negative, and the day is at least 12 hours long at every northern
    latitude below 90 degrees. *)
Theorem northern_summer_long_days (d : Timestamp) (latitude : R) :
  (81 <= tm_yday d <= 263)%Z ->
  0 <= latitude < 90 ->
  12 <= calculate_photoperiod d latitude.
Proof.
  intros [Hd1 Hd2] Hlat.
  pose proof PI_RGT_0 as HPI. pose proof PI_4 as HPI4.
  apply IZR_le in Hd1. apply IZR_le in Hd2.
  unfold calculate_photoperiod, radians.
  set (day := IZR (tm_yday d)) in *.
  set (theta := 2 * PI * (day - 81) / 365).
  assert (Htheta : 0 <= theta <= PI).
  { unfold theta. split.
    - apply Rmult_le_pos; [ | lra ].
      apply Rmult_le_pos; lra.
    - assert (2 * PI * (day - 81) <= 2 * PI * 182)
        by (apply Rmult_le_compat_l; lra).
      lra. }
  assert (Hsin : 0 <= sin theta <= 1).
  { split; [ apply sin_ge_0; lra | apply SIN_bound ]. }
  set (decl := 2344 / 100 * PI / 180 * sin theta).
  assert (Hdecl : 0 <= decl < PI / 2).
  { unfold decl. split.
    - apply Rmult_le_pos; lra.
    - assert (2344 / 100 * PI / 180 * sin theta <= 2344 / 100 * PI / 180 * 1)
        by (apply Rmult_le_compat_l; lra).
      lra. }
  assert (Htd : 0 <= tan decl).
  { destruct (proj1 Hdecl) as [Hp | <-].
    - apply Rlt_le, tan_gt_0; lra.
    - rewrite tan_0. lra. }
  assert (Htl : 0 <= tan (latitude * PI / 180)).
  { destruct (proj1 Hlat) as [Hp | <-].
    - apply Rlt_le, tan_gt_0.
      + apply Rdiv_lt_0_compat; [ | lra ].
        apply Rmult_lt_0_compat; lra.
      + assert (latitude * PI < 90 * PI)
          by (apply Rmult_lt_compat_r; lra).
        lra.
    - replace (0 * PI / 180) with 0 by lra. rewrite tan_0. lra. }
  set (c := clip _ _ _).
  assert (Hc : -1 <= c <= 0).
  { unfold c. split; [ apply clip_bounds | ].
    unfold clip, Rmin, Rmax.
    assert (- tan (latitude * PI / 180) * tan decl <= 0) by nra.
    destruct (Rle_dec (- tan (latitude * PI / 180) * tan decl) (-1));
      destruct (Rle_dec _ 1); lra. }
  pose proof (acos_nonpos c Hc) as Ha.
  assert (Hq : 0 < 24 / PI) by (apply Rdiv_lt_0_compat; lra).
  replace 12 with (24 / PI * (PI / 2)) by (field; lra).
  apply Rmult_le_compat_l; lra.
Qed.

Lemma northern_summer_long_days_witness :
  12 <= calculate_photoperiod (calendar_day 2024 172) 45.
Proof.
  apply (northern_summer_long_days (calendar_day 2024 172) 45).
  - simpl. lia.
  - lra.
Defined.

(** ** Chilling days *)

Lemma chilling_unit_is_chilling_day (T : R) :
  chilling_unit T = if is_chilling_day T then 1 else 0.
Proof. reflexivity. Qed.

Lemma chilling_total_count (df : DataFrame) :
  chilling_total (map snd df) = INR (chilling_days df).
Proof.
  unfold chilling_total, chilling_days.
  induction df as [ | [i r] df IH]; [ reflexivity | ].
  cbn [map snd Rsum fold_right List.filter].
  change (fold_right Rplus 0
            (map (fun r0 => chilling_unit (temperature r0)) (map snd df)))
    with (Rsum (map (fun r0 => chilling_unit (temperature r0)) (map snd df))).
  rewrite IH, chilling_unit_is_chilling_day.
  destruct (is_chilling_day (temperature r)).
  - cbn [length]. rewrite S_INR. lra.
  - lra.
Qed.

Lemma chilling_total_nonneg (rows : list Row) : 0 <= chilling_total rows.
Proof.
  unfold chilling_total. apply Rsum_nonneg.
  induction rows; constructor; auto. apply chilling_unit_nonneg.
Qed.

Lemma chilling_total_app (l m : list Row) :
  chilling_total (l ++ m) = chilling_total l + chilling_total m.
Proof.
  unfold chilling_total.
  induction l as [ | r l IH]; simpl; [ lra | ].
  rewrite IH. lra.
Qed.

(** No prefix accumulates more chilling than the whole series. *)
Lemma chilling_total_firstn_le (rows : list Row) (k : nat) :
  chilling_total (firstn k rows) <= chilling_total rows.
Proof.
  rewrite <- (firstn_skipn k rows) at 2.
  rewrite chilling_total_app.
  pose proof (chilling_total_nonneg (skipn k rows)). lra.
Qed.

Lemma chilling_days_perm (df df' : DataFrame) :
  Permutation df df' -> chilling_days df = chilling_days df'.
Proof.
  unfold chilling_days. induction 1; simpl;
    repeat match goal with
           | |- context [is_chilling_day ?t] => destruct (is_chilling_day t)
           end; simpl; congruence.
Qed.

(** The loop run from the initial locals on the sorted rows. *)
Lemma predict_budburst_loop (df : DataFrame)
    (latitude chilling_threshold forcing_threshold T_base alpha : R) :
  predict_budburst df latitude chilling_threshold forcing_threshold
                   T_base alpha
  = budburst_date
      (iterrows_loop latitude chilling_threshold forcing_threshold T_base
                     alpha initial_locals (sort_values df)).
Proof.
  unfold predict_budburst. f_equal.
  apply loop_labels, reset_index_rows.
Qed.

(** X5.  A series with fewer chilling days (records with [0 <= T <= 7])
    than the chilling threshold never leaves the chilling phase:
    [predict_budburst] returns [None], whatever the order of the records,
    the latitude and the other parameters. *)
Theorem too_few_chilling_days (df : DataFrame)
    (latitude chilling_threshold forcing_threshold T_base alpha : R) :
  INR (chilling_days df) < chilling_threshold ->
  predict_budburst df latitude chilling_threshold forcing_threshold
                   T_base alpha = None.
Proof.
  intros H. rewrite predict_budburst_loop. unfold initial_locals.
  rewrite loop_chilling_unmet; [ reflexivity | ].
  intros k _.
  pose proof (chilling_total_firstn_le (map snd (sort_values df)) k) as Hle.
  rewrite chilling_total_count in Hle.
  rewrite <- (chilling_days_perm _ _ (sort_values_perm df)) in Hle.
  lra.
Qed.

Lemma too_few_chilling_days_witness :
  predict_budburst two_days 0 2 0 5 (1 / 10) = None.
Proof.
  apply (too_few_chilling_days two_days 0 2 0 5 (1 / 10)).
  unfold chilling_days, two_days, is_chilling_day.
  cbn [List.filter snd temperature].
  Rdecide. cbn [andb length]. simpl. lra.
Defined.

(** ** Where the budburst date comes from *)

Section BudburstFacts.

Variables latitude chilling_threshold forcing_threshold T_base alpha : R.

Local Abbreviation loop :=
  (iterrows_loop latitude chilling_threshold forcing_threshold T_base alpha).

(** A budburst date is set by the record at which the loop breaks; when
    the loop starts in the chilling phase at least one record precedes
    it. *)
Lemma loop_some_split (rows : DataFrame) (st : locals) (d : Timestamp) :
  budburst_date st = None ->
  budburst_date (loop st rows) = Some d ->
  exists pre item post,
    rows = pre ++ item :: post /\ date (snd item) = d /\
    (chilling_phase st = true -> pre <> []) /\
    loop st (pre ++ [item]) = loop st rows.
Proof.
  revert st.
  induction rows as [ | item rows IH]; intros [c f bd ph] Hbd Hres;
    simpl in Hbd; subst bd.
  - simpl in Hres. discriminate.
  - pose proof (fun st H2 H1 => IH st H1 H2) as IH'.
    simpl in Hres |- *. unfold loop_body in Hres |- *; simpl in Hres |- *.
    destruct ph.
    + destruct (Rleb chilling_threshold
                  (c + chilling_unit (temperature (snd item)))) eqn:E;
        destruct (IH' _ Hres eq_refl) as (pre & it & post & -> & Hd & _ & Hl);
        exists (item :: pre), it, post;
        (split; [ reflexivity | ]); (split; [ exact Hd | ]);
        (split; [ discriminate | ]);
        simpl; unfold loop_body; simpl; rewrite E; exact Hl.
    + destruct (Rleb forcing_threshold _) eqn:E.
      * simpl in Hres. injection Hres as <-.
        exists [], item, rows.
        split; [ reflexivity | ]. split; [ reflexivity | ].
        split; [ discriminate | ].
        simpl. unfold loop_body; simpl. rewrite E. reflexivity.
      * destruct (IH' _ Hres eq_refl) as (pre & it & post & -> & Hd & _ & Hl).
        exists (item :: pre), it, post.
        split; [ reflexivity | ]. split; [ exact Hd | ].
        split; [ discriminate | ].
        simpl. unfold loop_body; simpl. rewrite E. exact Hl.
Qed.

(** Records after the one that set the budburst date are never read. *)
Lemma loop_app_after_break (rows more : DataFrame) (st : locals)
    (d : Timestamp) :
  budburst_date st = None ->
  budburst_date (loop st rows) = Some d ->
  loop st (rows ++ more) = loop st rows.
Proof.
  revert st.
  induction rows as [ | item rows IH]; intros [c f bd ph] Hbd Hres;
    simpl in Hbd; subst bd.
  - simpl in Hres. discriminate.
  - simpl in Hres |- *. unfold loop_body in Hres |- *; simpl in Hres |- *.
    destruct ph.
    + destruct (Rleb chilling_threshold _); apply IH; auto.
    + destruct (Rleb forcing_threshold _); [ reflexivity | ].
      apply IH; auto.
Qed.

End BudburstFacts.

(** X6.  A budburst date returned by [predict_budburst] is the date of a
    record of the input, and never of the first record in date order: the
    record that completes the chilling requirement contributes no forcing.
    In particular a series of at most one record gives [None] for all
    thresholds, zero and negative ones included. *)
Theorem budburst_date_is_a_later_record (df : DataFrame)
    (latitude chilling_threshold forcing_threshold T_base alpha : R) :
  (forall d,
     predict_budburst df latitude chilling_threshold forcing_threshold
                      T_base alpha = Some d ->
     exists pre item post,
       sort_values df = pre ++ item :: post /\
       pre <> [] /\ date (snd item) = d /\ In item df) /\
  ((length df <= 1)%nat ->
   predict_budburst df latitude chilling_threshold forcing_threshold
                    T_base alpha = None).
Proof.
  assert (Hsome : forall d,
     predict_budburst df latitude chilling_threshold forcing_threshold
                      T_base alpha = Some d ->
     exists pre item post,
       sort_values df = pre ++ item :: post /\
       pre <> [] /\ date (snd item) = d /\ In item df).
  { intros d H. rewrite predict_budburst_loop in H.
    destruct (loop_some_split latitude chilling_threshold forcing_threshold
                T_base alpha (sort_values df) initial_locals d eq_refl H)
      as (pre & item & post & Hs & Hd & Hpre & _).
    exists pre, item, post.
    split; [ exact Hs | ]. split; [ apply Hpre; reflexivity | ].
    split; [ exact Hd | ].
    apply Permutation_in with (sort_values df).
    - apply Permutation_sym, sort_values_perm.
    - rewrite Hs. apply in_or_app. right. left. reflexivity. }
  split; [ exact Hsome | ].
  intros Hlen.
  destruct (predict_budburst df latitude chilling_threshold forcing_threshold
              T_base alpha) as [d | ] eqn:E; [ | reflexivity ].
  destruct (Hsome d eq_refl) as (pre & item & post & Hs & Hpre & _).
  pose proof (sort_values_length df) as Hl. rewrite Hs in Hl.
  rewrite length_app in Hl. simpl in Hl.
  destruct pre; [ contradiction | simpl in Hl; lia ].
Qed.

Lemma budburst_date_is_a_later_record_witness :
  predict_budburst [ (0%Z, mkRow (calendar_day 2024 100) 20) ]
                   0 0 0 5 (1 / 10) = None.
Proof.
  apply (proj2 (budburst_date_is_a_later_record
                  [ (0%Z, mkRow (calendar_day 2024 100) 20) ]
                  0 0 0 5 (1 / 10))).
  simpl. lia.
Defined.

(** ** The order and the extent of the input *)

Lemma ts_le_antisym (a b : Timestamp) : ts_le a b -> ts_le b a -> a = b.
Proof.
  unfold ts_le. rewrite !ts_leb_spec.
  destruct a as [ya da ha], b as [yb db hb]; simpl.
  intros H1 H2.
  assert (ya = yb) by lia. assert (da = db) by lia. assert (ha = hb) by lia.
  subst. reflexivity.
Qed.

Lemma date_le_trans (x y z : Z * Row) : date_le x y -> date_le y z -> date_le x z.
Proof. unfold date_le. apply ts_le_trans. Qed.

Lemma sorted_strongly (l : DataFrame) :
  Sorted date_le l -> StronglySorted date_le l.
Proof.
  apply Sorted_StronglySorted. intros x y z. apply date_le_trans.
Qed.

(** Two frames in date order with the same records, no two of them on
    the same date, are the same frame. *)
Lemma sorted_perm_unique (l1 l2 : DataFrame) :
  StronglySorted date_le l1 -> StronglySorted date_le l2 ->
  Permutation l1 l2 -> List.NoDup (dates l1) -> l1 = l2.
Proof.
  revert l2.
  induction l1 as [ | x l1 IH]; intros l2 H1 H2 Hp Hnd.
  - apply Permutation_nil in Hp. subst. reflexivity.
  - destruct l2 as [ | y l2].
    { apply Permutation_sym, Permutation_nil in Hp. discriminate. }
    apply StronglySorted_inv in H1. destruct H1 as [H1 Hx].
    apply StronglySorted_inv in H2. destruct H2 as [H2 Hy].
    unfold dates in Hnd. simpl in Hnd.
    apply List.NoDup_cons_iff in Hnd. destruct Hnd as [Hnx Hnd].
    assert (Exy : x = y).
    { assert (Hin1 : In x (y :: l2))
        by (apply (Permutation_in _ Hp); left; reflexivity).
      destruct Hin1 as [E | Hin1]; [ symmetry; exact E | ].
      assert (Hin2 : In y (x :: l1))
        by (apply (Permutation_in _ (Permutation_sym Hp)); left; reflexivity).
      destruct Hin2 as [E | Hin2]; [ exact E | ].
      exfalso. apply Hnx.
      pose proof (proj1 (List.Forall_forall _ _) Hx y Hin2) as Hxy.
      pose proof (proj1 (List.Forall_forall _ _) Hy x Hin1) as Hyx.
      rewrite (ts_le_antisym _ _ Hxy Hyx).
      apply (in_map (fun item => date (snd item))), Hin2. }
    subst y. f_equal.
    apply IH; auto.
    apply Permutation_cons_inv with x. exact Hp.
Qed.

(** X7.  [predict_budburst] does not depend on the order in which the
    records are supplied: two frames holding the same records, no two of
    them on the same date, give the same result. *)
Theorem predict_budburst_order_independent (df df' : DataFrame)
    (latitude chilling_threshold forcing_threshold T_base alpha : R) :
  Permutation df df' ->
  List.NoDup (dates df) ->
  predict_budburst df latitude chilling_threshold forcing_threshold
                   T_base alpha
  = predict_budburst df' latitude chilling_threshold forcing_threshold
                     T_base alpha.
Proof.
  intros Hp Hnd. rewrite !predict_budburst_loop.
  assert (E : sort_values df = sort_values df').
  { apply sorted_perm_unique.
    - apply sorted_strongly, sort_values_sorted.
    - apply sorted_strongly, sort_values_sorted.
    - apply Permutation_trans with df;
        [ apply Permutation_sym, sort_values_perm | ].
      apply Permutation_trans with df'; [ exact Hp | apply sort_values_perm ].
    - apply (Permutation_NoDup (l := dates df)); [ | exact Hnd ].
      unfold dates. apply Permutation_map, sort_values_perm. }
  rewrite E. reflexivity.
Qed.

Lemma predict_budburst_order_independent_witness :
  predict_budburst two_days 0 0 0 5 (1 / 10)
  = predict_budburst [ (1%Z, mkRow (calendar_day 2024 1) 3);
                       (0%Z, mkRow (calendar_day 2024 2) 10) ]
                     0 0 0 5 (1 / 10).
Proof.
  apply (predict_budburst_order_independent two_days).
  - apply perm_swap.
  - unfold dates, two_days. cbn [map snd date].
    repeat constructor; simpl; intuition discriminate.
Defined.

(** Inserting a record that is not later than any record of [m]. *)
Lemma insert_by_date_app (x : Z * Row) (l m : DataFrame) :
  (forall y, In y m -> date_le x y) ->
  insert_by_date x (l ++ m) = insert_by_date x l ++ m.
Proof.
  intros Hm.
  induction l as [ | a l IH]; simpl.
  - destruct m as [ | b m]; [ reflexivity | ].
    simpl. rewrite (Hm b) by (left; reflexivity). reflexivity.
  - destruct (ts_leb (date (snd x)) (date (snd a))); [ reflexivity | ].
    simpl. rewrite IH. reflexivity.
Qed.

(** Sorting a series followed by later records sorts the two parts. *)
Lemma sort_values_app (df more : DataFrame) :
  (forall x y, In x df -> In y more -> date_le x y) ->
  sort_values (df ++ more) = sort_values df ++ sort_values more.
Proof.
  intros H.
  induction df as [ | x df IH]; [ reflexivity | ].
  simpl. rewrite IH.
  - apply insert_by_date_app. intros y Hy.
    apply (H x y); [ left; reflexivity | ].
    apply Permutation_in with (sort_values more);
      [ apply Permutation_sym, sort_values_perm | exact Hy ].
  - intros a b Ha Hb. apply H; [ right; exact Ha | exact Hb ].
Qed.

(** A record that is earlier is not later. *)
Lemma ts_ltb_leb (a b : Timestamp) : ts_ltb a b = true -> ts_le a b.
Proof.
  unfold ts_le. rewrite ts_ltb_spec, ts_leb_spec. lia.
Qed.

(** X8.  A budburst date, once determined, is not changed by extending
    the series with records later than every record already there (the
    dates already there being distinct): the loop stops at the budburst
    record and reads no further. *)
Theorem later_records_keep_budburst (df more : DataFrame)
    (latitude chilling_threshold forcing_threshold T_base alpha : R)
    (d : Timestamp) :
  List.NoDup (dates df) ->
  (forall x y, In x df -> In y more ->
     ts_ltb (date (snd x)) (date (snd y)) = true) ->
  predict_budburst df latitude chilling_threshold forcing_threshold
                   T_base alpha = Some d ->
  predict_budburst (df ++ more) latitude chilling_threshold
                   forcing_threshold T_base alpha = Some d.
Proof.
  intros _ Hlater H. rewrite predict_budburst_loop in H |- *.
  rewrite (sort_values_app df more).
  - rewrite (loop_app_after_break latitude chilling_threshold
               forcing_threshold T_base alpha (sort_values df)
               (sort_values more) initial_locals d eq_refl H).
    exact H.
  - intros x y Hx Hy. apply ts_ltb_leb, Hlater; assumption.
Qed.

(** The sample series evaluated: with both thresholds 0 the second day
    is the budburst date. *)
Lemma two_days_budburst :
  predict_budburst two_days 0 0 0 5 (1 / 10) = Some (calendar_day 2024 2).
Proof.
  unfold predict_budburst.
  change (reset_index (sort_values two_days))
    with [ (0%Z, mkRow (calendar_day 2024 1) 3);
           (1%Z, mkRow (calendar_day 2024 2) 10) ].
  unfold initial_locals.
  loop_step.
  cbn [iterrows_loop loop_body chilling_phase chilling_sum forcing_sum
       budburst_date snd date temperature].
  rewrite photoperiod_equator.
  unfold forcing_unit. Rdecide. reflexivity.
Defined.

Lemma later_records_keep_budburst_witness :
  predict_budburst (two_days ++ [ (2%Z, mkRow (calendar_day 2024 3) 0) ])
                   0 0 0 5 (1 / 10) = Some (calendar_day 2024 2).
Proof.
  apply (later_records_keep_budburst two_days
           [ (2%Z, mkRow (calendar_day 2024 3) 0) ] 0 0 0 5 (1 / 10)).
  - unfold dates, two_days. cbn [map snd date].
    repeat constructor; simpl; intuition discriminate.
  - intros x y [<- | [<- | []]] [<- | []]; reflexivity.
  - exact two_days_budburst.
Defined.

(** ** Forcing units *)

(** X9.  With [0 <= alpha <= 1/12] the day-length factor cannot turn
    negative: the forcing unit of a day is non-negative for every
    temperature and every day length between 0 and 24 hours, hence for
    every record at every latitude, and so is the forcing accumulated
    over any run of records. *)
Theorem small_alpha_forcing_nonneg (latitude T_base alpha : R) :
  0 <= alpha <= 1 / 12 ->
  (forall T p, 0 <= p <= 24 -> 0 <= forcing_unit T p T_base alpha) /\
  (forall r, 0 <= forcing_of latitude T_base alpha r) /\
  (forall rows, 0 <= forcing_total latitude T_base alpha rows).
Proof.
  intros Ha.
  assert (Hu : forall T p, 0 <= p <= 24 -> 0 <= forcing_unit T p T_base alpha).
  { intros T p Hp. unfold forcing_unit.
    destruct (Rltb T_base T) eqn:E; [ | lra ].
    apply Rltb_true in E.
    apply Rmult_le_pos; [ lra | ]. nra. }
  assert (Hr : forall r, 0 <= forcing_of latitude T_base alpha r).
  { intros r. unfold forcing_of. apply Hu, photoperiod_bounds. }
  split; [ exact Hu | ]. split; [ exact Hr | ].
  intros rows. unfold forcing_total. apply Rsum_nonneg.
  induction rows; constructor; auto.
Qed.

Lemma small_alpha_forcing_nonneg_witness :
  0 <= forcing_of 89 5 (1 / 12) (mkRow (calendar_day 2024 1) 10).
Proof.
  assert (Ha : 0 <= 1 / 12 <= 1 / 12) by lra.
  exact (proj1 (proj2 (small_alpha_forcing_nonneg 89 5 (1 / 12) Ha))
           (mkRow (calendar_day 2024 1) 10)).
Defined.

(** X10.  On a 12-hour day, and so on every date at the equator, the
    day-length factor is 1 and the forcing unit is the plain excess over
    the base temperature, [max(0, T - T_base)]: the forcing accumulated
    over a run of records is the degree-day sum that [np.maximum(0, T -
    T_base)] gives in frost_damage.py, whatever [alpha]. *)
Theorem neutral_day_forcing (T_base alpha : R) :
  (forall T, forcing_unit T 12 T_base alpha = Rmax 0 (T - T_base)) /\
  (forall rows,
     forcing_total 0 T_base alpha rows
     = Rsum (maximum0_minus (map temperature rows) T_base)).
Proof.
  assert (Hu : forall T, forcing_unit T 12 T_base alpha = Rmax 0 (T - T_base)).
  { intros T. unfold forcing_unit, Rmax.
    destruct (Rltb T_base T) eqn:E; destruct (Rle_dec 0 (T - T_base));
      try apply Rltb_true in E; try apply Rltb_false in E; lra. }
  split; [ exact Hu | ].
  intros rows. unfold forcing_total, maximum0_minus.
  induction rows as [ | r rows IH]; [ reflexivity | ].
  unfold Rsum in *. cbn [map fold_right]. rewrite IH.
  unfold forcing_of. rewrite photoperiod_equator, Hu. reflexivity.
Qed.

(* ===================================================================== *)
(** * Further properties of frost_damage.py *)
(* ===================================================================== *)

(** ** One hour *)

Lemma deficit_of_nonneg (T_crit T_hour : R) : 0 <= deficit_of T_crit T_hour.
Proof. apply Rmax_l. Qed.

Lemma hourly_frost_damage_cases (T_hour s T_crit : R) :
  (s <= 1 -> 0 <= hourly_frost_damage T_hour s T_crit) /\
  (T_crit <= T_hour -> hourly_frost_damage T_hour s T_crit = 0) /\
  (s = 1 -> hourly_frost_damage T_hour s T_crit = 0) /\
  (0 <= s <= 1 ->
     hourly_frost_damage T_hour s T_crit <= deficit_of T_crit T_hour) /\
  hourly_frost_damage T_hour 0 T_crit = deficit_of T_crit T_hour.
Proof.
  unfold hourly_frost_damage, sensitivity_function, deficit_of.
  pose proof (Rmax_l 0 (T_crit - T_hour)) as Hd.
  repeat split.
  - intros Hs. apply Rmult_le_pos; lra.
  - intros HT. rewrite Rmax_left by lra. lra.
  - intros ->. lra.
  - intros Hs. nra.
  - lra.
Qed.

(** X11.  The damage of one hour is never negative for a stage [s <= 1];
    it is 0 when the temperature is not below [T_crit] and when the tissue
    is mature ([s = 1]); for a stage in [0, 1] it is at most the thermal
    deficit [max(0, T_crit - T_hour)], which it equals at [s = 0]. *)
Theorem hourly_frost_damage_bounds (T_hour s T_crit : R) :
  (s <= 1 -> 0 <= hourly_frost_damage T_hour s T_crit) /\
  (T_crit <= T_hour -> hourly_frost_damage T_hour s T_crit = 0) /\
  (s = 1 -> hourly_frost_damage T_hour s T_crit = 0) /\
  (0 <= s <= 1 ->
     hourly_frost_damage T_hour s T_crit <= deficit_of T_crit T_hour) /\
  hourly_frost_damage T_hour 0 T_crit = deficit_of T_crit T_hour.
Proof.
  unfold hourly_frost_damage, sensitivity_function, deficit_of.
  pose proof (Rmax_l 0 (T_crit - T_hour)) as Hd.
  repeat split.
  - intros Hs. apply Rmult_le_pos; lra.
  - intros HT. rewrite Rmax_left by lra. lra.
  - intros ->. lra.
  - intros Hs. nra.
  - lra.
Qed.

Lemma hourly_frost_damage_bounds_witness :
  0 <= hourly_frost_damage (- 2) (1 / 2) 0 /\
  hourly_frost_damage 3 (1 / 2) 0 = 0.
Proof.
  split.
  - apply (proj1 (hourly_frost_damage_bounds (- 2) (1 / 2) 0)). lra.
  - apply (proj1 (proj2 (hourly_frost_damage_bounds 3 (1 / 2) 0))). lra.
Defined.

(** ** The stage and damage columns *)

Lemma cumsum_from_nonneg (l : list R) (acc : R) :
  0 <= acc -> Forall (fun x => 0 <= x) l ->
  Forall (fun x => 0 <= x) (cumsum_from acc l).
Proof.
  intros Hacc Hl. revert acc Hacc.
  induction Hl as [ | x l Hx Hl IH]; intros acc Hacc; simpl; constructor.
  - lra.
  - apply IH. lra.
Qed.

Lemma compute_forcing_nonneg (temps : list R) (T_base : R) :
  Forall (fun x => 0 <= x) (compute_forcing temps T_base).
Proof.
  unfold compute_forcing, cumsum.
  apply cumsum_from_nonneg; [ lra | apply maximum0_minus_nonneg ].
Qed.

(** The cap keeps every stage at or below 1, whatever the inputs. *)
Lemma stage_le_1 (cum : list R) (F_mature : R) :
  Forall (fun x => x <= 1) (compute_phenological_stage cum F_mature).
Proof.
  unfold compute_phenological_stage.
  induction cum as [ | c cum IH]; simpl; constructor; [ | exact IH ].
  destruct (Rltb 1 (c / F_mature)) eqn:E; [ lra | ].
  apply Rltb_false in E. exact E.
Qed.

Lemma stage_in_unit (cum : list R) (F_mature : R) :
  0 < F_mature -> Forall (fun x => 0 <= x) cum ->
  Forall (fun x => 0 <= x <= 1) (compute_phenological_stage cum F_mature).
Proof.
  intros HF Hcum. unfold compute_phenological_stage.
  induction Hcum as [ | c cum Hc Hcum IH]; simpl; constructor; [ | exact IH ].
  assert (0 <= c / F_mature).
  { apply Rmult_le_pos; [ exact Hc | ].
    apply Rlt_le, Rinv_0_lt_compat, HF. }
  destruct (Rltb 1 (c / F_mature)) eqn:E; [ lra | ].
  apply Rltb_false in E. lra.
Qed.

Lemma damage_column_nonneg (temps s : list R) (T_crit : R) :
  Forall (fun x => x <= 1) s ->
  Forall (fun x => 0 <= x) (damage_column temps s T_crit).
Proof.
  intros Hs. revert temps.
  induction Hs as [ | x s Hx Hs IH]; intros [ | T temps];
    unfold damage_column in *; simpl; constructor.
  - apply (proj1 (hourly_frost_damage_cases T x T_crit)). exact Hx.
  - apply IH.
Qed.

Lemma deficits_nonneg (T_crit : R) (temps : list R) :
  0 <= Rsum (map (deficit_of T_crit) temps).
Proof.
  apply Rsum_nonneg. induction temps; constructor; auto.
  apply deficit_of_nonneg.
Qed.

Lemma damage_column_le_deficit (temps s : list R) (T_crit : R) :
  Forall (fun x => 0 <= x <= 1) s ->
  Rsum (damage_column temps s T_crit) <= Rsum (map (deficit_of T_crit) temps).
Proof.
  intros Hs. revert temps.
  induction Hs as [ | x s Hx Hs IH]; intros temps.
  - unfold damage_column. rewrite combine_nil. apply deficits_nonneg.
  - destruct temps as [ | T temps]; [ simpl; lra | ].
    unfold damage_column. cbn [combine map fst snd Rsum fold_right].
    pose proof (proj1 (proj2 (proj2 (proj2
                  (hourly_frost_damage_cases T x T_crit)))) Hx).
    specialize (IH temps). unfold damage_column, Rsum in IH. lra.
Qed.

(** ** The columns of the trace *)

(** What a successful call returns, column by column. *)
Lemma integrator_columns (df : Frame) (budburst_time end_time : Timestamp)
    (T_crit T_base F_mature : R) (temps_all : list R) (total : R)
    (trace : Frame) :
  getitem df "temperature" = Some temps_all ->
  compute_cumulative_frost_damage df budburst_time end_time
                                  T_crit T_base F_mature
  = Some (total, trace) ->
  let temps := window df budburst_time end_time temps_all in
  let s := compute_phenological_stage (compute_forcing temps T_base)
                                      F_mature in
  total = Rsum (damage_column temps s T_crit) /\
  index trace = window df budburst_time end_time (index df) /\
  getitem trace "temperature" = Some temps /\
  getitem trace "forcing" = Some (maximum0_minus temps T_base) /\
  getitem trace "cum_forcing" = Some (compute_forcing temps T_base) /\
  getitem trace "s" = Some s /\
  getitem trace "hourly_damage" = Some (damage_column temps s T_crit).
Proof.
  intros Htemp Hrun temps s.
  rewrite (compute_cumulative_frost_damage_eq df budburst_time end_time
             T_crit T_base F_mature temps_all Htemp) in Hrun.
  cbv zeta in Hrun. injection Hrun as <- <-.
  split; [ reflexivity | ].
  split; [ reflexivity | ].
  split.
  { rewrite !getitem_setitem_ne by reflexivity.
    rewrite getitem_loc_slice, Htemp. reflexivity. }
  split.
  { rewrite !getitem_setitem_ne by reflexivity. apply getitem_setitem_eq. }
  split.
  { rewrite !getitem_setitem_ne by reflexivity. apply getitem_setitem_eq. }
  split.
  { rewrite !getitem_setitem_ne by reflexivity. apply getitem_setitem_eq. }
  apply getitem_setitem_eq.
Qed.

(** X12.  The trace carries, next to the window's temperatures, the
    columns the helper functions compute: "forcing" is [max(0, T -
    T_base)], "cum_forcing" is [compute_forcing] of the window, "s" is
    [compute_phenological_stage] of that, and "hourly_damage" is
    [hourly_frost_damage] row by row.  Accumulation starts at the first
    hour of the window.  Any other column of the input is carried over,
    restricted to the window. *)
Theorem trace_columns (df : Frame) (budburst_time end_time : Timestamp)
    (T_crit T_base F_mature : R) (temps_all : list R) (total : R)
    (trace : Frame) :
  is_monotonic_increasing (index df) = true ->
  getitem df "temperature" = Some temps_all ->
  compute_cumulative_frost_damage df budburst_time end_time
                                  T_crit T_base F_mature
  = Some (total, trace) ->
  let temps := window df budburst_time end_time temps_all in
  let s := compute_phenological_stage (compute_forcing temps T_base)
                                      F_mature in
  getitem trace "temperature" = Some temps /\
  getitem trace "forcing" = Some (maximum0_minus temps T_base) /\
  getitem trace "cum_forcing" = Some (compute_forcing temps T_base) /\
  getitem trace "s" = Some s /\
  getitem trace "hourly_damage" = Some (damage_column temps s T_crit) /\
  (forall c,
     String.eqb "forcing" c = false -> String.eqb "cum_forcing" c = false ->
     String.eqb "s" c = false -> String.eqb "hourly_damage" c = false ->
     getitem trace c
     = option_map (window df budburst_time end_time) (getitem df c)).
Proof.
  intros _ Htemp Hrun temps s.
  destruct (integrator_columns df budburst_time end_time T_crit T_base
              F_mature temps_all total trace Htemp Hrun)
    as (_ & _ & H1 & H2 & H3 & H4 & H5).
  repeat (split; [ assumption | ]).
  intros c Hc1 Hc2 Hc3 Hc4.
  rewrite (compute_cumulative_frost_damage_eq df budburst_time end_time
             T_crit T_base F_mature temps_all Htemp) in Hrun.
  cbv zeta in Hrun. injection Hrun as _ <-.
  rewrite !getitem_setitem_ne by assumption.
  apply getitem_loc_slice.
Qed.

Lemma trace_columns_witness :
  exists total trace,
    compute_cumulative_frost_damage three_hours (mkTimestamp 2023 91 0)
                                    (mkTimestamp 2023 91 1) 0 5 1000
    = Some (total, trace) /\
    getitem trace "forcing" = Some (maximum0_minus [- 2; 6] 5).
Proof.
  pose proof (compute_cumulative_frost_damage_eq three_hours
                (mkTimestamp 2023 91 0) (mkTimestamp 2023 91 1) 0 5 1000
                [- 2; 6; 1] eq_refl) as Hrun.
  cbv zeta in Hrun.
  eexists _, _. split; [ exact Hrun | ].
  exact (proj1 (proj2 (trace_columns three_hours (mkTimestamp 2023 91 0)
                         (mkTimestamp 2023 91 1) 0 5 1000 [- 2; 6; 1] _ _
                         eq_refl eq_refl Hrun))).
Defined.

(** ** Bounds on the damage *)

(** X13.  For [F_mature > 0] no hour of the trace has negative damage,
    and the total damage lies between 0 and the sum of the thermal
    deficits [max(0, T_crit - T)] of the window. *)
Theorem total_damage_bounds (df : Frame) (budburst_time end_time : Timestamp)
    (T_crit T_base F_mature : R) (temps_all : list R) (total : R)
    (trace : Frame) :
  is_monotonic_increasing (index df) = true ->
  0 < F_mature ->
  getitem df "temperature" = Some temps_all ->
  compute_cumulative_frost_damage df budburst_time end_time
                                  T_crit T_base F_mature
  = Some (total, trace) ->
  exists damage,
    getitem trace "hourly_damage" = Some damage /\
    Forall (fun x => 0 <= x) damage /\
    0 <= total
      <= Rsum (map (deficit_of T_crit)
                   (window df budburst_time end_time temps_all)).
Proof.
  intros _ HF Htemp Hrun.
  destruct (integrator_columns df budburst_time end_time T_crit T_base
              F_mature temps_all total trace Htemp Hrun)
    as (Htot & _ & _ & _ & _ & _ & Hd).
  eexists. split; [ exact Hd | ].
  assert (Hn : Forall (fun x => 0 <= x)
                 (damage_column (window df budburst_time end_time temps_all)
                    (compute_phenological_stage
                       (compute_forcing
                          (window df budburst_time end_time temps_all) T_base)
                       F_mature) T_crit))
    by apply damage_column_nonneg, stage_le_1.
  split; [ exact Hn | ].
  rewrite Htot. split.
  - apply Rsum_nonneg, Hn.
  - apply damage_column_le_deficit, stage_in_unit;
      [ exact HF | apply compute_forcing_nonneg ].
Qed.

Lemma total_damage_bounds_witness :
  exists total trace,
    compute_cumulative_frost_damage three_hours (mkTimestamp 2023 91 0)
                                    (mkTimestamp 2023 91 2) 0 5 1000
    = Some (total, trace) /\
    0 <= total.
Proof.
  pose proof (compute_cumulative_frost_damage_eq three_hours
                (mkTimestamp 2023 91 0) (mkTimestamp 2023 91 2) 0 5 1000
                [- 2; 6; 1] eq_refl) as Hrun.
  cbv zeta in Hrun.
  assert (HF : 0 < 1000) by lra.
  destruct (total_damage_bounds three_hours (mkTimestamp 2023 91 0)
              (mkTimestamp 2023 91 2) 0 5 1000 [- 2; 6; 1] _ _
              eq_refl HF eq_refl Hrun) as (damage & _ & _ & Hb & _).
  eexists _, _. split; [ exact Hrun | exact Hb ].
Defined.

Lemma damage_column_no_frost (temps s : list R) (T_crit : R) :
  Forall (fun T => T_crit <= T) temps ->
  Forall (fun x => x = 0) (damage_column temps s T_crit).
Proof.
  intros Ht. revert s.
  induction Ht as [ | T temps HT Ht IH]; intros [ | x s];
    unfold damage_column in *; simpl; constructor.
  - apply (proj1 (proj2 (hourly_frost_damage_cases T x T_crit))). exact HT.
  - apply IH.
Qed.

Lemma Rsum_all_zero (l : list R) : Forall (fun x => x = 0) l -> Rsum l = 0.
Proof. induction 1 as [ | x l Hx Hl IH]; unfold Rsum in *; simpl; lra. Qed.

(** X14.  When no hour of the window is colder than [T_crit], every
    hourly damage is 0 and so is the total, whatever the stage. *)
Theorem no_frost_no_damage (df : Frame) (budburst_time end_time : Timestamp)
    (T_crit T_base F_mature : R) (temps_all : list R) (total : R)
    (trace : Frame) :
  is_monotonic_increasing (index df) = true ->
  F_mature <> 0 ->
  getitem df "temperature" = Some temps_all ->
  Forall (fun T => T_crit <= T) (window df budburst_time end_time temps_all) ->
  compute_cumulative_frost_damage df budburst_time end_time
                                  T_crit T_base F_mature
  = Some (total, trace) ->
  total = 0 /\
  exists damage,
    getitem trace "hourly_damage" = Some damage /\
    Forall (fun x => x = 0) damage.
Proof.
  intros _ _ Htemp Hwarm Hrun.
  destruct (integrator_columns df budburst_time end_time T_crit T_base
              F_mature temps_all total trace Htemp Hrun)
    as (Htot & _ & _ & _ & _ & _ & Hd).
  pose proof (damage_column_no_frost _
                (compute_phenological_stage
                   (compute_forcing
                      (window df budburst_time end_time temps_all) T_base)
                   F_mature) T_crit Hwarm) as Hz.
  split.
  - rewrite Htot. apply Rsum_all_zero, Hz.
  - eexists. split; [ exact Hd | exact Hz ].
Qed.

Lemma no_frost_no_damage_witness :
  exists total trace,
    compute_cumulative_frost_damage three_hours (mkTimestamp 2023 91 1)
                                    (mkTimestamp 2023 91 2) 0 5 1000
    = Some (total, trace) /\
    total = 0.
Proof.
  pose proof (compute_cumulative_frost_damage_eq three_hours
                (mkTimestamp 2023 91 1) (mkTimestamp 2023 91 2) 0 5 1000
                [- 2; 6; 1] eq_refl) as Hrun.
  cbv zeta in Hrun.
  assert (HF : 1000 <> 0) by lra.
  assert (Hw : Forall (fun T => 0 <= T)
                 (window three_hours (mkTimestamp 2023 91 1)
                    (mkTimestamp 2023 91 2) [- 2; 6; 1])).
  { change (window three_hours (mkTimestamp 2023 91 1)
              (mkTimestamp 2023 91 2) [- 2; 6; 1]) with [6; 1].
    repeat constructor; lra. }
  destruct (no_frost_no_damage three_hours (mkTimestamp 2023 91 1)
              (mkTimestamp 2023 91 2) 0 5 1000 [- 2; 6; 1] _ _
              eq_refl HF eq_refl Hw Hrun) as (H0 & _).
  eexists _, _. split; [ exact Hrun | exact H0 ].
Defined.

(** ** Stage 0 and stage 1 *)

Lemma cumsum_from_zeros {A : Type} (l : list A) (acc : R) :
  cumsum_from acc (map (fun _ => 0) l) = map (fun _ => acc) l.
Proof.
  revert acc. induction l as [ | a l IH]; intros acc; simpl; [ reflexivity | ].
  rewrite Rplus_0_r, IH. reflexivity.
Qed.

Lemma maximum0_minus_cold (temps : list R) (T_base : R) :
  Forall (fun T => T <= T_base) temps ->
  maximum0_minus temps T_base = map (fun _ => 0) temps.
Proof.
  unfold maximum0_minus.
  induction 1 as [ | T temps HT Ht IH]; simpl; [ reflexivity | ].
  rewrite IH, Rmax_left by lra. reflexivity.
Qed.

Lemma stage_of_zeros {A : Type} (l : list A) (F_mature : R) :
  compute_phenological_stage (map (fun _ => 0) l) F_mature
  = map (fun _ => 0) l.
Proof.
  unfold compute_phenological_stage.
  induction l as [ | a l IH]; simpl; [ reflexivity | ].
  rewrite IH. unfold Rdiv. rewrite Rmult_0_l.
  rewrite (proj2 (Rltb_false 1 0)) by lra. reflexivity.
Qed.

Lemma damage_column_stage_zero (temps : list R) (T_crit : R) :
  damage_column temps (map (fun _ => 0) temps) T_crit
  = map (deficit_of T_crit) temps.
Proof.
  unfold damage_column.
  induction temps as [ | T temps IH]; simpl; [ reflexivity | ].
  rewrite IH.
  rewrite (proj2 (proj2 (proj2 (proj2 (hourly_frost_damage_cases T 0 T_crit))))).
  reflexivity.
Qed.

(** X15.  When no hour of the window is warmer than [T_base], no forcing
    accumulates: the stage stays 0 for the whole window and the total
    damage is the full sum of the thermal deficits [max(0, T_crit - T)]. *)
Theorem no_warmth_full_damage (df : Frame)
    (budburst_time end_time : Timestamp) (T_crit T_base F_mature : R)
    (temps_all : list R) (total : R) (trace : Frame) :
  is_monotonic_increasing (index df) = true ->
  F_mature <> 0 ->
  getitem df "temperature" = Some temps_all ->
  Forall (fun T => T <= T_base) (window df budburst_time end_time temps_all) ->
  compute_cumulative_frost_damage df budburst_time end_time
                                  T_crit T_base F_mature
  = Some (total, trace) ->
  let temps := window df budburst_time end_time temps_all in
  getitem trace "s" = Some (map (fun _ => 0) temps) /\
  getitem trace "hourly_damage" = Some (map (deficit_of T_crit) temps) /\
  total = Rsum (map (deficit_of T_crit) temps).
Proof.
  intros _ _ Htemp Hcold Hrun temps.
  destruct (integrator_columns df budburst_time end_time T_crit T_base
              F_mature temps_all total trace Htemp Hrun)
    as (Htot & _ & _ & _ & _ & Hs & Hd).
  fold temps in Hcold, Htot, Hs, Hd.
  assert (E : compute_phenological_stage (compute_forcing temps T_base)
                                         F_mature
              = map (fun _ => 0) temps).
  { unfold compute_forcing, cumsum.
    rewrite (maximum0_minus_cold temps T_base Hcold).
    rewrite cumsum_from_zeros. apply stage_of_zeros. }
  rewrite E in Htot, Hs, Hd.
  rewrite damage_column_stage_zero in Htot, Hd.
  split; [ exact Hs | ]. split; [ exact Hd | exact Htot ].
Qed.

Lemma no_warmth_full_damage_witness :
  exists total trace,
    compute_cumulative_frost_damage three_hours (mkTimestamp 2023 91 0)
                                    (mkTimestamp 2023 91 0) 0 5 1000
    = Some (total, trace) /\
    total = Rsum (map (deficit_of 0) [- 2]).
Proof.
  pose proof (compute_cumulative_frost_damage_eq three_hours
                (mkTimestamp 2023 91 0) (mkTimestamp 2023 91 0) 0 5 1000
                [- 2; 6; 1] eq_refl) as Hrun.
  cbv zeta in Hrun.
  assert (HF : 1000 <> 0) by lra.
  assert (Hw : Forall (fun T => T <= 5)
                 (window three_hours (mkTimestamp 2023 91 0)
                    (mkTimestamp 2023 91 0) [- 2; 6; 1])).
  { change (window three_hours (mkTimestamp 2023 91 0)
              (mkTimestamp 2023 91 0) [- 2; 6; 1]) with [- 2].
    repeat constructor; lra. }
  destruct (no_warmth_full_damage three_hours (mkTimestamp 2023 91 0)
              (mkTimestamp 2023 91 0) 0 5 1000 [- 2; 6; 1] _ _
              eq_refl HF eq_refl Hw Hrun) as (_ & _ & H0).
  eexists _, _. split; [ exact Hrun | exact H0 ].
Defined.

(** X16.  For [F_mature > 0] maturity is final: once the stage series
    reaches 1 it is 1 at every later hour, and the damage of every such
    hour is 0 whatever its temperature. *)
Theorem maturity_is_final (temps : list R) (T_base F_mature T_crit : R)
    (t u : nat) (x : R) :
  0 < F_mature ->
  (t <= u)%nat ->
  nth_error (compute_phenological_stage (compute_forcing temps T_base)
                                        F_mature) t = Some 1 ->
  nth_error (compute_phenological_stage (compute_forcing temps T_base)
                                        F_mature) u = Some x ->
  x = 1 /\ forall T_hour, hourly_frost_damage T_hour x T_crit = 0.
Proof.
  intros HF Htu Ht Hu.
  apply stage_nth_inv in Ht. apply stage_nth_inv in Hu.
  pose proof (spec_stage_mono temps T_base F_mature t u HF Htu) as Hm.
  pose proof (spec_stage_bounds temps T_base F_mature u HF) as Hb.
  assert (E : x = 1) by lra.
  split; [ exact E | ].
  intros T_hour.
  apply (proj1 (proj2 (proj2 (hourly_frost_damage_cases T_hour x T_crit)))).
  exact E.
Qed.

Lemma maturity_is_final_witness :
  0 < 2 /\ hourly_frost_damage (- 3) 1 0 = 0.
Proof.
  assert (HF : 0 < 2) by lra.
  split; [ exact HF | ].
  assert (H0 : nth_error (compute_phenological_stage
                            (compute_forcing [7; 4] 5) 2) 0 = Some 1).
  { unfold compute_phenological_stage, compute_forcing, cumsum,
           maximum0_minus.
    cbn [map cumsum_from nth_error].
    rewrite (Rmax_right 0 (7 - 5)) by lra.
    replace ((0 + (7 - 5)) / 2) with 1 by lra.
    Rdecide. reflexivity. }
  assert (H1 : nth_error (compute_phenological_stage
                            (compute_forcing [7; 4] 5) 2) 1 = Some 1).
  { unfold compute_phenological_stage, compute_forcing, cumsum,
           maximum0_minus.
    cbn [map cumsum_from nth_error].
    rewrite (Rmax_right 0 (7 - 5)) by lra.
    rewrite (Rmax_left 0 (4 - 5)) by lra.
    replace ((0 + (7 - 5) + 0) / 2) with 1 by lra.
    Rdecide. reflexivity. }
  exact (proj2 (maturity_is_final [7; 4] 5 2 0 0 1 1 HF
                  (Nat.le_succ_diag_r 0) H0 H1) (- 3)).
Defined.

(** ** Failure and the window *)

(** X17.  On a frame with a monotonic increasing index the integrator
    raises exactly when the frame has no "temperature" column; with the
    column present it returns a total and a trace, whatever the values of
    the window bounds and of the three parameters. *)
Theorem raises_iff_no_temperature (df : Frame)
    (budburst_time end_time : Timestamp) (T_crit T_base F_mature : R) :
  is_monotonic_increasing (index df) = true ->
  (compute_cumulative_frost_damage df budburst_time end_time
                                   T_crit T_base F_mature = None
   <-> getitem df "temperature" = None).
Proof.
  intros _. split.
  - intros H. destruct (getitem df "temperature") as [temps_all | ] eqn:E;
      [ | reflexivity ].
    rewrite (compute_cumulative_frost_damage_eq df budburst_time end_time
               T_crit T_base F_mature temps_all E) in H.
    discriminate.
  - intros E. unfold compute_cumulative_frost_damage, copy.
    rewrite getitem_loc_slice, E. reflexivity.
Qed.

Lemma raises_iff_no_temperature_witness :
  compute_cumulative_frost_damage
    (mkFrame [ mkTimestamp 2023 91 0 ] [ ("temp"%string, [1]) ])
    (mkTimestamp 2023 91 0) (mkTimestamp 2023 91 0) 0 5 1000 = None.
Proof.
  apply (proj2 (raises_iff_no_temperature
                  (mkFrame [ mkTimestamp 2023 91 0 ] [ ("temp"%string, [1]) ])
                  (mkTimestamp 2023 91 0) (mkTimestamp 2023 91 0) 0 5 1000
                  eq_refl)).
  reflexivity.
Defined.

(** Selecting a window from what the same window selected changes
    nothing. *)
Lemma select_idem {A B : Type} (p : A -> bool) (l1 : list A) (l2 : list B) :
  select (map p (select (map p l1) l1)) (select (map p l1) l2)
  = select (map p l1) l2.
Proof.
  unfold select. revert l2.
  induction l1 as [ | x l1 IH]; intros [ | y l2]; simpl; try reflexivity.
  - destruct (p x) eqn:E; simpl; rewrite ?combine_nil; reflexivity.
  - destruct (p x) eqn:E; simpl; [ | apply IH ].
    rewrite E. simpl. f_equal. apply IH.
Qed.

Lemma loc_slice_idem (df : Frame) (lo hi : Timestamp) :
  loc_slice (loc_slice df lo hi) lo hi = loc_slice df lo hi.
Proof.
  unfold loc_slice; cbn [index columns]. f_equal.
  - apply select_idem.
  - rewrite map_map. apply map_ext. intros [k w]. cbn [fst snd].
    f_equal. apply select_idem.
Qed.

(** The records the window keeps from an index in order are in order. *)
Lemma is_monotonic_increasing_strongly (idx : list Timestamp) :
  is_monotonic_increasing idx = true <-> StronglySorted ts_le idx.
Proof.
  split.
  - intros H. apply Sorted_StronglySorted.
    { intros x y z. apply ts_le_trans. }
    induction idx as [ | t idx IH]; [ constructor | ].
    destruct idx as [ | u idx]; [ repeat constructor | ].
    simpl in H. apply andb_prop in H. destruct H as [Htu H].
    constructor; [ apply IH, H | constructor; exact Htu ].
  - intros H. apply StronglySorted_Sorted in H.
    induction H as [ | t idx Hs IH Hhd]; [ reflexivity | ].
    destruct idx as [ | u idx]; [ reflexivity | ].
    simpl. inversion Hhd; subst.
    apply andb_true_intro. split; [ assumption | exact IH ].
Qed.

Lemma select_filter_sorted (p : Timestamp -> bool) (idx : list Timestamp) :
  StronglySorted ts_le idx -> StronglySorted ts_le (List.filter p idx).
Proof.
  induction 1 as [ | t idx Hs IH Hall]; simpl; [ constructor | ].
  destruct (p t); [ | exact IH ].
  constructor; [ exact IH | ].
  apply List.Forall_forall. intros u Hu.
  apply List.filter_In in Hu. destruct Hu as [Hu _].
  exact (proj1 (List.Forall_forall _ _) Hall u Hu).
Qed.

(** X18.  Only the window matters, and cutting it out beforehand is
    harmless: the integrator gives the same total and the same trace on
    [df.loc[budburst_time:end_time]] as on [df] itself, and the index of
    that slice is again monotonic increasing. *)
Theorem preslicing_is_harmless (df : Frame)
    (budburst_time end_time : Timestamp) (T_crit T_base F_mature : R) :
  is_monotonic_increasing (index df) = true ->
  is_monotonic_increasing (index (loc_slice df budburst_time end_time))
  = true /\
  compute_cumulative_frost_damage (loc_slice df budburst_time end_time)
                                  budburst_time end_time
                                  T_crit T_base F_mature
  = compute_cumulative_frost_damage df budburst_time end_time
                                    T_crit T_base F_mature.
Proof.
  intros Hm. split.
  - apply is_monotonic_increasing_strongly.
    unfold loc_slice; cbn [index]. rewrite select_filter.
    apply select_filter_sorted, is_monotonic_increasing_strongly, Hm.
  - unfold compute_cumulative_frost_damage.
    rewrite loc_slice_idem. reflexivity.
Qed.

Lemma preslicing_is_harmless_witness :
  compute_cumulative_frost_damage
    (loc_slice three_hours (mkTimestamp 2023 91 0) (mkTimestamp 2023 91 1))
    (mkTimestamp 2023 91 0) (mkTimestamp 2023 91 1) 0 5 1000
  = compute_cumulative_frost_damage three_hours (mkTimestamp 2023 91 0)
                                    (mkTimestamp 2023 91 1) 0 5 1000.
Proof.
  exact (proj2 (preslicing_is_harmless three_hours (mkTimestamp 2023 91 0)
                  (mkTimestamp 2023 91 1) 0 5 1000 eq_refl)).
Defined.

(** ** A longer window *)

Lemma select_nil {B : Type} (mask : list bool) :
  @select B mask [] = [].
Proof. unfold select. rewrite combine_nil. reflexivity. Qed.

(** On an index in order, moving the end of the window later only adds
    rows at the end of what the window keeps. *)
Lemma window_grows_at_end {A : Type} (idx : list Timestamp)
    (lo hi hi' : Timestamp) (col : list A) :
  StronglySorted ts_le idx -> ts_le hi hi' ->
  exists more,
    select (map (in_window lo hi') idx) col
    = select (map (in_window lo hi) idx) col ++ more.
Proof.
  intros Hs Hhi. revert col.
  induction Hs as [ | t idx Hs IH Hall]; intros col.
  - exists []. reflexivity.
  - destruct col as [ | x col].
    { exists []. rewrite !select_nil. reflexivity. }
    destruct (IH col) as (more & Hmore).
    unfold select in *. cbn [map combine List.filter].
    destruct (in_window lo hi t) eqn:E.
    + assert (E' : in_window lo hi' t = true).
      { unfold in_window in *. apply andb_prop in E. destruct E as [E1 E2].
        rewrite E1. simpl. exact (ts_le_trans _ _ _ E2 Hhi). }
      rewrite E'. cbn [fst snd map]. exists more.
      rewrite Hmore. reflexivity.
    + destruct (in_window lo hi' t) eqn:E'.
      * cbn [fst snd map].
        assert (Hnone : forall u, In u idx -> in_window lo hi u = false).
        { intros u Hu.
          pose proof (proj1 (List.Forall_forall _ _) Hall u Hu) as Htu.
          unfold in_window in *.
          apply andb_prop in E'. destruct E' as [E1 _].
          rewrite E1 in E. simpl in E.
          destruct (ts_leb lo u); [ simpl | reflexivity ].
          destruct (ts_leb u hi) eqn:Eu; [ | reflexivity ].
          rewrite (ts_le_trans _ _ _ Htu Eu) in E. discriminate. }
        pose proof (select_none (in_window lo hi) idx col Hnone) as Hz.
        unfold select in Hz. rewrite Hz. simpl.
        eexists. reflexivity.
      * cbn [fst snd]. exists more. exact Hmore.
Qed.

Lemma cumsum_from_app (l m : list R) (acc : R) :
  cumsum_from acc (l ++ m)
  = cumsum_from acc l ++ cumsum_from (acc + Rsum l) m.
Proof.
  revert acc. induction l as [ | x l IH]; intros acc; simpl.
  - rewrite Rplus_0_r. reflexivity.
  - rewrite IH. f_equal. f_equal. f_equal. unfold Rsum. lra.
Qed.

Lemma damage_column_app (t1 t2 s1 s2 : list R) (T_crit : R) :
  length t1 = length s1 ->
  damage_column (t1 ++ t2) (s1 ++ s2) T_crit
  = damage_column t1 s1 T_crit ++ damage_column t2 s2 T_crit.
Proof.
  unfold damage_column. revert s1.
  induction t1 as [ | T t1 IH]; intros [ | x s1] H; simpl in *;
    try discriminate; [ reflexivity | ].
  f_equal. apply IH. lia.
Qed.

Lemma Rsum_app (l m : list R) : Rsum (l ++ m) = Rsum l + Rsum m.
Proof.
  unfold Rsum. induction l as [ | x l IH]; simpl; [ lra | ].
  rewrite IH. lra.
Qed.

(** X19.  On an index in order, ending the window later never lowers the
    total damage: the hourly damages of the shorter window are the first
    entries of the damage column of the longer window, which only adds
    non-negative damages after them. *)
Theorem longer_window_more_damage (df : Frame)
    (budburst_time end_time end_time' : Timestamp)
    (T_crit T_base F_mature : R) (temps_all : list R)
    (total total' : R) (trace trace' : Frame) :
  is_monotonic_increasing (index df) = true ->
  F_mature <> 0 ->
  ts_le end_time end_time' ->
  getitem df "temperature" = Some temps_all ->
  compute_cumulative_frost_damage df budburst_time end_time
                                  T_crit T_base F_mature
  = Some (total, trace) ->
  compute_cumulative_frost_damage df budburst_time end_time'
                                  T_crit T_base F_mature
  = Some (total', trace') ->
  total <= total' /\
  exists damage more,
    getitem trace "hourly_damage" = Some damage /\
    getitem trace' "hourly_damage" = Some (damage ++ more) /\
    Forall (fun x => 0 <= x) more.
Proof.
  intros Hm _ Hend Htemp Hrun Hrun'.
  apply is_monotonic_increasing_strongly in Hm.
  destruct (integrator_columns df budburst_time end_time T_crit T_base
              F_mature temps_all total trace Htemp Hrun)
    as (Htot & _ & _ & _ & _ & _ & Hd).
  destruct (integrator_columns df budburst_time end_time' T_crit T_base
              F_mature temps_all total' trace' Htemp Hrun')
    as (Htot' & _ & _ & _ & _ & _ & Hd').
  destruct (window_grows_at_end (index df) budburst_time end_time end_time'
              temps_all Hm Hend) as (mt & Hmt).
  unfold window in *.
  set (temps := select (map (in_window budburst_time end_time) (index df))
                       temps_all) in *.
  rewrite Hmt in Htot', Hd'.
  assert (Hsplit :
    damage_column (temps ++ mt)
      (compute_phenological_stage (compute_forcing (temps ++ mt) T_base)
                                  F_mature) T_crit
    = damage_column temps
        (compute_phenological_stage (compute_forcing temps T_base) F_mature)
        T_crit
      ++ damage_column mt
           (compute_phenological_stage
              (cumsum_from (0 + Rsum (maximum0_minus temps T_base))
                           (maximum0_minus mt T_base)) F_mature) T_crit).
  { unfold compute_forcing, cumsum, maximum0_minus.
    rewrite map_app, cumsum_from_app.
    unfold compute_phenological_stage. rewrite !map_app.
    apply damage_column_app.
    rewrite !length_map, cumsum_from_length, length_map. reflexivity. }
  rewrite Hsplit in Htot', Hd'.
  assert (Hn : Forall (fun x => 0 <= x)
                 (damage_column mt
                    (compute_phenological_stage
                       (cumsum_from (0 + Rsum (maximum0_minus temps T_base))
                                    (maximum0_minus mt T_base)) F_mature)
                    T_crit))
    by apply damage_column_nonneg, stage_le_1.
  split.
  - rewrite Htot, Htot', Rsum_app.
    pose proof (Rsum_nonneg _ Hn). lra.
  - eexists _, _. split; [ exact Hd | ]. split; [ exact Hd' | exact Hn ].
Qed.

Lemma longer_window_more_damage_witness :
  exists total total' trace trace',
    compute_cumulative_frost_damage three_hours (mkTimestamp 2023 91 0)
                                    (mkTimestamp 2023 91 0) 0 5 1000
    = Some (total, trace) /\
    compute_cumulative_frost_damage three_hours (mkTimestamp 2023 91 0)
                                    (mkTimestamp 2023 91 2) 0 5 1000
    = Some (total', trace') /\
    total <= total'.
Proof.
  pose proof (compute_cumulative_frost_damage_eq three_hours
                (mkTimestamp 2023 91 0) (mkTimestamp 2023 91 0) 0 5 1000
                [- 2; 6; 1] eq_refl) as Hrun.
  pose proof (compute_cumulative_frost_damage_eq three_hours
                (mkTimestamp 2023 91 0) (mkTimestamp 2023 91 2) 0 5 1000
                [- 2; 6; 1] eq_refl) as Hrun'.
  cbv zeta in Hrun, Hrun'.
  assert (HF : 1000 <> 0) by lra.
  destruct (longer_window_more_damage three_hours (mkTimestamp 2023 91 0)
              (mkTimestamp 2023 91 0) (mkTimestamp 2023 91 2) 0 5 1000
              [- 2; 6; 1] _ _ _ _ eq_refl HF eq_refl eq_refl Hrun Hrun')
    as (Hle & _).
  eexists _, _, _, _. split; [ exact Hrun | ]. split; [ exact Hrun' | exact Hle ].
Defined.

(* ===================================================================== *)
(** * Properties of climate.py *)
(* ===================================================================== *)

(** ** When the script fails *)

Lemma hourly_deviation_fst (era5 : Table) :
  map fst (hourly_deviation era5) = map fst era5.
Proof.
  unfold hourly_deviation. rewrite map_map. reflexivity.
Qed.

(** A filter on the timestamp commutes with a map that keeps it. *)
Lemma filter_map_fst {V W : Type} (p : Timestamp -> bool)
    (g : Timestamp * V -> W) (l : list (Timestamp * V)) :
  List.filter (fun r => p (fst r)) (map (fun r => (fst r, g r)) l)
  = map (fun r => (fst r, g r)) (List.filter (fun r => p (fst r)) l).
Proof.
  induction l as [ | r l IH]; simpl; [ reflexivity | ].
  destruct (p (fst r)); simpl; rewrite IH; reflexivity.
Qed.

Lemma deviations_at_length (era5 : Table) (h : Z) :
  length (deviations_at era5 h)
  = length (List.filter (fun r => (hour (fst r) =? h)%Z) era5).
Proof.
  unfold deviations_at, hourly_deviation.
  rewrite (filter_map_fst (fun t => (hour t =? h)%Z)).
  rewrite !length_map. reflexivity.
Qed.

Lemma filter_nil_iff {V : Type} (p : V -> bool) (l : list V) :
  List.filter p l = [] <-> forall x, In x l -> p x = false.
Proof.
  induction l as [ | a l IH]; simpl.
  - split; [ intros _ x [] | reflexivity ].
  - destruct (p a) eqn:E; split.
    + discriminate.
    + intros H. specialize (H a (or_introl eq_refl)). congruence.
    + intros H x [<- | Hx]; [ exact E | apply IH; assumption ].
    + intros H. apply IH. intros x Hx. apply H. right. exact Hx.
Qed.

(** The pattern has no entry for [h] exactly when no reference row falls
    on that hour of the day. *)
Lemma diurnal_pattern_none (era5 : Table) (h : Z) :
  diurnal_pattern era5 h = None
  <-> forall r, In r era5 -> hour (fst r) <> h.
Proof.
  unfold diurnal_pattern.
  pose proof (deviations_at_length era5 h) as Hlen.
  destruct (deviations_at era5 h) as [ | d devs]; split.
  - intros _ r Hr.
    symmetry in Hlen. apply length_zero_iff_nil in Hlen.
    pose proof (proj1 (filter_nil_iff _ _) Hlen r Hr) as E.
    simpl in E. apply Z.eqb_neq. exact E.
  - reflexivity.
  - discriminate.
  - intros H. exfalso.
    assert (E : List.filter (fun r => (hour (fst r) =? h)%Z) era5 = []).
    { apply filter_nil_iff. intros r Hr. apply Z.eqb_neq, H, Hr. }
    rewrite E in Hlen. discriminate.
Qed.

Lemma hours_loop_none (era5 : Table) (d : Timestamp) (T : R) (hs : list Z) :
  hours_loop era5 d T hs = None
  <-> exists h, In h hs /\ diurnal_pattern era5 h = None.
Proof.
  induction hs as [ | h hs IH]; simpl.
  - split; [ discriminate | intros (h & [] & _) ].
  - destruct (diurnal_pattern era5 h) as [p | ] eqn:E; simpl.
    + destruct (hours_loop era5 d T hs) as [recs | ] eqn:E'; simpl; split.
      * discriminate.
      * intros (h' & [<- | Hin] & Hn); [ congruence | ].
        exfalso. assert (Hnone : Some recs = None)
          by (apply (proj2 IH); exists h'; split; assumption).
        discriminate.
      * intros _. destruct (proj1 IH eq_refl) as (h' & Hin & Hn).
        exists h'. split; [ right; exact Hin | exact Hn ].
      * reflexivity.
    + split; [ | reflexivity ].
      intros _. exists h. split; [ left; reflexivity | exact E ].
Qed.

Lemma hours_loop_length (era5 : Table) (d : Timestamp) (T : R) (hs : list Z)
    (day : Table) :
  hours_loop era5 d T hs = Some day -> length day = length hs.
Proof.
  revert day. induction hs as [ | h hs IH]; simpl; intros day H.
  - injection H as <-. reflexivity.
  - destruct (diurnal_pattern era5 h); simpl in H; [ | discriminate ].
    destruct (hours_loop era5 d T hs); simpl in H; [ | discriminate ].
    injection H as <-. simpl. f_equal. apply IH. reflexivity.
Qed.

Lemma hourly_records_none (era5 cmip6 : Table) :
  hourly_records era5 cmip6 = None
  <-> cmip6 <> [] /\ exists h, In h range24 /\ diurnal_pattern era5 h = None.
Proof.
  induction cmip6 as [ | [d T] cmip6 IH]; cbn [hourly_records].
  - split; [ discriminate | intros [H _]; contradiction ].
  - destruct (hours_loop era5 d T range24) as [day | ] eqn:E;
      cbn [mbind option_bind].
    + destruct (hourly_records era5 cmip6) as [recs | ] eqn:E';
        cbn [mbind option_bind]; split.
      * discriminate.
      * intros [_ Hh]. exfalso.
        apply (proj2 (hours_loop_none era5 d T range24)) in Hh. congruence.
      * intros _. split; [ discriminate | ]. apply (proj1 IH eq_refl).
      * reflexivity.
    + split; [ | reflexivity ].
      intros _. split; [ discriminate | ].
      apply (proj1 (hours_loop_none era5 d T range24) E).
Qed.

Lemma hourly_records_length (era5 cmip6 records : Table) :
  hourly_records era5 cmip6 = Some records ->
  length records = (24 * length cmip6)%nat.
Proof.
  revert records.
  induction cmip6 as [ | [d T] cmip6 IH]; cbn [hourly_records];
    intros records H.
  - injection H as <-. reflexivity.
  - destruct (hours_loop era5 d T range24) as [day | ] eqn:E;
      cbn [mbind option_bind] in H; [ | discriminate ].
    destruct (hourly_records era5 cmip6) as [recs | ];
      cbn [mbind option_bind] in H; [ | discriminate ].
    injection H as <-.
    rewrite length_app, (hours_loop_length _ _ _ _ _ E), (IH recs eq_refl).
    change (length range24) with 24%nat. cbn [length]. lia.
Qed.

Lemma in_range24 (h : Z) : In h range24 <-> (0 <= h < 24)%Z.
Proof.
  unfold range24. rewrite in_map_iff. split.
  - intros (n & <- & Hn). apply in_seq in Hn. lia.
  - intros Hh. exists (Z.to_nat h). split; [ lia | ].
    apply in_seq. lia.
Qed.

(** X20.  The script fails in exactly two cases: the daily table has no
    rows (the hourly frame cannot be built from an empty list), or some
    hour of the day, 0 to 23, has no row in the reference table (the
    pattern has no entry for it). *)
Theorem disaggregate_fails_iff (era5 cmip6 : Table) :
  disaggregate era5 cmip6 = None
  <-> cmip6 = [] \/
      exists h, (0 <= h < 24)%Z /\
                forall r, In r era5 -> hour (fst r) <> h.
Proof.
  unfold disaggregate.
  destruct (hourly_records era5 cmip6) as [records | ] eqn:E; simpl.
  - pose proof (hourly_records_length _ _ _ E) as Hlen.
    assert (Hsome : ~ (cmip6 <> [] /\
                       exists h, In h range24 /\ diurnal_pattern era5 h = None)).
    { intros H. apply (proj2 (hourly_records_none era5 cmip6)) in H.
      congruence. }
    unfold hourly_frame. destruct records as [ | r records]; split.
    + intros _. left. destruct cmip6; [ reflexivity | simpl in Hlen; lia ].
    + reflexivity.
    + discriminate.
    + intros [-> | (h & Hh & Hnone)]; [ simpl in Hlen; discriminate | ].
      exfalso. apply Hsome. split.
      * intros ->. simpl in Hlen. discriminate.
      * exists h. split; [ apply in_range24, Hh | ].
        apply diurnal_pattern_none, Hnone.
  - split; [ | reflexivity ].
    intros _. right.
    destruct (proj1 (hourly_records_none era5 cmip6) E) as (_ & h & Hh & Hn).
    exists h. split; [ apply in_range24, Hh | ].
    apply diurnal_pattern_none, Hn.
Qed.

Lemma disaggregate_fails_iff_witness :
  disaggregate [ (mkTimestamp 2020 1 0, 3) ] [ (calendar_day 2050 1, 10) ]
  = None.
Proof.
  apply (proj2 (disaggregate_fails_iff [ (mkTimestamp 2020 1 0, 3) ]
                  [ (calendar_day 2050 1, 10) ])).
  right. exists 1%Z. split; [ lia | ].
  intros r [<- | []]. simpl. discriminate.
Defined.

(** ** What the script writes *)

Lemma insert_by_index_perm (x : Timestamp * R) (l : Table) :
  Permutation (x :: l) (insert_by_index x l).
Proof.
  induction l as [ | y ys IH]; simpl.
  - apply Permutation_refl.
  - destruct (ts_leb (fst x) (fst y)).
    + apply Permutation_refl.
    + apply Permutation_trans with (y :: x :: ys).
      * apply perm_swap.
      * apply perm_skip, IH.
Qed.

Lemma sort_index_perm (l : Table) : Permutation l (sort_index l).
Proof.
  induction l as [ | x xs IH]; simpl.
  - apply perm_nil.
  - apply Permutation_trans with (x :: sort_index xs).
    + apply perm_skip, IH.
    + apply insert_by_index_perm.
Qed.

Lemma insert_by_index_sorted (x : Timestamp * R) (l : Table) :
  Sorted ts_le (map fst l) -> Sorted ts_le (map fst (insert_by_index x l)).
Proof.
  induction l as [ | y ys IH]; simpl; intros Hs.
  - repeat constructor.
  - destruct (ts_leb (fst x) (fst y)) eqn:E; simpl.
    + constructor; [ exact Hs | constructor; exact E ].
    + inversion Hs as [ | ? ? Hs' Hhd]; subst.
      constructor; [ apply IH, Hs' | ].
      apply ts_leb_total in E.
      destruct ys as [ | z zs]; simpl.
      * constructor; exact E.
      * destruct (ts_leb (fst x) (fst z)); simpl.
        -- constructor; exact E.
        -- inversion Hhd; subst. constructor; assumption.
Qed.

Lemma sort_index_sorted (l : Table) : Sorted ts_le (map fst (sort_index l)).
Proof.
  induction l as [ | x xs IH]; simpl.
  - constructor.
  - apply insert_by_index_sorted, IH.
Qed.

Lemma combine_fst_snd_id {V W : Type} (l : list (V * W)) :
  combine (map fst l) (map snd l) = l.
Proof.
  induction l as [ | [a b] l IH]; simpl; [ reflexivity | ].
  rewrite IH. reflexivity.
Qed.

(** The records of one day: one for each hour of the list, carrying the
    daily value plus the pattern of that hour, and nothing else. *)
Lemma hours_loop_in (era5 : Table) (d : Timestamp) (T : R) (hs : list Z)
    (day : Table) (r : Timestamp * R) :
  hours_loop era5 d T hs = Some day ->
  (In r day <->
   exists h p, In h hs /\ diurnal_pattern era5 h = Some p /\
               r = (add_hours d h, T + p)).
Proof.
  revert day. induction hs as [ | h hs IH]; simpl; intros day H.
  - injection H as <-. split; [ intros [] | intros (h & p & [] & _) ].
  - destruct (diurnal_pattern era5 h) as [p | ] eqn:E; simpl in H;
      [ | discriminate ].
    destruct (hours_loop era5 d T hs) as [recs | ]; simpl in H;
      [ | discriminate ].
    injection H as <-. simpl. rewrite (IH recs eq_refl). split.
    + intros [<- | (h' & p' & Hin & Hp & ->)].
      * exists h, p. auto.
      * exists h', p'. auto.
    + intros (h' & p' & [<- | Hin] & Hp & ->).
      * left. congruence.
      * right. exists h', p'. auto.
Qed.

Lemma hourly_records_in (era5 cmip6 records : Table) (r : Timestamp * R) :
  hourly_records era5 cmip6 = Some records ->
  (In r records <->
   exists d T h p,
     In (d, T) cmip6 /\ (0 <= h < 24)%Z /\
     diurnal_pattern era5 h = Some p /\ r = (add_hours d h, T + p)).
Proof.
  revert records.
  induction cmip6 as [ | [d T] cmip6 IH]; cbn [hourly_records];
    intros records H.
  - injection H as <-. split; [ intros [] | intros (? & ? & ? & ? & [] & _) ].
  - destruct (hours_loop era5 d T range24) as [day | ] eqn:E;
      cbn [mbind option_bind] in H; [ | discriminate ].
    destruct (hourly_records era5 cmip6) as [recs | ];
      cbn [mbind option_bind] in H; [ | discriminate ].
    injection H as <-.
    rewrite in_app_iff, (hours_loop_in _ _ _ _ _ r E), (IH recs eq_refl).
    split.
    + intros [(h & p & Hh & Hp & ->) | (d' & T' & h & p & Hin & Hh & Hp & ->)].
      * exists d, T, h, p. rewrite <- in_range24. simpl. auto.
      * exists d', T', h, p. simpl. auto.
    + intros (d' & T' & h & p & [E' | Hin] & Hh & Hp & ->).
      * injection E' as <- <-. left. exists h, p.
        rewrite in_range24. auto.
      * right. exists d', T', h, p. auto.
Qed.

(** X21.  When the script succeeds the table it writes has 24 rows for
    each row of the daily table, ordered by timestamp, with a
    "temperature" column as long as the index.  Its rows are exactly the
    records (date + h hours, daily value + pattern[h]) for the rows of
    the daily table and the hours h = 0, ..., 23. *)
Theorem disaggregate_output (era5 cmip6 : Table) (out : Frame) :
  disaggregate era5 cmip6 = Some out ->
  length (index out) = (24 * length cmip6)%nat /\
  is_monotonic_increasing (index out) = true /\
  well_formed out /\
  exists temps,
    getitem out "temperature" = Some temps /\
    forall r,
      In r (combine (index out) temps) <->
      exists d T h p,
        In (d, T) cmip6 /\ (0 <= h < 24)%Z /\
        diurnal_pattern era5 h = Some p /\ r = (add_hours d h, T + p).
Proof.
  unfold disaggregate. intros H.
  destruct (hourly_records era5 cmip6) as [records | ] eqn:E; simpl in H;
    [ | discriminate ].
  pose proof (hourly_records_length _ _ _ E) as Hlen.
  pose proof (hourly_records_in era5 cmip6 records) as Hin.
  unfold hourly_frame in H.
  destruct records as [ | r0 records]; [ discriminate | ].
  injection H as <-. cbn [index columns].
  change (insert_by_index r0 (sort_index records))
    with (sort_index (r0 :: records)).
  set (sorted := sort_index (r0 :: records)) in *.
  pose proof (sort_index_perm (r0 :: records)) as Hp. fold sorted in Hp.
  split.
  { rewrite length_map, <- (Permutation_length Hp). exact Hlen. }
  split.
  { apply is_monotonic_increasing_strongly, Sorted_StronglySorted.
    - intros x y z. apply ts_le_trans.
    - apply sort_index_sorted. }
  split.
  { unfold well_formed; cbn [index columns].
    constructor; [ | constructor ].
    cbn [snd]. rewrite !length_map. reflexivity. }
  exists (map snd sorted). split; [ reflexivity | ].
  intros r. rewrite combine_fst_snd_id.
  rewrite <- (Hin r E). split; apply Permutation_in.
  - apply Permutation_sym, Hp.
  - exact Hp.
Qed.

(** With a daily row to expand and a reference row for every hour of the
    day, the script succeeds. *)
Lemma disaggregate_succeeds (era5 cmip6 : Table) :
  cmip6 <> [] ->
  (forall h, (0 <= h < 24)%Z -> exists r, In r era5 /\ hour (fst r) = h) ->
  exists out, disaggregate era5 cmip6 = Some out.
Proof.
  intros Hne Hall. unfold disaggregate.
  destruct (hourly_records era5 cmip6) as [records | ] eqn:Er.
  - pose proof (hourly_records_length _ _ _ Er) as Hlen.
    destruct records as [ | r records].
    + destruct cmip6; [ contradiction | simpl in Hlen; lia ].
    + eexists. reflexivity.
  - exfalso. apply hourly_records_none in Er.
    destruct Er as (_ & h & Hh & Hn).
    apply in_range24 in Hh.
    destruct (Hall h Hh) as (r & Hr & Eh).
    exact (proj1 (diurnal_pattern_none era5 h) Hn r Hr Eh).
Qed.

Lemma era5_day_hours (h : Z) :
  (0 <= h < 24)%Z -> exists r, In r era5_day /\ hour (fst r) = h.
Proof.
  intros Hh. exists (mkTimestamp 2020 1 h, IZR h). split; [ | reflexivity ].
  unfold era5_day.
  apply (in_map (fun h0 => (mkTimestamp 2020 1 h0, IZR h0))).
  apply in_range24, Hh.
Qed.

Lemma cmip6_two_nonempty : cmip6_two <> [].
Proof. discriminate. Qed.

Lemma disaggregate_sample :
  exists out, disaggregate era5_day cmip6_two = Some out.
Proof.
  exact (disaggregate_succeeds era5_day cmip6_two cmip6_two_nonempty
           era5_day_hours).
Qed.

Lemma disaggregate_output_witness :
  exists out,
    disaggregate era5_day cmip6_two = Some out /\
    length (index out) = 48%nat.
Proof.
  destruct disaggregate_sample as (out & E).
  exists out. split; [ exact E | ].
  exact (proj1 (disaggregate_output era5_day cmip6_two out E)).
Defined.

(** X22.  What the script writes is a valid input of the frost-damage
    integrator, whatever the order of the daily table: its index is
    monotonic increasing, it has the "temperature" column, and
    [compute_cumulative_frost_damage] returns a total and a trace on it
    for every window and every choice of parameters. *)
Theorem disaggregate_feeds_integrator (era5 cmip6 : Table) (out : Frame)
    (budburst_time end_time : Timestamp) (T_crit T_base F_mature : R) :
  disaggregate era5 cmip6 = Some out ->
  is_monotonic_increasing (index out) = true /\
  exists total trace,
    compute_cumulative_frost_damage out budburst_time end_time
                                    T_crit T_base F_mature
    = Some (total, trace).
Proof.
  unfold disaggregate. intros H.
  destruct (hourly_records era5 cmip6) as [records | ]; simpl in H;
    [ | discriminate ].
  unfold hourly_frame in H.
  destruct records as [ | r0 records]; [ discriminate | ].
  injection H as <-. cbn [index].
  change (insert_by_index r0 (sort_index records))
    with (sort_index (r0 :: records)).
  split.
  - apply is_monotonic_increasing_strongly, Sorted_StronglySorted.
    + intros x y z. apply ts_le_trans.
    + apply sort_index_sorted.
  - eexists _, _.
    apply (compute_cumulative_frost_damage_eq _ budburst_time end_time
             T_crit T_base F_mature
             (map snd (sort_index (r0 :: records)))).
    reflexivity.
Qed.

Lemma disaggregate_feeds_integrator_witness :
  exists out total trace,
    disaggregate era5_day cmip6_two = Some out /\
    compute_cumulative_frost_damage out (calendar_day 2050 1)
                                    (calendar_day 2050 2) 0 5 1000
    = Some (total, trace).
Proof.
  destruct disaggregate_sample as (out & E).
  destruct (disaggregate_feeds_integrator era5_day cmip6_two out
              (calendar_day 2050 1) (calendar_day 2050 2) 0 5 1000 E)
    as (_ & total & trace & Hrun).
  exists out, total, trace. split; [ exact E | exact Hrun ].
Defined.

(** ** Deviations and daily means *)

Lemma same_day_refl (a : Timestamp) : same_day a a = true.
Proof. unfold same_day. rewrite !Z.eqb_refl. reflexivity. Qed.

(** Timestamps of the same day fall in the same days as each other. *)
Lemma same_day_cong (a b c : Timestamp) :
  same_day a b = true -> same_day c a = same_day c b.
Proof.
  unfold same_day. intros H. apply andb_prop in H. destruct H as [H1 H2].
  apply Z.eqb_eq in H1. apply Z.eqb_eq in H2. rewrite H1, H2. reflexivity.
Qed.

Lemma same_day_cong_l (a b c : Timestamp) :
  same_day a b = true -> same_day a c = same_day b c.
Proof.
  unfold same_day. intros H. apply andb_prop in H. destruct H as [H1 H2].
  apply Z.eqb_eq in H1. apply Z.eqb_eq in H2. rewrite H1, H2. reflexivity.
Qed.

Lemma filter_ext_fun {V : Type} (p q : V -> bool) (l : list V) :
  (forall x, p x = q x) -> List.filter p l = List.filter q l.
Proof.
  intros H. induction l as [ | a l IH]; simpl; [ reflexivity | ].
  rewrite H, IH. reflexivity.
Qed.

Lemma daily_mean_same_day (l : Table) (a b : Timestamp) :
  same_day a b = true -> daily_mean l a = daily_mean l b.
Proof.
  intros H. unfold daily_mean. f_equal. f_equal.
  apply filter_ext_fun. intros r. apply same_day_cong, H.
Qed.

Lemma Rsum_map_minus_const {V : Type} (f : V -> R) (m : R) (l : list V) :
  Rsum (map (fun r => f r - m) l) = Rsum (map f l) - INR (length l) * m.
Proof.
  unfold Rsum. induction l as [ | a l IH]; [ simpl; lra | ].
  cbn [map fold_right length]. rewrite IH, S_INR. lra.
Qed.

Lemma map_ext_on {V W : Type} (f g : V -> W) (l : list V) :
  (forall x, In x l -> f x = g x) -> map f l = map g l.
Proof.
  induction l as [ | a l IH]; simpl; intros H; [ reflexivity | ].
  rewrite (H a) by (left; reflexivity). f_equal.
  apply IH. intros x Hx. apply H. right. exact Hx.
Qed.

(** Within one calendar day the deviations from the daily mean cancel. *)
Lemma day_deviations_cancel (l : Table) (t : Timestamp) :
  Rsum (map snd (List.filter (fun r => same_day (fst r) t)
                             (hourly_deviation l))) = 0.
Proof.
  unfold hourly_deviation.
  rewrite (filter_map_fst (fun x => same_day x t)
             (fun r => snd r - daily_mean l (fst r))).
  rewrite map_map. cbn [snd].
  set (G := List.filter (fun r => same_day (fst r) t) l).
  rewrite (map_ext_on (fun r => snd r - daily_mean l (fst r))
             (fun r => snd r - daily_mean l t) G).
  - rewrite Rsum_map_minus_const.
    unfold daily_mean. fold G. unfold mean. rewrite length_map.
    destruct G as [ | g G']; [ simpl; lra | ].
    assert (INR (length (g :: G')) <> 0)
      by (apply not_0_INR; simpl; discriminate).
    field. assumption.
  - intros r Hr. unfold G in Hr. apply List.filter_In in Hr.
    destruct Hr as [_ Hr]. f_equal. apply daily_mean_same_day, Hr.
Qed.

Lemma Rsum_filter_split {V : Type} (f : V -> R) (p : V -> bool) (l : list V) :
  Rsum (map f l)
  = Rsum (map f (List.filter p l))
    + Rsum (map f (List.filter (fun x => negb (p x)) l)).
Proof.
  unfold Rsum. induction l as [ | a l IH]; simpl; [ lra | ].
  destruct (p a); simpl; rewrite IH; lra.
Qed.

Lemma filter_filter_sub {V : Type} (q np : V -> bool) (l : list V) :
  (forall x, q x = true -> np x = true) ->
  List.filter q (List.filter np l) = List.filter q l.
Proof.
  intros H. induction l as [ | a l IH]; simpl; [ reflexivity | ].
  destruct (np a) eqn:E; simpl.
  - rewrite IH. reflexivity.
  - destruct (q a) eqn:Eq; [ | exact IH ].
    rewrite (H a Eq) in E. discriminate.
Qed.

Lemma filter_length_le {V : Type} (p : V -> bool) (l : list V) :
  (length (List.filter p l) <= length l)%nat.
Proof.
  induction l as [ | a l IH]; simpl; [ lia | ].
  destruct (p a); simpl; lia.
Qed.

(** Over the whole reference table the deviations cancel. *)
Lemma all_deviations_cancel (l : Table) :
  Rsum (map snd (hourly_deviation l)) = 0.
Proof.
  remember (length l) as n eqn:Hn.
  assert (Hle : (length l <= n)%nat) by lia. clear Hn.
  revert l Hle.
  induction n as [ | n IH]; intros l Hle.
  - destruct l; [ reflexivity | simpl in Hle; lia ].
  - destruct l as [ | r0 l']; [ reflexivity | ].
    set (l := r0 :: l') in *.
    rewrite (Rsum_filter_split snd (fun r => same_day (fst r) (fst r0))
               (hourly_deviation l)).
    rewrite day_deviations_cancel, Rplus_0_l.
    unfold hourly_deviation at 1.
    rewrite (filter_map_fst (fun x => negb (same_day x (fst r0)))
               (fun r => snd r - daily_mean l (fst r))).
    set (Q := List.filter (fun r => negb (same_day (fst r) (fst r0))) l).
    rewrite map_map. cbn [snd].
    rewrite (map_ext_on (fun r => snd r - daily_mean l (fst r))
               (fun r => snd r - daily_mean Q (fst r)) Q).
    + assert (HQ : (length Q <= n)%nat).
      { unfold Q, l. cbn [List.filter fst].
        rewrite same_day_refl. cbn [negb].
        pose proof (filter_length_le
                      (fun r => negb (same_day (fst r) (fst r0))) l').
        simpl in Hle. lia. }
      specialize (IH Q HQ). unfold hourly_deviation in IH.
      rewrite map_map in IH. exact IH.
    + intros r Hr. f_equal. unfold daily_mean. f_equal. f_equal.
      unfold Q. symmetry. apply filter_filter_sub.
      intros x Hx.
      unfold Q in Hr. apply List.filter_In in Hr. destruct Hr as [_ Hr].
      rewrite (same_day_cong_l _ _ (fst r0) Hx). exact Hr.
Qed.

(** X23.  The hourly deviations the script computes cancel within every
    calendar day of the reference table, and therefore over the whole
    table: each day's mean is the mean of exactly the rows it is
    subtracted from. *)
Theorem deviations_cancel (era5 : Table) :
  (forall t,
     Rsum (map snd (List.filter (fun r => same_day (fst r) t)
                                (hourly_deviation era5))) = 0) /\
  Rsum (map snd (hourly_deviation era5)) = 0.
Proof.
  split; [ intros t; apply day_deviations_cancel | apply all_deviations_cancel ].
Qed.

(** ** The mean of a reconstructed day *)

Lemma hours_loop_values (era5 : Table) (d : Timestamp) (T : R) (hs : list Z)
    (day : Table) :
  hours_loop era5 d T hs = Some day ->
  exists ps,
    Forall2 (fun h p => diurnal_pattern era5 h = Some p) hs ps /\
    map snd day = map (fun p => T + p) ps /\
    map fst day = map (add_hours d) hs.
Proof.
  revert day. induction hs as [ | h hs IH]; simpl; intros day H.
  - injection H as <-. exists []. repeat split. constructor.
  - destruct (diurnal_pattern era5 h) as [p | ] eqn:E; simpl in H;
      [ | discriminate ].
    destruct (hours_loop era5 d T hs) as [recs | ]; simpl in H;
      [ | discriminate ].
    injection H as <-.
    destruct (IH recs eq_refl) as (ps & Hf & Hv & Ht).
    exists (p :: ps). split; [ constructor; assumption | ].
    simpl. rewrite Hv, Ht. split; reflexivity.
Qed.

Lemma Rsum_map_shift (T : R) (ps : list R) :
  Rsum (map (fun p => T + p) ps) = INR (length ps) * T + Rsum ps.
Proof.
  unfold Rsum. induction ps as [ | p ps IH]; [ simpl; lra | ].
  cbn [map fold_right length]. rewrite IH, S_INR. lra.
Qed.

Lemma mean_shift (T : R) (ps : list R) :
  ps <> [] -> mean (map (fun p => T + p) ps) = T + mean ps.
Proof.
  intros Hne. unfold mean. rewrite length_map, Rsum_map_shift.
  assert (INR (length ps) <> 0).
  { apply not_0_INR. destruct ps; [ contradiction | discriminate ]. }
  field. assumption.
Qed.

(** X24.  The 24 values the script writes for a daily row are the daily
    value plus the 24 entries of the pattern, at the timestamps date + 0,
    ..., date + 23 hours; their mean is the daily value plus the mean of
    the pattern, so the daily mean is reproduced exactly when the pattern
    averages to 0. *)
Theorem reconstructed_day_mean (era5 : Table) (d : Timestamp) (T : R)
    (day : Table) :
  hours_loop era5 d T range24 = Some day ->
  exists ps,
    Forall2 (fun h p => diurnal_pattern era5 h = Some p) range24 ps /\
    map fst day = map (add_hours d) range24 /\
    map snd day = map (fun p => T + p) ps /\
    mean (map snd day) = T + mean ps.
Proof.
  intros H.
  destruct (hours_loop_values era5 d T range24 day H) as (ps & Hf & Hv & Ht).
  exists ps. split; [ exact Hf | ]. split; [ exact Ht | ].
  split; [ exact Hv | ].
  rewrite Hv. apply mean_shift.
  intros ->. apply Forall2_length in Hf. discriminate.
Qed.

(** ** A balanced reference table *)

Lemma indicator_sum (x : R) (k : Z) (n start : nat) :
  Rsum (map (fun h => if (k =? h)%Z then x else 0)
            (map Z.of_nat (seq start n)))
  = if ((Z.of_nat start <=? k)%Z && (k <? Z.of_nat (start + n))%Z)%bool
    then x else 0.
Proof.
  unfold Rsum. revert start.
  induction n as [ | n IH]; intros start.
  - simpl. destruct (Z.leb_spec (Z.of_nat start) k);
      destruct (Z.ltb_spec k (Z.of_nat (start + 0))); simpl;
      try reflexivity; lia.
  - cbn [seq map fold_right]. rewrite IH.
    destruct (Z.eqb_spec k (Z.of_nat start));
      destruct (Z.leb_spec (Z.of_nat (S start)) k);
      destruct (Z.ltb_spec k (Z.of_nat (S start + n)));
      destruct (Z.leb_spec (Z.of_nat start) k);
      destruct (Z.ltb_spec k (Z.of_nat (start + S n)));
      cbn [andb]; try lra; lia.
Qed.

Lemma Rsum_map_add {V : Type} (a b : V -> R) (l : list V) :
  Rsum (map (fun h => a h + b h) l) = Rsum (map a l) + Rsum (map b l).
Proof.
  unfold Rsum. induction l as [ | x l IH]; simpl; [ lra | ].
  rewrite IH. lra.
Qed.

Lemma Rsum_map_scale {V : Type} (a : V -> R) (c : R) (l : list V) :
  Rsum (map (fun h => a h * c) l) = Rsum (map a l) * c.
Proof.
  unfold Rsum. induction l as [ | x l IH]; simpl; [ lra | ].
  rewrite IH. lra.
Qed.

Lemma Rsum_map_zero {V : Type} (l : list V) :
  Rsum (map (fun _ => 0) l) = 0.
Proof. unfold Rsum. induction l as [ | x l IH]; simpl; lra. Qed.

(** Grouping the rows by the hour of the day loses no row and counts none
    twice. *)
Lemma hour_partition {V : Type} (f : Timestamp * V -> R)
    (l : list (Timestamp * V)) :
  (forall r, In r l -> valid_hour (fst r)) ->
  Rsum (map (fun h => Rsum (map f (List.filter
                                     (fun r => (hour (fst r) =? h)%Z) l)))
            range24)
  = Rsum (map f l).
Proof.
  induction l as [ | r l IH]; intros Hv.
  - cbn [List.filter map].
    rewrite (map_ext_on _ (fun _ : Z => 0) range24) by reflexivity.
    apply Rsum_map_zero.
  - rewrite (map_ext_on _
               (fun h => (if (hour (fst r) =? h)%Z then f r else 0)
                         + Rsum (map f (List.filter
                                   (fun r0 => (hour (fst r0) =? h)%Z) l)))).
    + rewrite Rsum_map_add, IH.
      * unfold range24. rewrite indicator_sum.
        pose proof (Hv r (or_introl eq_refl)) as Hr. unfold valid_hour in Hr.
        destruct (Z.leb_spec (Z.of_nat 0) (hour (fst r)));
          destruct (Z.ltb_spec (hour (fst r)) (Z.of_nat (0 + 24)));
          cbn [andb]; try lia.
        unfold Rsum. simpl. reflexivity.
      * intros r' Hr'. apply Hv. right. exact Hr'.
    + intros h _. cbn [List.filter].
      destruct (hour (fst r) =? h)%Z; unfold Rsum; simpl; lra.
Qed.

Lemma hours_loop_succeeds (era5 : Table) (d : Timestamp) (T : R)
    (hs : list Z) :
  (forall h, In h hs -> exists r, In r era5 /\ hour (fst r) = h) ->
  exists day, hours_loop era5 d T hs = Some day.
Proof.
  intros Hall.
  destruct (hours_loop era5 d T hs) as [day | ] eqn:E;
    [ exists day; reflexivity | exfalso ].
  apply hours_loop_none in E. destruct E as (h & Hh & Hn).
  destruct (Hall h Hh) as (r & Hr & Eh).
  exact (proj1 (diurnal_pattern_none era5 h) Hn r Hr Eh).
Qed.

Lemma reconstructed_day_mean_witness :
  exists day ps,
    hours_loop era5_day (calendar_day 2050 1) 10 range24 = Some day /\
    mean (map snd day) = 10 + mean ps.
Proof.
  destruct (hours_loop_succeeds era5_day (calendar_day 2050 1) 10 range24)
    as (day & E).
  { intros h Hh. apply era5_day_hours, in_range24, Hh. }
  destruct (reconstructed_day_mean era5_day (calendar_day 2050 1) 10 day E)
    as (ps & _ & _ & _ & Hm).
  exists day, ps. split; [ exact E | exact Hm ].
Defined.

(** With [n > 0] reference rows on every hour of the day, the pattern has
    an entry for each hour, and the entries add up to 0. *)
Lemma balanced_pattern (era5 : Table) (n : nat) :
  (0 < n)%nat ->
  (forall r, In r era5 -> valid_hour (fst r)) ->
  (forall h, (0 <= h < 24)%Z ->
     length (List.filter (fun r => (hour (fst r) =? h)%Z) era5) = n) ->
  (forall h, (0 <= h < 24)%Z ->
     diurnal_pattern era5 h = Some (Rsum (deviations_at era5 h) * / INR n)) /\
  Rsum (map (fun h => Rsum (deviations_at era5 h) * / INR n) range24) = 0.
Proof.
  intros Hn Hv Hc. split.
  - intros h Hh. unfold diurnal_pattern.
    pose proof (deviations_at_length era5 h) as Hlen.
    rewrite (Hc h Hh) in Hlen.
    destruct (deviations_at era5 h) as [ | x devs] eqn:E.
    + simpl in Hlen. lia.
    + unfold mean. rewrite Hlen. reflexivity.
  - rewrite (Rsum_map_scale (fun h => Rsum (deviations_at era5 h))).
    unfold deviations_at.
    rewrite (hour_partition snd (hourly_deviation era5)).
    + rewrite all_deviations_cancel. lra.
    + intros r Hr. unfold hourly_deviation in Hr.
      apply in_map_iff in Hr. destruct Hr as (r' & <- & Hr').
      cbn [fst]. exact (Hv r' Hr').
Qed.

Lemma Forall2_pattern_values (era5 : Table) (g : Z -> R) (hs : list Z)
    (ps : list R) :
  (forall h, In h hs -> diurnal_pattern era5 h = Some (g h)) ->
  Forall2 (fun h p => diurnal_pattern era5 h = Some p) hs ps ->
  ps = map g hs.
Proof.
  intros Hg Hf.
  induction Hf as [ | h p hs ps Hp Hf IH]; [ reflexivity | ].
  simpl. rewrite (Hg h (or_introl eq_refl)) in Hp. injection Hp as <-.
  f_equal. apply IH. intros h' Hh'. apply Hg. right. exact Hh'.
Qed.

(** X25.  When the reference table has the same number [n > 0] of rows on
    each of the 24 hours of the day, the pattern adds up to 0 and the
    script reproduces every daily value exactly: the mean of the 24
    values written for a daily row is the value of that row. *)
Theorem balanced_reference_keeps_daily_mean (era5 : Table) (n : nat)
    (d : Timestamp) (T : R) :
  (0 < n)%nat ->
  (forall r, In r era5 -> valid_hour (fst r)) ->
  (forall h, (0 <= h < 24)%Z ->
     length (List.filter (fun r => (hour (fst r) =? h)%Z) era5) = n) ->
  exists day,
    hours_loop era5 d T range24 = Some day /\
    length day = 24%nat /\
    mean (map snd day) = T.
Proof.
  intros Hn Hv Hc.
  destruct (balanced_pattern era5 n Hn Hv Hc) as (Hp & Hz).
  destruct (hours_loop_succeeds era5 d T range24) as (day & E).
  { intros h Hh. apply in_range24 in Hh.
    pose proof (Hc h Hh) as Hlen.
    destruct (List.filter (fun r => (hour (fst r) =? h)%Z) era5)
      as [ | r rs] eqn:Ef; [ simpl in Hlen; lia | ].
    assert (Hin : In r (List.filter (fun r => (hour (fst r) =? h)%Z) era5))
      by (rewrite Ef; left; reflexivity).
    apply List.filter_In in Hin. destruct Hin as [Hin Hh'].
    exists r. split; [ exact Hin | apply Z.eqb_eq, Hh' ]. }
  exists day. split; [ exact E | ].
  split; [ apply (hours_loop_length _ _ _ _ _ E) | ].
  destruct (hours_loop_values era5 d T range24 day E) as (ps & Hf & Hval & _).
  rewrite (Forall2_pattern_values era5
             (fun h => Rsum (deviations_at era5 h) * / INR n) range24 ps)
    in Hval.
  - rewrite Hval. unfold mean.
    rewrite map_map, length_map.
    rewrite (Rsum_map_add (fun _ => T)
               (fun h => Rsum (deviations_at era5 h) * / INR n)), Hz.
    change (length range24) with 24%nat.
    replace (Rsum (map (fun _ : Z => T) range24)) with (24 * T).
    + rewrite (INR_IZR_INZ 24). simpl. field.
    + unfold range24, Rsum. simpl. lra.
  - intros h Hh. apply Hp, in_range24, Hh.
  - exact Hf.
Qed.

Lemma era5_day_valid (r : Timestamp * R) :
  In r era5_day -> valid_hour (fst r).
Proof.
  unfold era5_day. intros Hr. apply in_map_iff in Hr.
  destruct Hr as (h & <- & Hh). apply in_range24 in Hh. exact Hh.
Qed.

Lemma era5_day_count (h : Z) :
  (0 <= h < 24)%Z ->
  length (List.filter (fun r => (hour (fst r) =? h)%Z) era5_day) = 1%nat.
Proof.
  intros Hh.
  assert (H : (h = 0 \/ h = 1 \/ h = 2 \/ h = 3 \/ h = 4 \/ h = 5 \/ h = 6 \/
               h = 7 \/ h = 8 \/ h = 9 \/ h = 10 \/ h = 11 \/ h = 12 \/
               h = 13 \/ h = 14 \/ h = 15 \/ h = 16 \/ h = 17 \/ h = 18 \/
               h = 19 \/ h = 20 \/ h = 21 \/ h = 22 \/ h = 23)%Z) by lia.
  repeat (destruct H as [-> | H]; [ reflexivity | ]).
  subst h. reflexivity.
Qed.

Lemma balanced_reference_keeps_daily_mean_witness :
  exists day,
    hours_loop era5_day (calendar_day 2050 1) 10 range24 = Some day /\
    mean (map snd day) = 10.
Proof.
  destruct (balanced_reference_keeps_daily_mean era5_day 1
              (calendar_day 2050 1) 10 (Nat.lt_0_succ 0)
              era5_day_valid era5_day_count) as (day & E & _ & Hm).
  exists day. split; [ exact E | exact Hm ].
Defined.

(** ** Timestamps of a day *)

(** X26.  The 24 records written for a daily row carry strictly
    increasing timestamps, each with an hour of the day between 0 and 23;
    for a row dated at midnight they are the hours 0, ..., 23 of that
    same day. *)
Theorem day_timestamps_increase (t : Timestamp) (h h' : Z) :
  valid_hour t ->
  (0 <= h < h')%Z -> (h' < 24)%Z ->
  ts_ltb (add_hours t h) (add_hours t h') = true /\
  valid_hour (add_hours t h) /\
  (hour t = 0%Z ->
   add_hours t h = mkTimestamp (year t) (tm_yday t) h).
Proof.
  unfold valid_hour. intros Ht Hh Hh'.
  split; [ | split ].
  - apply ts_ltb_spec. unfold add_hours.
    destruct (Z.ltb_spec (hour t + h) 24);
      destruct (Z.ltb_spec (hour t + h') 24);
      destruct (Z.ltb_spec (tm_yday t) (days_in_year (year t)));
      simpl; lia.
  - unfold add_hours.
    destruct (Z.ltb_spec (hour t + h) 24);
      destruct (Z.ltb_spec (tm_yday t) (days_in_year (year t)));
      simpl; lia.
  - intros H0. unfold add_hours. rewrite H0.
    destruct (Z.ltb_spec (0 + h) 24); [ | lia ].
    f_equal.
Qed.

Lemma day_timestamps_increase_witness :
  ts_ltb (add_hours (mkTimestamp 2050 365 12) 11)
         (add_hours (mkTimestamp 2050 365 12) 12) = true.
Proof.
  apply (day_timestamps_increase (mkTimestamp 2050 365 12) 11 12).
  - unfold valid_hour. simpl. lia.
  - lia.
  - lia.
Defined.

(* ===================================================================== *)
(** * Cumulative forcing *)
(* ===================================================================== *)

(** X27.  [compute_forcing] returns one value per hour; the value at hour
    [t] is the sum of [max(0, T - T_base)] over the hours up to and
    including [t], so the series is never negative and never decreases. *)
Theorem compute_forcing_prefix_sums (temps : list R) (T_base : R) :
  length (compute_forcing temps T_base) = length temps /\
  (forall t T, nth_error temps t = Some T ->
     nth_error (compute_forcing temps T_base) t
     = Some (spec_cum_forcing temps T_base t)) /\
  (forall t c, nth_error (compute_forcing temps T_base) t = Some c ->
     0 <= c) /\
  (forall t u c c', (t <= u)%nat ->
     nth_error (compute_forcing temps T_base) t = Some c ->
     nth_error (compute_forcing temps T_base) u = Some c' ->
     c <= c').
Proof.
  assert (Hlen : length (compute_forcing temps T_base) = length temps).
  { unfold compute_forcing, cumsum, maximum0_minus.
    rewrite cumsum_from_length, length_map. reflexivity. }
  assert (Hnth : forall t T, nth_error temps t = Some T ->
     nth_error (compute_forcing temps T_base) t
     = Some (spec_cum_forcing temps T_base t)).
  { intros t T H.
    destruct (compute_forcing_nth temps T_base t T H) as (c & Hc & ->).
    exact Hc. }
  assert (Hinv : forall t c,
     nth_error (compute_forcing temps T_base) t = Some c ->
     c = spec_cum_forcing temps T_base t).
  { intros t c H.
    assert (Hlt : (t < length temps)%nat).
    { rewrite <- Hlen. apply nth_error_Some. rewrite H. discriminate. }
    destruct (nth_error temps t) as [T | ] eqn:ET.
    - rewrite (Hnth t T ET) in H. congruence.
    - apply nth_error_None in ET. lia. }
  split; [ exact Hlen | ]. split; [ exact Hnth | ]. split.
  - intros t c H. rewrite (Hinv t c H). apply spec_cum_forcing_nonneg.
  - intros t u c c' Htu Hc Hc'.
    rewrite (Hinv t c Hc), (Hinv u c' Hc').
    apply spec_cum_forcing_mono, Htu.
Qed.

Lemma compute_forcing_prefix_sums_witness :
  nth_error (compute_forcing [6; 4; 8] 5) 2%nat
  = Some (spec_cum_forcing [6; 4; 8] 5 2%nat).
Proof.
  apply (proj1 (proj2 (compute_forcing_prefix_sums [6; 4; 8] 5)) 2%nat 8).
  reflexivity.
Defined.
